(** * SD card over SPI: block driver of station2.c

    A shallow embedding of the SD/SPI block driver (the second half of
    [src/station2/station2.c], from [sd_cmd_spi] to [sd_init]) and the
    properties of its specification.

    Conventions of the embedding.
    - C integers are [Z]; every place where the C value is narrowed to a
      fixed width has the wrap-around written out ([u8], [u16], [u32],
      [u64]).  [char] is unsigned, as on the ARM target the file is built
      for ([pico/stdlib.h]).
    - The driver talks to its environment through the platform's SPI
      primitives, which are not part of the file.  The environment is a
      record [spi_t]: the bytes the card will shift out ([rx], the line
      idles at 0xFF when the list is used up), the outcome of every
      deadline test ([clock], elapsed when used up), the progress of every
      DMA transfer ([dma]), the card-detect switch, the page found at
      address 0, and the chronological [trace] of everything the driver
      did to the platform.
    - Driver code is written in a small state monad over [state]. *)

From Stdlib Require Import ZArith List Bool Lia.
Import ListNotations.
Local Open Scope Z_scope.

(** ** Fixed-width integers *)

Definition u8 (x : Z) : Z := x mod 256.
Definition u16 (x : Z) : Z := x mod 65536.
Definition u32 (x : Z) : Z := x mod 2 ^ 32.
Definition u64 (x : Z) : Z := x mod 2 ^ 64.

(** [x & mask] seen as a C truth value. *)
Definition anybit (x mask : Z) : bool := negb (Z.land x mask =? 0).

(** ** Constants of the protocol (the #defines of the file) *)

Definition SPI_FILL_CHAR : Z := 0xFF.

Definition SPI_DATA_RESPONSE_MASK : Z := 0x1F.
Definition SPI_DATA_ACCEPTED : Z := 0x05.
Definition SPI_DATA_CRC_ERROR : Z := 0x0B.
Definition SPI_DATA_WRITE_ERROR : Z := 0x0D.
Definition SPI_START_BLOCK : Z := 0xFE.
Definition SPI_START_BLK_MUL_WRITE : Z := 0xFC.
Definition SPI_STOP_TRAN : Z := 0xFD.

Definition R1_NO_RESPONSE : Z := 0xFF.
Definition R1_RESPONSE_RECV : Z := 0x80.
Definition R1_IDLE_STATE : Z := 1.
Definition R1_ERASE_RESET : Z := 2.
Definition R1_ILLEGAL_COMMAND : Z := 4.
Definition R1_COM_CRC_ERROR : Z := 8.
Definition R1_ERASE_SEQUENCE_ERROR : Z := 16.
Definition R1_ADDRESS_ERROR : Z := 32.
Definition R1_PARAMETER_ERROR : Z := 64.

Definition PACKET_SIZE : nat := 6.

Definition OCR_HCS_CCS : Z := Z.shiftl 1 30.
Definition OCR_LOW_VOLTAGE : Z := Z.shiftl 1 24.
Definition OCR_3_3V : Z := Z.shiftl 1 20.

Definition SD_COMMAND_RETRIES : nat := 3.
Definition SD_COMMAND_TIMEOUT : Z := 2000.
Definition SD_CMD0_GO_IDLE_STATE_RETRIES : nat := 10.
Definition CMD8_PATTERN : Z := 0xAA.

(** Status bits of [m_Status]; the values are those the comment in
    [sd_init] quotes from diskio.h. *)
Definition STA_NOINIT : Z := 1.
Definition STA_NODISK : Z := 2.
Definition STA_PROTECT : Z := 4.

(** The block size [_block_size] is declared in sd_card.h; the file
    fixes it to 512 bytes with CMD16. *)
Definition _block_size : Z := 512.

(** [cmdSupported] is an enum of sd_card.h; a command is its opcode
    number, the one its name carries. *)
Definition cmdSupported := Z.
Definition CMD0_GO_IDLE_STATE : cmdSupported := 0.
Definition CMD8_SEND_IF_COND : cmdSupported := 8.
Definition CMD9_SEND_CSD : cmdSupported := 9.
Definition CMD10_SEND_CID : cmdSupported := 10.
Definition CMD12_STOP_TRANSMISSION : cmdSupported := 12.
Definition CMD13_SEND_STATUS : cmdSupported := 13.
Definition CMD16_SET_BLOCKLEN : cmdSupported := 16.
Definition CMD17_READ_SINGLE_BLOCK : cmdSupported := 17.
Definition CMD18_READ_MULTIPLE_BLOCK : cmdSupported := 18.
Definition CMD24_WRITE_BLOCK : cmdSupported := 24.
Definition CMD25_WRITE_MULTIPLE_BLOCK : cmdSupported := 25.
Definition CMD38_ERASE : cmdSupported := 38.
Definition CMD55_APP_CMD : cmdSupported := 55.
Definition CMD58_READ_OCR : cmdSupported := 58.
Definition CMD59_CRC_ON_OFF : cmdSupported := 59.
Definition ACMD23_SET_WR_BLK_ERASE_COUNT : cmdSupported := 23.
Definition ACMD41_SD_SEND_OP_COND : cmdSupported := 41.

Definition SPI_CMD (x : Z) : Z := Z.lor 0x40 (Z.land x 0x3f).

(** Error kinds ([SD_BLOCK_DEVICE_ERROR_*]); the code only compares them
    with each other and with 0, which is [SD_BLOCK_DEVICE_ERROR_NONE]. *)
Inductive sd_error : Type :=
| SD_BLOCK_DEVICE_ERROR_NONE
| SD_BLOCK_DEVICE_ERROR_NO_DEVICE
| SD_BLOCK_DEVICE_ERROR_CRC
| SD_BLOCK_DEVICE_ERROR_PARAMETER
| SD_BLOCK_DEVICE_ERROR_UNSUPPORTED
| SD_BLOCK_DEVICE_ERROR_NO_INIT
| SD_BLOCK_DEVICE_ERROR_WRITE
| SD_BLOCK_DEVICE_ERROR_WRITE_PROTECTED
| SD_BLOCK_DEVICE_ERROR_ERASE
| SD_BLOCK_DEVICE_ERROR_NO_RESPONSE
| SD_BLOCK_DEVICE_ERROR_UNUSABLE.

Definition is_none (e : sd_error) : bool :=
  match e with SD_BLOCK_DEVICE_ERROR_NONE => true | _ => false end.

Definition is_unsupported (e : sd_error) : bool :=
  match e with SD_BLOCK_DEVICE_ERROR_UNSUPPORTED => true | _ => false end.

(** Capacity class of the card ([card_type]). *)
Inductive card_type_t : Type :=
| SDCARD_NONE
| SDCARD_V1
| SDCARD_V2
| SDCARD_V2HC
| CARD_UNKNOWN.

Definition is_v2 (t : card_type_t) : bool :=
  match t with SDCARD_V2 => true | _ => false end.

Definition is_v2hc (t : card_type_t) : bool :=
  match t with SDCARD_V2HC => true | _ => false end.

(** ** Bit and CRC utilities (crc.h, util.h) *)

(** Modelled from the spec: [crc7] lives in crc.h.  CRC-7 with the
    standard polynomial x^7 + x^3 + 1 over the bytes of a command packet,
    most significant bit first, starting from 0. *)
Definition crc7_bit (crc : Z) (b : bool) : Z :=
  let top := Z.testbit crc 6 in
  let sh := Z.land (Z.shiftl crc 1) 0x7F in
  if xorb top b then Z.lxor sh 0x09 else sh.

Definition crc7_byte (crc byte : Z) : Z :=
  fold_left (fun c i => crc7_bit c (Z.testbit byte i)) [7; 6; 5; 4; 3; 2; 1; 0] crc.

Definition crc7 (data : list Z) : Z := fold_left crc7_byte data 0.

(** Modelled from the spec: [crc16] lives in crc.h.  CRC-16 of a data
    block with the polynomial x^16 + x^12 + x^5 + 1 the SD protocol uses,
    most significant bit first, starting from 0. *)
Definition crc16_step (crc : Z) (_ : Z) : Z :=
  if Z.testbit crc 15
  then Z.land (Z.lxor (Z.shiftl crc 1) 0x1021) 0xFFFF
  else Z.land (Z.shiftl crc 1) 0xFFFF.

Definition crc16_byte (crc byte : Z) : Z :=
  fold_left crc16_step [7; 6; 5; 4; 3; 2; 1; 0] (Z.lxor crc (Z.shiftl (u8 byte) 8)).

Definition crc16 (data : list Z) : Z := fold_left crc16_byte data 0.

(** Modelled from the spec: [ext_bits] lives in util.h.  The unsigned
    integer formed by bits [msb..lsb] (inclusive) of a 16-byte register
    read most significant byte first: bit 127 is the top bit of byte 0,
    bit 0 the lowest bit of byte 15. *)
Definition reg_bit (data : list Z) (position : Z) : bool :=
  Z.testbit (nth (Z.to_nat (15 - Z.shiftr position 3)) data 0) (Z.land position 7).

Fixpoint ext_bits_from (data : list Z) (lsb : Z) (size : nat) : Z :=
  match size with
  | O => 0
  | S n => Z.b2z (reg_bit data lsb) + 2 * ext_bits_from data (lsb + 1) n
  end.

Definition ext_bits (data : list Z) (msb lsb : Z) : Z :=
  ext_bits_from data lsb (Z.to_nat (1 + msb - lsb)).

(** ** The card session and its environment *)

(** The fields of [sd_card_t] the driver works on. *)
Record sd_card_t : Type := mk_sd_card {
  card_type : card_type_t;
  m_Status : Z;
  sectors : Z;
  csd : list Z;
  cid : list Z
}.

(** What the driver does to the platform, in the order it does it.  The
    last constructor is the trace hook at the head of [sd_cmd]; the value
    logged is the 32-bit argument the function received. *)
Inductive event : Type :=
| EvLock                          (* mutex_enter_blocking *)
| EvUnlock                        (* mutex_exit *)
| EvSpiAcquire                    (* sd_spi_acquire *)
| EvSpiRelease                    (* sd_spi_release *)
| EvXfer (tx rx : Z)              (* sd_spi_write: one byte each way *)
| EvDmaTx (data : list Z)         (* spi_transfer_start, host to card *)
| EvDmaRx (data : list Z)         (* spi_transfer_start, card to host *)
| EvDmaWait (ok : bool)           (* spi_transfer_wait_complete *)
| EvSelect
| EvDeselect
| EvDeselectPulse
| EvLowFrequency
| EvHighFrequency
| EvInitSequence
| EvBusyWait (us : Z)
| EvCardDetect (present : bool)
| EvCmd (cmd arg : Z) (isAcmd : bool).  (* sd_cmd entered: its TRACE_PRINTF *)

Record spi_t : Type := mk_spi {
  rx : list Z;
  clock : list bool;
  dma : list nat;
  dma_pending : bool;
  card_present : bool;
  null_page : list Z;
  trace : list event
}.

Record state : Type := mk_state {
  card : sd_card_t;
  spi : spi_t;
  crc_on : bool
}.

Definition set_card (c : sd_card_t) (s : state) : state :=
  mk_state c (spi s) (crc_on s).

Definition set_spi (b : spi_t) (s : state) : state :=
  mk_state (card s) b (crc_on s).

Definition set_card_type (t : card_type_t) (c : sd_card_t) : sd_card_t :=
  mk_sd_card t (m_Status c) (sectors c) (csd c) (cid c).

Definition set_m_Status (v : Z) (c : sd_card_t) : sd_card_t :=
  mk_sd_card (card_type c) v (sectors c) (csd c) (cid c).

Definition set_sectors (v : Z) (c : sd_card_t) : sd_card_t :=
  mk_sd_card (card_type c) (m_Status c) v (csd c) (cid c).

Definition set_csd (v : list Z) (c : sd_card_t) : sd_card_t :=
  mk_sd_card (card_type c) (m_Status c) (sectors c) v (cid c).

Definition set_cid (v : list Z) (c : sd_card_t) : sd_card_t :=
  mk_sd_card (card_type c) (m_Status c) (sectors c) (csd c) v.

Definition log (e : event) (b : spi_t) : spi_t :=
  mk_spi (rx b) (clock b) (dma b) (dma_pending b) (card_present b)
         (null_page b) (trace b ++ [e]).

(** ** The state monad of the driver *)

Definition M (A : Type) : Type := state -> A * state.

Definition ret {A : Type} (a : A) : M A := fun s => (a, s).

Definition bind {A B : Type} (m : M A) (k : A -> M B) : M B :=
  fun s => let (a, s') := m s in k a s'.

Declare Scope sd_scope.
Delimit Scope sd_scope with sd.
Notation "x <- m ;; k" := (bind m (fun x => k))
  (at level 61, m at next level, right associativity) : sd_scope.
Notation "' pat <- m ;; k" := (bind m (fun x => match x with pat => k end))
  (at level 61, pat pattern, m at next level, right associativity) : sd_scope.
Notation "m ;;; k" := (bind m (fun _ => k))
  (at level 61, right associativity) : sd_scope.
Local Open Scope sd_scope.

Definition get_card : M sd_card_t := fun s => (card s, s).
Definition put_card (c : sd_card_t) : M unit := fun s => (tt, set_card c s).
Definition get_crc_on : M bool := fun s => (crc_on s, s).
Definition emit (e : event) : M unit := fun s => (tt, set_spi (log e (spi s)) s).

(** ** Platform primitives (sd_spi.h, pico SDK)

    These are provided by the platform; the driver only calls them.  Each
    one is logged in the trace.  Chip-select, clock-rate and delay
    primitives have no other effect in the model. *)

(** [sd_spi_write]: one full-duplex byte exchange; returns the byte the
    card shifted out while [value] was shifted in. *)
Definition sd_spi_write (value : Z) : M Z := fun s =>
  let b := spi s in
  let r := u8 (hd SPI_FILL_CHAR (rx b)) in
  (r, set_spi (mk_spi (tl (rx b)) (clock b) (dma b) (dma_pending b)
                      (card_present b) (null_page b)
                      (trace b ++ [EvXfer (u8 value) r])) s).

(** The test [0 < absolute_time_diff_us (get_absolute_time (), timeout_time)]
    on a deadline made by [make_timeout_time_ms (timeout)], whose parameter
    is a [uint32_t]: an [int] handed to it is converted, so that a negative
    timeout is a deadline far ahead.  A deadline of 0 ms has elapsed as
    soon as it is made; otherwise the environment answers. *)
Definition time_left (timeout : Z) : M bool := fun s =>
  if u32 timeout =? 0 then (false, s)
  else
    let b := spi s in
    (hd false (clock b),
     set_spi (mk_spi (rx b) (tl (clock b)) (dma b) (dma_pending b)
                     (card_present b) (null_page b) (trace b)) s).

(** [n] bytes off the card's output, 0xFF once it is used up. *)
Fixpoint take_rx (n : nat) (l : list Z) : list Z * list Z :=
  match n with
  | O => ([], l)
  | S n' =>
      let (d, rest) := take_rx n' (tl l) in
      (u8 (hd SPI_FILL_CHAR l) :: d, rest)
  end.

(** [spi_transfer_start (spi, tx, rx, length)]: a DMA transfer of
    [length] bytes, one of [tx], [rx] being NULL.  The environment says
    how many bytes move before the driver stops waiting; the transfer is
    complete when that covers [length].  Returns the bytes received. *)
Definition sd_spi_transfer_start (tx : option (list Z)) (length : nat)
  : M (list Z) := fun s =>
  let b := spi s in
  let progress := hd length (dma b) in
  let moved := Nat.min progress length in
  let (data, rest) := take_rx moved (rx b) in
  let e := match tx with
           | Some out => EvDmaTx (firstn moved out)
           | None => EvDmaRx data
           end in
  (data, set_spi (mk_spi rest (clock b) (tl (dma b)) (length <=? progress)%nat
                         (card_present b) (null_page b) (trace b ++ [e])) s).

(** [spi_transfer_wait_complete (spi, timeout_ms)]. *)
Definition sd_spi_transfer_wait_complete (timeout_ms : Z) : M bool := fun s =>
  let ok := dma_pending (spi s) in
  (ok, set_spi (log (EvDmaWait ok) (spi s)) s).

Definition sd_lock : M unit := emit EvLock.
Definition sd_unlock : M unit := emit EvUnlock.
Definition sd_spi_acquire : M unit := emit EvSpiAcquire.
Definition sd_spi_release : M unit := emit EvSpiRelease.
Definition sd_spi_select : M unit := emit EvSelect.
Definition sd_spi_deselect : M unit := emit EvDeselect.
Definition sd_spi_deselect_pulse : M unit := emit EvDeselectPulse.
Definition sd_spi_go_low_frequency : M unit := emit EvLowFrequency.
Definition sd_spi_go_high_frequency : M unit := emit EvHighFrequency.
Definition sd_spi_send_initializing_sequence : M unit := emit EvInitSequence.
Definition busy_wait_us (us : Z) : M unit := emit (EvBusyWait us).

(** Modelled from the spec: [sd_card_detect] lives in sd_card.c.  It
    confirms medium presence: with a card in the socket the no-medium bit
    is cleared, without one the no-medium bit is set and the session is
    not initialized. *)
Definition sd_card_detect : M bool := fun s =>
  let p := card_present (spi s) in
  let c := card s in
  let st := if p then Z.land (m_Status c) (Z.lnot STA_NODISK)
            else Z.lor (m_Status c) (Z.lor STA_NODISK STA_NOINIT) in
  (p, mk_state (set_m_Status st c) (log (EvCardDetect p) (spi s)) (crc_on s)).

(** ** Command layer *)

Definition when (b : bool) (m : M unit) : M unit := if b then m else ret tt.

Fixpoint send_bytes (l : list Z) : M unit :=
  match l with
  | [] => ret tt
  | x :: l' => _ <- sd_spi_write x ;; send_bytes l'
  end.

(** The loop [for (i = 0; i < 0x10; i++)] of [sd_cmd_spi]: the first byte
    with the top bit clear, or the 16th byte read. *)
Fixpoint sd_cmd_spi_poll (n : nat) (response : Z) : M Z :=
  match n with
  | O => ret response
  | S n' =>
      r <- sd_spi_write SPI_FILL_CHAR ;;
      if anybit r R1_RESPONSE_RECV then sd_cmd_spi_poll n' r else ret r
  end.

(** The CRC byte of a command packet, [cmdPacket[5]]. *)
Definition cmdPacket5 (on : bool) (cmd : cmdSupported) (body : list Z) : Z :=
  if on then u8 (Z.lor (Z.shiftl (crc7 body) 1) 0x01)
  else if cmd =? CMD0_GO_IDLE_STATE then 0x95
  else if cmd =? CMD8_SEND_IF_COND then 0x87
  else 0xFF.

Definition cmdPacket (on : bool) (cmd : cmdSupported) (arg : Z) : list Z :=
  let body := [u8 (SPI_CMD cmd); u8 (Z.shiftr arg 24); u8 (Z.shiftr arg 16);
               u8 (Z.shiftr arg 8); u8 (Z.shiftr arg 0)] in
  body ++ [cmdPacket5 on cmd body].

Definition sd_cmd_spi (cmd : cmdSupported) (arg : Z) : M Z :=
  on <- get_crc_on ;;
  send_bytes (cmdPacket on cmd (u32 arg)) ;;;
  (if cmd =? CMD12_STOP_TRANSMISSION
   then _ <- sd_spi_write SPI_FILL_CHAR ;; ret tt
   else ret tt) ;;;
  sd_cmd_spi_poll 16 R1_NO_RESPONSE.

(** The do-while loop of [sd_wait_ready].  [fuel] bounds the number of
    further rounds; one round more needs one more positive answer of the
    clock, so the length of [clock] is enough. *)
Fixpoint sd_wait_ready_loop (fuel : nat) (timeout : Z) : M Z :=
  resp <- sd_spi_write 0xFF ;;
  if resp =? 0x00 then
    more <- time_left timeout ;;
    if more then
      match fuel with
      | O => ret resp
      | S f => sd_wait_ready_loop f timeout
      end
    else ret resp
  else ret resp.

Definition sd_wait_ready (timeout : Z) : M bool := fun s =>
  let (resp, s') := sd_wait_ready_loop (length (clock (spi s))) timeout s in
  (0x00 <? resp, s').

(** The retry loop of [sd_cmd]; 0xFF is left in [response] when every
    attempt went unanswered. *)
Fixpoint sd_cmd_retry (n : nat) (cmd : cmdSupported) (arg : Z) (isAcmd : bool)
  : M Z :=
  match n with
  | O => ret R1_NO_RESPONSE
  | S n' =>
      (if isAcmd
       then _ <- sd_cmd_spi CMD55_APP_CMD 0x0 ;;
            _ <- sd_wait_ready SD_COMMAND_TIMEOUT ;; ret tt
       else ret tt) ;;;
      response <- sd_cmd_spi cmd arg ;;
      if response =? R1_NO_RESPONSE then sd_cmd_retry n' cmd arg isAcmd
      else ret response
  end.

(** The status the R1 byte stands for, before the response tail is read. *)
Definition r1_status (response : Z) : sd_error :=
  if anybit response R1_ERASE_RESET || anybit response R1_ERASE_SEQUENCE_ERROR
  then SD_BLOCK_DEVICE_ERROR_ERASE
  else if anybit response R1_ADDRESS_ERROR || anybit response R1_PARAMETER_ERROR
  then SD_BLOCK_DEVICE_ERROR_PARAMETER
  else SD_BLOCK_DEVICE_ERROR_NONE.

(** The chain of [if (response & 0x01 << k) status = ...;] of the CMD13
    case, in the order of the source: the last matching bit wins. *)
Definition r2_status (response : Z) (status : sd_error) : sd_error :=
  let upd (k : Z) (e : sd_error) (st : sd_error) :=
    if Z.testbit response k then e else st in
  let st := upd 0 SD_BLOCK_DEVICE_ERROR_WRITE status in
  let st := upd 1 SD_BLOCK_DEVICE_ERROR_WRITE_PROTECTED st in
  let st := upd 2 SD_BLOCK_DEVICE_ERROR_WRITE st in
  let st := upd 3 SD_BLOCK_DEVICE_ERROR_WRITE st in
  let st := upd 4 SD_BLOCK_DEVICE_ERROR_WRITE st in
  let st := upd 5 SD_BLOCK_DEVICE_ERROR_WRITE_PROTECTED st in
  let st := upd 6 SD_BLOCK_DEVICE_ERROR_ERASE st in
  let st := upd 7 SD_BLOCK_DEVICE_ERROR_PARAMETER st in
  let st := upd 8 SD_BLOCK_DEVICE_ERROR_NONE st in
  let st := upd 9 SD_BLOCK_DEVICE_ERROR_ERASE st in
  let st := upd 10 SD_BLOCK_DEVICE_ERROR_UNSUPPORTED st in
  let st := upd 11 SD_BLOCK_DEVICE_ERROR_CRC st in
  let st := upd 12 SD_BLOCK_DEVICE_ERROR_ERASE st in
  let st := upd 13 SD_BLOCK_DEVICE_ERROR_PARAMETER st in
  upd 14 SD_BLOCK_DEVICE_ERROR_PARAMETER st.

Definition set_type (t : card_type_t) : M unit := fun s =>
  (tt, set_card (set_card_type t (card s)) s).

(** The 4-byte tail of an R3/R7 response, most significant byte first. *)
Definition read_r3_r7 : M Z :=
  b3 <- sd_spi_write SPI_FILL_CHAR ;;
  b2 <- sd_spi_write SPI_FILL_CHAR ;;
  b1 <- sd_spi_write SPI_FILL_CHAR ;;
  b0 <- sd_spi_write SPI_FILL_CHAR ;;
  ret (Z.lor (Z.lor (Z.lor (u32 (Z.shiftl b3 24)) (Z.shiftl b2 16))
                    (Z.shiftl b1 8)) b0).

(** The part of [sd_cmd] that follows the retry loop: classify the R1
    byte and read the rest of the response.  Returns the status and the
    value left in [*resp]. *)
Definition sd_cmd_process (cmd : cmdSupported) (response : Z) : M (sd_error * Z) :=
  if response =? R1_NO_RESPONSE then
    ret (SD_BLOCK_DEVICE_ERROR_NO_RESPONSE, response)
  else if anybit response R1_COM_CRC_ERROR
          && negb (cmd =? ACMD23_SET_WR_BLK_ERASE_COUNT) then
    ret (SD_BLOCK_DEVICE_ERROR_CRC, response)
  else if anybit response R1_ILLEGAL_COMMAND then
    when (cmd =? CMD8_SEND_IF_COND) (set_type CARD_UNKNOWN) ;;;
    ret (SD_BLOCK_DEVICE_ERROR_UNSUPPORTED, response)
  else
    let status := r1_status response in
    if cmd =? CMD8_SEND_IF_COND then
      set_type SDCARD_V2 ;;;
      r <- read_r3_r7 ;;
      ret (status, r)
    else if cmd =? CMD58_READ_OCR then
      r <- read_r3_r7 ;;
      ret (status, r)
    else if (cmd =? CMD12_STOP_TRANSMISSION) || (cmd =? CMD38_ERASE) then
      _ <- sd_wait_ready SD_COMMAND_TIMEOUT ;;
      ret (status, response)
    else if cmd =? CMD13_SEND_STATUS then
      b <- sd_spi_write SPI_FILL_CHAR ;;
      let r2 := Z.lor (u32 (Z.shiftl response 8)) b in
      if negb (r2 =? 0) then ret (r2_status r2 status, r2)
      else ret (status, r2)
    else ret (status, response).

(** The first half of [sd_cmd]: wait for the card, then send the command
    (and its retries).  [None] when the card did not become ready, else
    the byte the retry loop left in [response]. *)
Definition sd_cmd_send (cmd : cmdSupported) (arg : Z) (isAcmd : bool)
  : M (option Z) :=
  emit (EvCmd cmd arg isAcmd) ;;;
  ready <- (if negb (cmd =? CMD12_STOP_TRANSMISSION)
               && negb (cmd =? CMD0_GO_IDLE_STATE)
            then sd_wait_ready SD_COMMAND_TIMEOUT
            else ret true) ;;
  if negb ready then ret None
  else
    response <- sd_cmd_retry SD_COMMAND_RETRIES cmd arg isAcmd ;;
    ret (Some response).

(** [sd_cmd (sd_card_p, cmd, arg, isAcmd, resp)].  [resp0] is what [*resp]
    holds before the call; the second component of the result is what it
    holds after (callers that pass NULL ignore it). *)
Definition sd_cmd (cmd : cmdSupported) (arg : Z) (isAcmd : bool) (resp0 : Z)
  : M (sd_error * Z) :=
  r <- sd_cmd_send cmd (u32 arg) isAcmd ;;
  match r with
  | None => ret (SD_BLOCK_DEVICE_ERROR_NO_RESPONSE, resp0)
  | Some response => sd_cmd_process cmd response
  end.

Definition sd_cmd8 : M sd_error :=
  let arg := Z.lor (Z.shiftl CMD8_PATTERN 0) (Z.shiftl 0x1 8) in
  '(status, response) <- sd_cmd CMD8_SEND_IF_COND arg false 0 ;;
  c <- get_card ;;
  if is_none status && is_v2 (card_type c) then
    if negb (Z.land response 0xFFF =? arg) then
      set_type CARD_UNKNOWN ;;;
      ret SD_BLOCK_DEVICE_ERROR_UNUSABLE
    else ret status
  else ret status.

(** ** Data blocks *)

(** The do-while loop of [sd_wait_token]. *)
Fixpoint sd_wait_token_loop (fuel : nat) (token : Z) : M bool :=
  r <- sd_spi_write SPI_FILL_CHAR ;;
  if token =? r then ret true
  else
    more <- time_left SD_COMMAND_TIMEOUT ;;
    if more then
      match fuel with
      | O => ret false
      | S f => sd_wait_token_loop f token
      end
    else ret false.

Definition sd_wait_token (token : Z) : M bool := fun s =>
  sd_wait_token_loop (length (clock (spi s))) token s.

Definition chk_crc16 (on : bool) (buffer : list Z) (crc : Z) : bool :=
  if on then u16 (crc16 buffer) =? crc else true.

Fixpoint read_bytes_loop (n : nat) : M (list Z) :=
  match n with
  | O => ret []
  | S n' =>
      b <- sd_spi_write SPI_FILL_CHAR ;;
      rest <- read_bytes_loop n' ;;
      ret (b :: rest)
  end.

(** The two CRC bytes that follow a block, as the [uint16_t] the code
    builds from them. *)
Definition read_crc16 : M Z :=
  hi <- sd_spi_write SPI_FILL_CHAR ;;
  lo <- sd_spi_write SPI_FILL_CHAR ;;
  ret (Z.lor (u16 (Z.shiftl hi 8)) lo).

(** [sd_read_bytes (sd_card_p, buffer, length)]: returns the status and
    the content of [buffer] after the call. *)
Definition sd_read_bytes (buffer : list Z) (length : nat) : M (sd_error * list Z) :=
  tok <- sd_wait_token SPI_START_BLOCK ;;
  if negb tok then ret (SD_BLOCK_DEVICE_ERROR_NO_RESPONSE, buffer)
  else
    data <- read_bytes_loop length ;;
    crc <- read_crc16 ;;
    on <- get_crc_on ;;
    let buffer' := data ++ skipn length buffer in
    if negb (chk_crc16 on data crc)
    then ret (SD_BLOCK_DEVICE_ERROR_CRC, buffer')
    else ret (SD_BLOCK_DEVICE_ERROR_NONE, buffer').

(** ** Geometry decoder *)

(** The [switch (csd_structure)] of [in_sd_spi_sectors]: the number of
    blocks a capacity register stands for.  [c_size], [mult], [blocknr]
    and [hc_c_size] are [uint32_t], [capacity] and [blocks] are
    [uint64_t].  The default case is the one left when assertions are
    compiled out. *)
Definition csd_blocks (csd : list Z) : Z :=
  let csd_structure := ext_bits csd 127 126 in
  if csd_structure =? 0 then
    let c_size := ext_bits csd 73 62 in
    let c_size_mult := ext_bits csd 49 47 in
    let read_bl_len := ext_bits csd 83 80 in
    let block_len := u32 (Z.shiftl 1 read_bl_len) in
    let mult := u32 (Z.shiftl 1 (c_size_mult + 2)) in
    let blocknr := u32 ((c_size + 1) * mult) in
    let capacity := u64 (blocknr * block_len) in
    capacity / _block_size
  else if csd_structure =? 1 then
    let hc_c_size := ext_bits csd 69 48 in
    u32 (Z.shiftl (u32 (hc_c_size + 1)) 10)
  else 0.

Definition in_sd_spi_sectors : M Z :=
  '(st, _) <- sd_cmd CMD9_SEND_CSD 0x0 false 0 ;;
  if negb (is_none st) then ret 0
  else
    c <- get_card ;;
    '(st2, csd') <- sd_read_bytes (csd c) 16 ;;
    put_card (set_csd csd' c) ;;;
    if negb (is_none st2) then ret 0
    else ret (csd_blocks csd').

Definition sd_acquire : M unit := sd_lock ;;; sd_spi_acquire.
Definition sd_release : M unit := sd_unlock ;;; sd_spi_release.

Definition sd_spi_sectors : M Z :=
  sd_acquire ;;;
  sectors <- in_sd_spi_sectors ;;
  sd_release ;;;
  ret sectors.

(** ** Reading blocks *)

(** [data] stored into [buffer] from index [off] on. *)
Definition write_at (buffer : list Z) (off : nat) (data : list Z) : list Z :=
  firstn off buffer ++ data ++ skipn (off + length data) buffer.

(** The block of [_block_size] bytes of [buffer] that starts at [off]. *)
Definition block_at (buffer : list Z) (off : nat) : list Z :=
  firstn (Z.to_nat _block_size) (skipn off buffer).

(** The block and CRC that [prev_buffer_addr] and [prev_block_crc]
    designate.  [prev_buffer_addr] is still null after the loop only in a
    request for zero blocks; with CRC checking on the code then hands the
    null pointer to [crc16].  What is read there is whatever the platform
    maps at address 0, an input [null_page] of the model; a platform on
    which that access faults is not modelled. *)
Definition prev_block (b : spi_t) (buffer : list Z) (prev : option (nat * Z))
  : list Z * Z :=
  match prev with
  | Some (poff, pcrc) => (block_at buffer poff, pcrc)
  | None => (null_page b, 0)
  end.

(** The receive loop of [in_sd_read_blocks], entered with status NONE.
    [off] is [buffer_addr] as an index into the destination, [prev] the
    pair [prev_buffer_addr], [prev_block_crc] once set.  Returns the
    status, the destination and [prev] at loop exit. *)
Fixpoint read_blocks_loop (blockCnt : nat) (buffer : list Z) (off : nat)
    (prev : option (nat * Z)) : M (sd_error * list Z * option (nat * Z)) :=
  match blockCnt with
  | O => ret (SD_BLOCK_DEVICE_ERROR_NONE, buffer, prev)
  | S n =>
      tok <- sd_wait_token SPI_START_BLOCK ;;
      if negb tok then ret (SD_BLOCK_DEVICE_ERROR_NO_RESPONSE, buffer, prev)
      else
        data <- sd_spi_transfer_start None (Z.to_nat _block_size) ;;
        let buffer1 := write_at buffer off data in
        on <- get_crc_on ;;
        let status :=
          match prev with
          | Some (poff, pcrc) =>
              if negb (chk_crc16 on (block_at buffer1 poff) pcrc)
              then SD_BLOCK_DEVICE_ERROR_CRC
              else SD_BLOCK_DEVICE_ERROR_NONE
          | None => SD_BLOCK_DEVICE_ERROR_NONE
          end in
        ok <- sd_spi_transfer_wait_complete 1000 ;;
        if negb ok then ret (SD_BLOCK_DEVICE_ERROR_NO_RESPONSE, buffer1, prev)
        else
          crc <- read_crc16 ;;
          let prev' := Some (off, crc) in
          if is_none status
          then read_blocks_loop n buffer1 (off + Z.to_nat _block_size)%nat prev'
          else ret (status, buffer1, prev')
  end.

(** The address [addr] computed for a sector, a [uint64_t]. *)
Definition block_addr (t : card_type_t) (ulSectorNumber : Z) : Z :=
  if is_v2hc t then ulSectorNumber else u64 (ulSectorNumber * _block_size).

(** [in_sd_read_blocks (sd_card_p, buffer_addr, ulSectorNumber,
    ulSectorCount)]: returns the status and the destination buffer. *)
Definition in_sd_read_blocks (buffer : list Z) (ulSectorNumber ulSectorCount : Z)
  : M (sd_error * list Z) :=
  c <- get_card ;;
  if anybit (m_Status c) (Z.lor STA_NOINIT STA_NODISK) then
    ret (SD_BLOCK_DEVICE_ERROR_PARAMETER, buffer)
  else if u64 (ulSectorNumber + ulSectorCount) >? sectors c then
    ret (SD_BLOCK_DEVICE_ERROR_PARAMETER, buffer)
  else
    let addr := block_addr (card_type c) ulSectorNumber in
    '(status, _) <- (if ulSectorCount =? 1
                     then sd_cmd CMD17_READ_SINGLE_BLOCK addr false 0
                     else sd_cmd CMD18_READ_MULTIPLE_BLOCK addr false 0) ;;
    if negb (is_none status) then ret (status, buffer)
    else
      '(status, buffer', prev) <-
        read_blocks_loop (Z.to_nat ulSectorCount) buffer 0 None ;;
      when (ulSectorCount >? 1)
           (_ <- sd_cmd CMD12_STOP_TRANSMISSION 0x0 false 0 ;; ret tt) ;;;
      if is_none status then
        on <- get_crc_on ;;
        fun s =>
          let (blk, crc) := prev_block (spi s) buffer' prev in
          if negb (chk_crc16 on blk crc)
          then (SD_BLOCK_DEVICE_ERROR_CRC, buffer', s)
          else (status, buffer', s)
      else ret (status, buffer').

Definition sd_read_blocks (buffer : list Z) (ulSectorNumber ulSectorCount : Z)
  : M (sd_error * list Z) :=
  sd_acquire ;;;
  r <- in_sd_read_blocks buffer ulSectorNumber ulSectorCount ;;
  sd_release ;;;
  ret r.

(** ** Writing blocks *)

Definition sd_write_block (buffer : list Z) (token : Z) (length : nat)
  : M sd_error :=
  _ <- sd_spi_write token ;;
  _ <- sd_spi_transfer_start (Some buffer) length ;;
  on <- get_crc_on ;;
  let crc := if on then u16 (crc16 (firstn length buffer)) else 0xFFFF in
  ok <- sd_spi_transfer_wait_complete 1000 ;;
  if negb ok then ret SD_BLOCK_DEVICE_ERROR_WRITE
  else
    _ <- sd_spi_write (Z.shiftr crc 8) ;;
    _ <- sd_spi_write crc ;;
    response <- sd_spi_write SPI_FILL_CHAR ;;
    if negb (Z.land response SPI_DATA_RESPONSE_MASK =? SPI_DATA_ACCEPTED)
    then ret SD_BLOCK_DEVICE_ERROR_WRITE
    else
      ready <- sd_wait_ready SD_COMMAND_TIMEOUT ;;
      if negb ready then ret SD_BLOCK_DEVICE_ERROR_WRITE
      else ret SD_BLOCK_DEVICE_ERROR_NONE.

(** The do-while loop of the multi-block branch; [n] is the number of
    blocks still to send, this one included; [off] is [buffer] as an
    index into the source. *)
Fixpoint write_blocks_loop (n : nat) (buffer : list Z) (off : nat) : M sd_error :=
  match n with
  | O => ret SD_BLOCK_DEVICE_ERROR_NONE
  | S n' =>
      status <- sd_write_block (skipn off buffer) SPI_START_BLK_MUL_WRITE
                               (Z.to_nat _block_size) ;;
      match n' with
      | O => ret status
      | S _ =>
          if is_none status
          then write_blocks_loop n' buffer (off + Z.to_nat _block_size)%nat
          else ret status
      end
  end.

(** The end of [in_sd_write_blocks], common to both branches: the
    deselect pulse and the status query CMD13, whose status is returned. *)
Definition write_check_status : M sd_error :=
  sd_spi_deselect_pulse ;;;
  '(status, _) <- sd_cmd CMD13_SEND_STATUS 0 false 0 ;;
  ret status.

(** The multi-block branch of [in_sd_write_blocks] from the statement
    that follows the pre-erase hint.  [blockCnt] is a [uint32_t]:
    decremented from 0 it wraps, so a count of 0 runs the do-while loop
    2^32 times. *)
Definition write_multiple (buffer : list Z) (addr blockCnt : Z) : M sd_error :=
  sd_spi_deselect_pulse ;;;
  '(status, _) <- sd_cmd CMD25_WRITE_MULTIPLE_BLOCK addr false 0 ;;
  if negb (is_none status) then ret status
  else
    _ <- write_blocks_loop
           (Z.to_nat (if blockCnt =? 0 then 2 ^ 32 else blockCnt)) buffer 0 ;;
    _ <- sd_spi_write SPI_STOP_TRAN ;;
    write_check_status.

(** [in_sd_write_blocks (sd_card_p, buffer, ulSectorNumber, blockCnt)]. *)
Definition in_sd_write_blocks (buffer : list Z) (ulSectorNumber blockCnt : Z)
  : M sd_error :=
  c <- get_card ;;
  if u64 (ulSectorNumber + blockCnt) >? sectors c then
    ret SD_BLOCK_DEVICE_ERROR_PARAMETER
  else if anybit (m_Status c) (Z.lor STA_NOINIT STA_NODISK) then
    ret SD_BLOCK_DEVICE_ERROR_PARAMETER
  else
    let addr := block_addr (card_type c) ulSectorNumber in
    if blockCnt =? 1 then
      '(status, _) <- sd_cmd CMD24_WRITE_BLOCK addr false 0 ;;
      if negb (is_none status) then ret status
      else
        _ <- sd_write_block buffer SPI_START_BLOCK (Z.to_nat _block_size) ;;
        write_check_status
    else
      _ <- sd_cmd ACMD23_SET_WR_BLK_ERASE_COUNT blockCnt true 0 ;;
      write_multiple buffer addr blockCnt.

Definition sd_write_blocks (buffer : list Z) (ulSectorNumber blockCnt : Z)
  : M sd_error :=
  sd_acquire ;;;
  status <- in_sd_write_blocks buffer ulSectorNumber blockCnt ;;
  sd_release ;;;
  ret status.

(** ** Initialization *)

(** The loop of [sd_go_idle_state]; [response] starts at R1_NO_RESPONSE. *)
Fixpoint sd_go_idle_state_loop (n : nat) (response : Z) : M Z :=
  match n with
  | O => ret response
  | S n' =>
      '(_, response') <- sd_cmd CMD0_GO_IDLE_STATE 0x0 false response ;;
      if R1_IDLE_STATE =? response' then ret response'
      else
        sd_spi_deselect ;;;
        busy_wait_us (100 * 1000) ;;;
        sd_spi_select ;;;
        sd_go_idle_state_loop n' response'
  end.

Definition sd_go_idle_state : M Z :=
  sd_go_idle_state_loop SD_CMD0_GO_IDLE_STATE_RETRIES R1_NO_RESPONSE.

(** The do-while loop that enables CRC checking, [retries] starting at 3. *)
Fixpoint crc_enable_loop (retries : nat) : M sd_error :=
  match retries with
  | O => ret SD_BLOCK_DEVICE_ERROR_NONE
  | S n =>
      '(status, _) <- sd_cmd CMD59_CRC_ON_OFF 1 false 0 ;;
      match n with
      | O => ret status
      | S _ => if negb (is_none status) then crc_enable_loop n else ret status
      end
  end.

(** The do-while loop that repeats ACMD41 until the idle bit clears or
    the deadline has elapsed.  Returns [status] and [response]. *)
Fixpoint acmd41_loop (fuel : nat) (arg : Z) (response : Z) : M (sd_error * Z) :=
  '(status, response') <- sd_cmd ACMD41_SD_SEND_OP_COND arg true response ;;
  if anybit response' R1_IDLE_STATE then
    more <- time_left SD_COMMAND_TIMEOUT ;;
    if more then
      match fuel with
      | O => ret (status, response')
      | S f => acmd41_loop f arg response'
      end
    else ret (status, response')
  else ret (status, response').

(** The end of [sd_init_medium], from the test that follows the ACMD41
    loop: [status] and [response] are what the loop left. *)
Definition sd_init_medium_resolve (status : sd_error) (response : Z) : M sd_error :=
  if negb (is_none status) || negb (0x00 =? response) then
    set_type CARD_UNKNOWN ;;;
    ret status
  else
    c <- get_card ;;
    status <-
      (if is_v2 (card_type c) then
         '(status, response) <- sd_cmd CMD58_READ_OCR 0x0 false response ;;
         when (is_none status && anybit response OCR_HCS_CCS)
              (set_type SDCARD_V2HC) ;;;
         ret status
       else
         set_type SDCARD_V1 ;;;
         ret status) ;;
    on <- get_crc_on ;;
    if negb on then
      '(status, _) <- sd_cmd CMD59_CRC_ON_OFF 0 false 0 ;;
      ret status
    else ret status.

(** The ACMD41 loop of [sd_init_medium] with its deadline. *)
Definition sd_init_medium_poll (arg response : Z) : M (sd_error * Z) := fun s =>
  acmd41_loop (length (clock (spi s))) arg response s.

Definition sd_init_medium : M sd_error :=
  sd_spi_go_low_frequency ;;;
  sd_spi_send_initializing_sequence ;;;
  idle <- sd_go_idle_state ;;
  if negb (idle =? R1_IDLE_STATE) then ret SD_BLOCK_DEVICE_ERROR_NO_DEVICE
  else
    status <- sd_cmd8 ;;
    if negb (is_none status) && negb (is_unsupported status) then ret status
    else
      on <- get_crc_on ;;
      (if on then _ <- crc_enable_loop 3 ;; ret tt else ret tt) ;;;
      '(status, response) <- sd_cmd CMD58_READ_OCR 0x0 false 0 ;;
      if negb (is_none status) then ret status
      else if negb (anybit response OCR_3_3V) then
        set_type CARD_UNKNOWN ;;;
        ret SD_BLOCK_DEVICE_ERROR_UNUSABLE
      else
        c <- get_card ;;
        let arg := if is_v2 (card_type c) then Z.lor 0x0 OCR_HCS_CCS else 0x0 in
        '(status, response) <- sd_init_medium_poll arg response ;;
        sd_init_medium_resolve status response.

(** The loop of [sd_spi_test_com] that sends [cmd] until it is answered,
    at most SD_COMMAND_RETRIES times. *)
Fixpoint test_com_loop (n : nat) (cmd : cmdSupported) : M bool :=
  match n with
  | O => ret false
  | S n' =>
      response <- sd_cmd_spi cmd 0 ;;
      if negb (R1_NO_RESPONSE =? response) then ret true
      else test_com_loop n' cmd
  end.

Definition set_status (v : Z) : M unit := fun s =>
  (tt, set_card (set_m_Status v (card s)) s).

Definition sd_spi_test_com : M bool :=
  sd_acquire ;;;
  c <- get_card ;;
  success <-
    (if negb (anybit (m_Status c) STA_NOINIT) then
       ready <- sd_wait_ready 0 ;;
       if ready then
         success <- test_com_loop SD_COMMAND_RETRIES CMD13_SEND_STATUS ;;
         when (negb success) (set_status (Z.lor (m_Status c) STA_NOINIT)) ;;;
         ret success
       else ret true
     else
       set_type SDCARD_NONE ;;;
       sd_spi_go_low_frequency ;;;
       sd_spi_send_initializing_sequence ;;;
       ready <- sd_wait_ready 0 ;;
       if ready then test_com_loop SD_COMMAND_RETRIES CMD0_GO_IDLE_STATE
       else ret false) ;;
  sd_release ;;;
  ret success.

Definition get_status : M Z := fun s => (m_Status (card s), s).

(** The part of [sd_init] that runs with the bus held, from the call of
    [sd_init_medium] on. *)
Definition sd_init_locked : M Z :=
  err <- sd_init_medium ;;
  if negb (is_none err) then
    sd_release ;;; get_status
  else
    n <- in_sd_spi_sectors ;;
    (fun s => (tt, set_card (set_sectors n (card s)) s)) ;;;
    if 0 =? n then
      sd_release ;;; get_status
    else
      '(st, _) <- sd_cmd CMD10_SEND_CID 0x0 false 0 ;;
      if negb (is_none st) then
        sd_release ;;; get_status
      else
        c <- get_card ;;
        (* sizeof (cid_t): the 128-bit identification register *)
        '(st, cid') <- sd_read_bytes (cid c) 16 ;;
        (fun s => (tt, set_card (set_cid cid' (card s)) s)) ;;;
        if negb (is_none st) then
          sd_release ;;; get_status
        else
          '(st, _) <- sd_cmd CMD16_SET_BLOCKLEN _block_size false 0 ;;
          if negb (is_none st) then
            sd_release ;;; get_status
          else
            sd_spi_deselect ;;;
            sd_spi_go_high_frequency ;;;
            c <- get_card ;;
            set_status (Z.land (m_Status c) (Z.lnot STA_NOINIT)) ;;;
            sd_release ;;;
            get_status.

(** [sd_init (sd_card_p)]: returns [m_Status]. *)
Definition sd_init : M Z :=
  sd_lock ;;;
  _ <- sd_card_detect ;;
  c <- get_card ;;
  if anybit (m_Status c) STA_NODISK then
    sd_unlock ;;; get_status
  else if negb (anybit (m_Status c) STA_NOINIT) then
    sd_unlock ;;; get_status
  else
    set_type SDCARD_NONE ;;;
    sd_spi_acquire ;;;
    sd_init_locked.

(** ** Observations on a run *)

(** The events a computation added to the trace. *)
Definition events_since (s s' : state) : list event :=
  skipn (length (trace (spi s))) (trace (spi s')).

(** The bytes the host shifted out in single exchanges. *)
Fixpoint tx_bytes (evs : list event) : list Z :=
  match evs with
  | [] => []
  | EvXfer tx _ :: rest => tx :: tx_bytes rest
  | _ :: rest => tx_bytes rest
  end.

(** The 32-bit argument a command packet carries in its bytes 1 to 4. *)
Definition packet_arg (p : list Z) : Z :=
  nth 1 p 0 * 2 ^ 24 + nth 2 p 0 * 2 ^ 16 + nth 3 p 0 * 2 ^ 8 + nth 4 p 0.

(** Events that are neither a lock operation nor card detection; a
    command hook only for the commands listed. *)
Definition ev_ok (cmds : list Z) (e : event) : Prop :=
  match e with
  | EvLock | EvUnlock | EvSpiAcquire | EvSpiRelease | EvCardDetect _ => False
  | EvCmd c _ _ => In c cmds
  | _ => True
  end.

Definition is_dma (e : event) : bool :=
  match e with
  | EvDmaTx _ | EvDmaRx _ | EvDmaWait _ => true
  | _ => false
  end.

Definition is_stop_cmd (e : event) : bool :=
  match e with
  | EvCmd c _ _ => c =? CMD12_STOP_TRANSMISSION
  | _ => false
  end.



Definition is_xfer (e : event) : bool :=
  match e with EvXfer _ _ => true | _ => false end.


(** The data blocks received completely, each with the CRC that followed
    it on the wire. *)
Fixpoint received (evs : list event) : list (list Z * Z) :=
  match evs with
  | [] => []
  | EvDmaRx data :: rest =>
      match rest with
      | EvDmaWait true :: EvXfer _ hi :: EvXfer _ lo :: _ =>
          (data, Z.lor (u16 (Z.shiftl hi 8)) lo) :: received rest
      | _ => received rest
      end
  | _ :: rest => received rest
  end.

(** The commands each public operation sends through [sd_cmd]. *)
Definition read_cmds : list Z :=
  [CMD17_READ_SINGLE_BLOCK; CMD18_READ_MULTIPLE_BLOCK; CMD12_STOP_TRANSMISSION].

Definition write_cmds : list Z :=
  [CMD24_WRITE_BLOCK; ACMD23_SET_WR_BLK_ERASE_COUNT; CMD25_WRITE_MULTIPLE_BLOCK;
   CMD13_SEND_STATUS].


(** ** Concrete sessions and environments used in the examples *)

(** The session [sd_spi_ctor] leaves: not initialized. *)
Definition new_card : sd_card_t :=
  mk_sd_card SDCARD_NONE STA_NOINIT 0 (repeat 0 16) (repeat 0 16).

(** A session after a successful [sd_init]. *)
Definition ready_card (t : card_type_t) (n : Z) : sd_card_t :=
  mk_sd_card t 0 n (repeat 0 16) (repeat 0 16).

(** An environment with a card in the socket that will answer [rx]. *)
Definition env (rx : list Z) (clock : list bool) (dma : list nat) : spi_t :=
  mk_spi rx clock dma false true (repeat 0 512) [].

(** The run of a public operation that took the bus: card lock, bus,
    [body], card lock released, bus released. *)
Definition locked_run (body : list event) : list event :=
  [EvLock; EvSpiAcquire] ++ body ++ [EvUnlock; EvSpiRelease].

(** A not-initialized session in front of a silent card. *)
Definition idle_state : state := mk_state new_card (env [] [] []) true.


(** A byte in which the stop bit (bit 0) is the only bit set. *)
Definition only_stop_bit_set (b : Z) : bool := b =? 0x01.

(** An initialized session with CRC checking switched off. *)
Definition crc_off_state : state :=
  mk_state (ready_card SDCARD_V2HC 1000) (env [] [] []) false.

(** A capacity register of structure version 1 whose 22-bit device-size
    field is all ones (a 2 TiB card). *)
Definition csd_2tb : list Z :=
  [0x40; 0x0E; 0x00; 0x32; 0x5B; 0x59; 0x00; 0x3F;
   0xFF; 0xFF; 0x7F; 0x80; 0x0A; 0x40; 0x00; 0x01].

(** The answer of a card to CMD9 that sends [reg] with its CRC: one
    ready byte, six bytes while the packet goes out, R1 = 0, the start
    token, the register, the CRC. *)
Definition csd_answer (reg : list Z) : list Z :=
  [0xFF] ++ repeat 0xFF 6 ++ [0x00; SPI_START_BLOCK] ++ reg
  ++ [Z.shiftr (crc16 reg) 8; Z.land (crc16 reg) 0xFF].

Definition csd_2tb_state : state :=
  mk_state new_card (env (csd_answer csd_2tb) [] []) true.

(** A card that is ready, takes a command packet and answers it with
    the R1 byte [r1]. *)
Definition r1_answer (r1 : Z) : list Z := [0xFF] ++ repeat 0xFF 6 ++ [r1].

(** The same for an application command: CMD55 is answered with 0, the
    card is ready again, then the command itself is answered with [r1]. *)
Definition acmd_answer (r1 : Z) : list Z :=
  [0xFF] ++ repeat 0xFF 6 ++ [0x00; 0xFF] ++ repeat 0xFF 6 ++ [r1].

(** An initialized high-capacity session whose card reports a CRC error
    on the next command. *)
Definition crc_error_state : state :=
  mk_state (ready_card SDCARD_V2HC 1000) (env (r1_answer 0x08) [] []) true.

(** The same session, the card rejecting the pre-erase hint as an
    illegal command with a CRC error. *)
Definition hint_rejected_state : state :=
  mk_state (ready_card SDCARD_V2HC 1000) (env (acmd_answer 0x0C) [] []) true.

(** Every run of [m] begins with the events [evs0]. *)
Definition starts_with {A : Type} (m : M A) (evs0 : list event) : Prop :=
  forall s, exists rest,
    trace (spi (snd (m s))) = trace (spi s) ++ evs0 ++ rest.

(** An initialized high-capacity session of 1000 sectors, the card silent. *)
Definition ready_state : state :=
  mk_state (ready_card SDCARD_V2HC 1000) (env [] [] []) true.

(** An initialized byte-addressed session of 2^24 sectors (8 GiB). *)
Definition v1_big_state : state :=
  mk_state (ready_card SDCARD_V1 (2 ^ 24)) (env [] [] []) true.

(** The bytes [evs] shows going out are the fill bytes of the wait for
    the card followed by the command packet of [cmd] with argument [a];
    or the fill bytes alone when the card never became ready, the status
    then being NoResponse. *)
Definition sends_packet (on : bool) (cmd a : Z) (evs : list event)
    (status : sd_error) : Prop :=
  exists k rest,
    tx_bytes evs = repeat 0xFF k ++ rest /\
    ((rest = [] /\ status = SD_BLOCK_DEVICE_ERROR_NO_RESPONSE) \/
     exists rest', rest = cmdPacket on cmd a ++ rest').

(** What the card shifts out while one data block is written to it:
    a byte during the start token, 512 during the data, two during the
    CRC, then the data-response token [resp]. *)
Definition block_answer (resp : Z) : list Z :=
  [0xFF] ++ repeat 0xFF 512 ++ [0xFF; 0xFF; resp].

(** The answer to the status query CMD13: R1 = 0, second byte 0. *)
Definition status_ok_answer : list Z := r1_answer 0x00 ++ [0x00].

(** A single-block write whose data the card rejects with the CRC-error
    token 0x0B, and which it then reports clean in the status query. *)
Definition write_rejected_state : state :=
  mk_state (ready_card SDCARD_V2HC 1000)
           (env (r1_answer 0x00 ++ block_answer SPI_DATA_CRC_ERROR ++ status_ok_answer)
                [] [])
           true.

(** A two-block write whose first block the card rejects with the
    write-error token 0x0D; the byte after it goes with the stop token. *)
Definition write_multi_rejected_state : state :=
  mk_state (ready_card SDCARD_V2HC 1000)
           (env (acmd_answer 0x00 ++ r1_answer 0x00
                 ++ block_answer SPI_DATA_WRITE_ERROR ++ [0xFF] ++ status_ok_answer)
                [] [])
           true.

(** A two-block write on a card that rejects the pre-erase hint as an
    illegal command and accepts everything else. *)
Definition write_hint_rejected_state : state :=
  mk_state (ready_card SDCARD_V2HC 1000)
           (env (acmd_answer 0x04 ++ r1_answer 0x00
                 ++ block_answer SPI_DATA_ACCEPTED ++ [0xFF]
                 ++ block_answer SPI_DATA_ACCEPTED ++ [0xFF]
                 ++ [0xFF] ++ status_ok_answer)
                [] [])
           true.

(** A capacity register of structure version 0 (3875 * 512 blocks of 512
    bytes) and an identification register. *)
Definition csd_v0 : list Z :=
  [0x00; 0x26; 0x00; 0x32; 0x5F; 0x59; 0x83; 0xC8;
   0xAD; 0xDB; 0xCF; 0xFF; 0xD2; 0x40; 0x40; 0xA5].

Definition cid_reg : list Z :=
  [0x03; 0x53; 0x44; 0x53; 0x44; 0x30; 0x32; 0x47;
   0x80; 0x12; 0x34; 0x56; 0x78; 0x00; 0xA1; 0x01].

(** The answer to a register read that also gives R1 = 0x01 when asked
    for the operating-condition register: bit 20 (3.3 V) set. *)
Definition ocr_answer : list Z := r1_answer 0x01 ++ [0x00; 0xFF; 0x80; 0x00].

(** A legacy card that never leaves the idle state: it answers CMD0 with
    0x01, rejects CMD8, accepts CMD59, reports 3.3 V, and answers every
    ACMD41 with the idle bit set; the deadline of the poll has elapsed
    after the third one.  It answers the register reads and CMD16 that
    follow all the same. *)
Definition never_ready_card : list Z :=
  (repeat 0xFF 6 ++ [0x01])
  ++ r1_answer 0x05
  ++ r1_answer 0x01
  ++ ocr_answer
  ++ acmd_answer 0x01 ++ acmd_answer 0x01 ++ acmd_answer 0x01
  ++ csd_answer csd_v0
  ++ csd_answer cid_reg
  ++ r1_answer 0x00.

Definition poll_timeout_state : state :=
  mk_state new_card (env never_ready_card [true; true; false] []) true.

(** The state of that run when the ACMD41 poll starts: [sd_init] up to the
    bus being taken, then [sd_init_medium] up to the OCR read. *)
Definition poll_timeout_at_poll : state :=
  snd (sd_cmd CMD58_READ_OCR 0 false 0
    (snd (crc_enable_loop 3
      (snd (sd_cmd8
        (snd (sd_go_idle_state
          (snd (sd_spi_send_initializing_sequence
            (snd (sd_spi_go_low_frequency
              (snd (sd_spi_acquire
                (snd (set_type SDCARD_NONE
                  (snd (sd_card_detect
                    (snd (sd_lock poll_timeout_state))))))))))))))))))).

(** Events of the command layer: byte exchanges and the command hook. *)
Definition cmd_ev (cmd : Z) (e : event) : Prop :=
  match e with
  | EvXfer _ _ => True
  | EvCmd c _ _ => c = cmd
  | _ => False
  end.

Definition xfer_ev (e : event) : Prop :=
  match e with EvXfer _ _ => True | _ => False end.

(** The default block for [nth] and [last] on received blocks. *)
Definition no_block : list Z * Z := ([], 0).

(** The CRC that came with a received block does not match its data. *)
Definition bad_block (on : bool) (b : list Z * Z) : Prop :=
  chk_crc16 on (fst b) (snd b) = false.

(** What a multi-block read that reached the transfer stage has done.
    Its events are those of the read command CMD18, then those of the
    receive loop (no command among them), then one stop-transmission
    command CMD12 followed by byte exchanges only.  Every block the loop
    received completely is in the destination buffer at its place.  And
    when [k] is the first received block whose CRC does not match: at most
    one block is received after it; the status is Crc when [k] is the last
    block of the request and when block [k + 1] was received completely
    too; it is NoResponse otherwise, that is when block [k] is the last
    one received and is not the last one of the request. *)
Definition multi_read_outcome (buffer : list Z) (sector count : Z) (s : state)
  : Prop :=
  let r := in_sd_read_blocks buffer sector count s in
  let status := fst (fst r) in
  exists E_cmd E_loop E_stop tail,
    events_since s (snd r) = E_cmd ++ E_loop ++ E_stop /\
    Forall (cmd_ev CMD18_READ_MULTIPLE_BLOCK) E_cmd /\
    Forall (ev_ok []) E_loop /\
    E_stop = EvCmd CMD12_STOP_TRANSMISSION 0 false :: tail /\
    Forall xfer_ev tail /\
    (length (received E_loop) <= Z.to_nat count)%nat /\
    (forall j, (j < length (received E_loop))%nat ->
               block_at (snd (fst r)) (512 * j)
               = fst (nth j (received E_loop) no_block)) /\
    (forall k, (k < length (received E_loop))%nat ->
               bad_block (crc_on s) (nth k (received E_loop) no_block) ->
               (forall j, (j < k)%nat ->
                          ~ bad_block (crc_on s) (nth j (received E_loop) no_block)) ->
               (length (received E_loop) <= k + 2)%nat /\
               (S k = Z.to_nat count \/ (S k < length (received E_loop))%nat ->
                status = SD_BLOCK_DEVICE_ERROR_CRC) /\
               ((S k < Z.to_nat count)%nat /\ S k = length (received E_loop) ->
                status = SD_BLOCK_DEVICE_ERROR_NO_RESPONSE)).

(** A card that answers CMD18 and sends two blocks, the first with a CRC
    that does not match. *)
Definition two_blocks_first_bad : list Z :=
  r1_answer 0x00
  ++ [SPI_START_BLOCK] ++ repeat 0x11 512 ++ [0x00; 0x00]
  ++ [SPI_START_BLOCK] ++ repeat 0x22 512
  ++ [Z.shiftr (crc16 (repeat 0x22 512)) 8; Z.land (crc16 (repeat 0x22 512)) 0xFF].

(** Both transfers complete. *)
Definition bad_crc_state : state :=
  mk_state (ready_card SDCARD_V2HC 1000) (env two_blocks_first_bad [] []) true.

(** The second transfer stops after 100 bytes and the wait for it fails. *)
Definition bad_crc_dma_timeout_state : state :=
  mk_state (ready_card SDCARD_V2HC 1000)
           (env two_blocks_first_bad [] [512%nat; 100%nat]) true.

(** A card that answers CMD18 and sends three blocks, the first two with
    a CRC that does not match; every transfer completes. *)
Definition three_blocks_two_bad : list Z :=
  r1_answer 0x00
  ++ [SPI_START_BLOCK] ++ repeat 0x11 512 ++ [0x00; 0x00]
  ++ [SPI_START_BLOCK] ++ repeat 0x22 512 ++ [0x00; 0x00]
  ++ [SPI_START_BLOCK] ++ repeat 0x33 512
  ++ [Z.shiftr (crc16 (repeat 0x33 512)) 8; Z.land (crc16 (repeat 0x33 512)) 0xFF].

Definition two_bad_blocks_state : state :=
  mk_state (ready_card SDCARD_V2HC 1000) (env three_blocks_two_bad [] []) true.

(** ** Traces of a card that does not answer *)

(** [evs] appended to the trace, everything else as it was. *)
Definition logged (evs : list event) (s : state) : state :=
  set_spi (mk_spi (rx (spi s)) (clock (spi s)) (dma (spi s)) (dma_pending (spi s))
                  (card_present (spi s)) (null_page (spi s))
                  (trace (spi s) ++ evs)) s.

(** The exchanges in which the host sends [tx] and the line stays high. *)
Definition unanswered (tx : list Z) : list event :=
  map (fun v => EvXfer v 0xFF) tx.

(** The bytes one attempt of a command puts on a line that stays high:
    for an application command the CMD55 packet, its 16 polls and the
    poll of the wait that follows; then the packet of the command and its
    16 polls, after the stuff byte in the case of CMD12. *)
Definition silent_attempt (on : bool) (cmd : cmdSupported) (arg : Z) (isAcmd : bool)
  : list Z :=
  (if isAcmd
   then cmdPacket on CMD55_APP_CMD 0 ++ repeat 0xFF 16 ++ [0xFF]
   else [])
  ++ cmdPacket on cmd arg
  ++ (if cmd =? CMD12_STOP_TRANSMISSION then [0xFF] else [])
  ++ repeat 0xFF 16.

(** The bytes [sd_cmd] sends on such a line: the poll of the wait for the
    card, except for CMD0 and CMD12, and SD_COMMAND_RETRIES attempts. *)
Definition silent_cmd (on : bool) (cmd : cmdSupported) (arg : Z) (isAcmd : bool)
  : list Z :=
  (if negb (cmd =? CMD12_STOP_TRANSMISSION) && negb (cmd =? CMD0_GO_IDLE_STATE)
   then [0xFF] else [])
  ++ concat (repeat (silent_attempt on cmd arg isAcmd) SD_COMMAND_RETRIES).

(** What [sd_cmd] does on a line that stays high: the command hook and
    the unanswered bytes. *)
Definition silent_events (on : bool) (cmd : cmdSupported) (arg : Z) (isAcmd : bool)
  : list event :=
  EvCmd cmd arg isAcmd :: unanswered (silent_cmd on cmd arg isAcmd).

(** One round of [sd_go_idle_state] on such a line. *)
Definition silent_idle_round (on : bool) : list event :=
  silent_events on CMD0_GO_IDLE_STATE 0 false
  ++ [EvDeselect; EvBusyWait (100 * 1000); EvSelect].

(** ** Reading a trace *)

(** One failed round of [sd_go_idle_state], byte exchanges left out. *)
Definition idle_round : list event :=
  [EvCmd CMD0_GO_IDLE_STATE 0 false; EvDeselect; EvBusyWait (100 * 1000); EvSelect].

(** The events of a run that are not byte exchanges. *)
Definition steps (evs : list event) : list event :=
  filter (fun e => negb (is_xfer e)) evs.

(** The data of the DMA transfers towards the card, in order. *)
Fixpoint sent (evs : list event) : list (list Z) :=
  match evs with
  | [] => []
  | EvDmaTx data :: rest => data :: sent rest
  | _ :: rest => sent rest
  end.

(** The response tokens of the blocks written: the byte read in the
    third single exchange after each DMA transfer towards the card. *)
Fixpoint tokens (evs : list event) : list Z :=
  match evs with
  | [] => []
  | EvDmaTx _ :: rest =>
      match rest with
      | EvDmaWait true :: EvXfer _ _ :: EvXfer _ _ :: EvXfer _ resp :: _ =>
          resp :: tokens rest
      | _ => tokens rest
      end
  | _ :: rest => tokens rest
  end.

(** The [n] consecutive blocks of [buffer] from index [off] on. *)
Fixpoint blocks_from (buffer : list Z) (off n : nat) : list (list Z) :=
  match n with
  | O => []
  | S n' => firstn (Z.to_nat _block_size) (skipn off buffer)
            :: blocks_from buffer (off + Z.to_nat _block_size) n'
  end.

(** ** What goes out on the line *)

(** The bytes the host put on the line, in single exchanges and in DMA
    transfers, in order. *)
Fixpoint wire_out (evs : list event) : list Z :=
  match evs with
  | [] => []
  | EvXfer tx _ :: rest => tx :: wire_out rest
  | EvDmaTx data :: rest => data ++ wire_out rest
  | _ :: rest => wire_out rest
  end.

(** The data block of a write as it went out: the [len] bytes and the two
    CRC bytes that followed the token on the line. *)
Definition block_sent (len : nat) (evs : list event) : list Z :=
  firstn (len + 2) (tl (wire_out evs)).

(** Every element is a byte. *)
Definition bytes (l : list Z) : bool :=
  forallb (fun b => (0 <=? b) && (b <? 256)) l.

(** ** More sample cards *)

(** The status query answered with the idle bit in the first byte and a
    write-protect violation reported in the second. *)
Definition idle_status_state : state :=
  mk_state (ready_card SDCARD_V2HC 1000) (env (r1_answer 0x01 ++ [0x20]) [] []) true.

(** A card that accepts the next command and sends nothing after it. *)
Definition cmd_accepted_state : state :=
  mk_state (ready_card SDCARD_V2HC 1000) (env (r1_answer 0x00) [] []) true.

(** The same card with CRC checking off. *)
Definition cmd_accepted_crc_off_state : state :=
  mk_state (ready_card SDCARD_V2HC 1000) (env (r1_answer 0x00) [] []) false.

(** A card that answers a single-block read with a block of 0x22 and the
    CRC of that block. *)
Definition good_read_state : state :=
  mk_state (ready_card SDCARD_V2HC 1000)
           (env (r1_answer 0x00 ++ [SPI_START_BLOCK] ++ repeat 0x22 512
                 ++ [Z.shiftr (crc16 (repeat 0x22 512)) 8;
                     Z.land (crc16 (repeat 0x22 512)) 0xFF])
                [] [])
           true.

(** A card that accepts the data block it is sent; and one that accepts
    two in a row. *)
Definition block_accepted_state : state :=
  mk_state (ready_card SDCARD_V2HC 1000) (env (block_answer SPI_DATA_ACCEPTED) [] [])
           true.

Definition two_blocks_accepted_state : state :=
  mk_state (ready_card SDCARD_V2HC 1000)
           (env (block_answer SPI_DATA_ACCEPTED ++ [0xFF]
                 ++ block_answer SPI_DATA_ACCEPTED) [] [])
           true.

(** A card that sends back, after the start token, the block that
    [sd_write_block] sent to [block_accepted_state]. *)
Definition loopback_state : state :=
  mk_state (ready_card SDCARD_V2HC 1000)
           (env (SPI_START_BLOCK
                 :: block_sent 512
                      (events_since block_accepted_state
                         (snd (sd_write_block (repeat 0xAB 512) SPI_START_BLOCK 512
                                 block_accepted_state))))
                [] [])
           true.

(** ** The analyzer front end ([main], at the head of station2.c)

    [main] polls the analyzer modules and copies what they report into
    [dashboard_data].  The modules (buddy2, buddy3, buddy5) and the type
    [DashboardData] are declared in headers that are not part of the
    file: the record below has the fields [main] assigns; its numeric
    fields carry a type [num] of which only the value 0 and the test
    [x > 0] are used; what the modules answer during one pass of the loop
    is an input.  [dashboard_data] is static and [main] is the only
    function of the file that writes to it; [update_dashboard_data],
    which is handed its address, is taken to read it only.  The text
    printed is left out. *)

Section Dashboard.
Variable num : Type.
Variable zero : num.
Variable positive : num -> bool.

Record DashboardData : Type := mk_dashboard {
  pwm_frequency : num;
  pwm_duty_cycle : num;
  pwm_active : bool;
  analog_frequency : num;
  adc_active : bool;
  uart_baud_rate : num;
  protocol_active : bool
}.

Record PWMMetrics : Type := mk_pwm_metrics {
  frequency : num;
  duty_cycle : num
}.

(** What the modules answer when asked during one pass. *)
Record answers : Type := mk_answers {
  is_wifi_connected : bool;
  is_capturing : bool;
  get_pwm_metrics : PWMMetrics;
  is_adc_capturing : bool;
  is_transfer_complete : bool;
  analyze_current_capture : num;
  is_protocol_capturing : bool;
  get_uart_baud_rate : num
}.

(** The calls of [main] that act on the platform. *)
Inductive call : Type :=
| StdioInitAll
| SleepMs (ms : Z)
| InitWifiDashboard
| GpioSetIrq
| AdcAnalyzerInit
| PwmAnalyzerInit
| ProtocolAnalyzerInit
| HandleDashboardEvents
| ClearTransferComplete
| UpdateDashboardData (d : DashboardData).

(** [static DashboardData dashboard_data = {0};] *)
Definition dashboard_data0 : DashboardData :=
  mk_dashboard zero zero false zero false zero false.

(** The PWM part of a pass. *)
Definition update_pwm (a : answers) (d : DashboardData) : DashboardData :=
  if is_capturing a then
    let pwm := get_pwm_metrics a in
    mk_dashboard (frequency pwm) (duty_cycle pwm) true
                 (analog_frequency d) (adc_active d)
                 (uart_baud_rate d) (protocol_active d)
  else if pwm_active d then
    mk_dashboard zero zero false
                 (analog_frequency d) (adc_active d)
                 (uart_baud_rate d) (protocol_active d)
  else d.

(** The ADC part of a pass, with the call it makes. *)
Definition update_adc (a : answers) (d : DashboardData)
  : DashboardData * list call :=
  if is_adc_capturing a then
    if is_transfer_complete a then
      (mk_dashboard (pwm_frequency d) (pwm_duty_cycle d) (pwm_active d)
                    (analyze_current_capture a) true
                    (uart_baud_rate d) (protocol_active d),
       [ClearTransferComplete])
    else
      (mk_dashboard (pwm_frequency d) (pwm_duty_cycle d) (pwm_active d)
                    (analog_frequency d) true
                    (uart_baud_rate d) (protocol_active d), [])
  else
    (mk_dashboard (pwm_frequency d) (pwm_duty_cycle d) (pwm_active d)
                  zero false
                  (uart_baud_rate d) (protocol_active d), []).

(** The protocol part of a pass. *)
Definition update_protocol (a : answers) (d : DashboardData) : DashboardData :=
  if is_protocol_capturing a then
    let baud_rate := get_uart_baud_rate a in
    if positive baud_rate then
      mk_dashboard (pwm_frequency d) (pwm_duty_cycle d) (pwm_active d)
                   (analog_frequency d) (adc_active d)
                   baud_rate true
    else d
  else d.

(** One pass of the [while (1)] loop of [main]. *)
Definition main_loop_pass (a : answers) (d : DashboardData)
  : DashboardData * list call :=
  let (d', calls) :=
    if is_wifi_connected a then
      let d1 := update_pwm a d in
      let (d2, c2) := update_adc a d1 in
      let d3 := update_protocol a d2 in
      (d3, c2 ++ [UpdateDashboardData d3])
    else (d, []) in
  (d', calls ++ [HandleDashboardEvents; SleepMs 100]).

(** The passes of the loop for the successive answers. *)
Fixpoint main_loop (passes : list answers) (d : DashboardData)
  : DashboardData * list call :=
  match passes with
  | [] => (d, [])
  | a :: rest =>
      let (d1, c1) := main_loop_pass a d in
      let (d2, c2) := main_loop rest d1 in
      (d2, c1 ++ c2)
  end.

(** The loop that waits for the connection before the menu is shown.
    [wifi] holds the successive answers of [is_wifi_connected ()], read
    as connected when used up.  [fuel] bounds the number of further
    rounds; the count stops them at 30.  Returns the final
    [wifi_wait_count], the answers left and the calls made. *)
Fixpoint wifi_wait (fuel : nat) (wifi : list bool) (wifi_wait_count : Z)
  : Z * list bool * list call :=
  if negb (hd true wifi) && (wifi_wait_count <? 30) then
    match fuel with
    | O => (wifi_wait_count, tl wifi, [])
    | S f =>
        let '(c, rest, calls) := wifi_wait f (tl wifi) (wifi_wait_count + 1) in
        (c, rest, [SleepMs 1000; HandleDashboardEvents] ++ calls)
    end
  else (wifi_wait_count, tl wifi, []).

(** [main] up to its loop, then the passes given. *)
Definition main (wifi : list bool) (passes : list answers)
  : DashboardData * list call :=
  let '(_, _, waited) := wifi_wait 30 wifi 0 in
  let (d, calls) := main_loop passes dashboard_data0 in
  (d,
   [StdioInitAll; SleepMs 2000; InitWifiDashboard; GpioSetIrq;
    AdcAnalyzerInit; PwmAnalyzerInit; ProtocolAnalyzerInit]
   ++ waited ++ calls).

(** What the record shows is coherent: an inactive PWM or ADC capture
    has its readings at 0. *)
Definition coherent (d : DashboardData) : Prop :=
  (pwm_active d = false -> pwm_frequency d = zero /\ pwm_duty_cycle d = zero) /\
  (adc_active d = false -> analog_frequency d = zero).

Definition shows_coherent (c : call) : Prop :=
  match c with
  | UpdateDashboardData d => coherent d
  | _ => True
  end.

(** The number of answers "not connected" at the head of [wifi]. *)
Fixpoint not_connected_prefix (wifi : list bool) : nat :=
  match wifi with
  | false :: rest => S (not_connected_prefix rest)
  | _ => O
  end.

End Dashboard.

Arguments mk_dashboard {num}.
Arguments pwm_frequency {num}.
Arguments pwm_duty_cycle {num}.
Arguments pwm_active {num}.
Arguments analog_frequency {num}.
Arguments adc_active {num}.
Arguments uart_baud_rate {num}.
Arguments protocol_active {num}.
Arguments UpdateDashboardData {num}.
Arguments SleepMs {num}.
Arguments HandleDashboardEvents {num}.

(** A record that shows a protocol capture at 9600 baud, and a pass in
    which the link is up and nothing is being captured. *)
Definition capture_seen : DashboardData Z :=
  mk_dashboard 0 0 false 0 false 9600 true.

Definition quiet_pass : answers Z :=
  mk_answers Z true false (mk_pwm_metrics Z 0 0) false false 0 false 0.


(** ** Relations every step of a computation keeps *)

Class Pre (R : state -> state -> Prop) : Prop := {
  pre_refl : forall s, R s s;
  pre_trans : forall a b c, R a b -> R b c -> R a c
}.

Definition preserves {A : Type} (R : state -> state -> Prop) (m : M A) : Prop :=
  forall s, R s (snd (m s)).

(** The session is left as it was. *)
Definition keeps_card (s s' : state) : Prop := card s' = card s.

(** The configuration and the card-detect switch are left alone, the
    clock oracle only shrinks, and the trace grows by events in [P]. *)
Definition io (P : event -> Prop) (s s' : state) : Prop :=
  crc_on s' = crc_on s /\
  card_present (spi s') = card_present (spi s) /\
  null_page (spi s') = null_page (spi s) /\
  (length (clock (spi s')) <= length (clock (spi s)))%nat /\
  exists evs, trace (spi s') = trace (spi s) ++ evs /\ Forall P evs.

(** The status bits of the session are left as they were. *)
Definition keeps_status (s s' : state) : Prop :=
  m_Status (card s') = m_Status (card s).

(** Every run of [m] ends by releasing the card lock, then the bus, after
    events in [ev_ok l] only. *)
Definition ends_released {A : Type} (l : list Z) (m : M A) : Prop :=
  forall s, exists evs,
    trace (spi (snd (m s))) = trace (spi s) ++ evs ++ [EvUnlock; EvSpiRelease] /\
    Forall (ev_ok l) evs.

(** * Properties *)

(** ** Composition of steps *)

Lemma preserves_ret {A} R `{Pre R} (a : A) : preserves R (ret a).
Proof. intros s. apply pre_refl. Qed.

Lemma preserves_bind {A B} R `{Pre R} (m : M A) (k : A -> M B) :
  preserves R m -> (forall a, preserves R (k a)) -> preserves R (bind m k).
Proof.
  intros Hm Hk s. unfold bind. specialize (Hm s).
  destruct (m s) as [a s1]. eapply pre_trans; [exact Hm | apply Hk].
Qed.

Lemma preserves_run {A} R (m : M A) s a s' :
  preserves R m -> m s = (a, s') -> R s s'.
Proof. intros H E. specialize (H s). rewrite E in H. exact H. Qed.

#[export] Instance keeps_card_pre : Pre keeps_card.
Proof. split; unfold keeps_card; intros; congruence. Qed.

#[export] Instance io_pre P : Pre (io P).
Proof.
  split.
  - intros s. repeat split; auto. exists []. rewrite app_nil_r. auto.
  - intros a b c (H1 & H2 & H3 & H4 & e1 & H5 & H6) (K1 & K2 & K3 & K4 & e2 & K5 & K6).
    repeat split; try congruence; try lia.
    exists (e1 ++ e2). rewrite K5, H5, app_assoc. split; auto.
    apply Forall_app; auto.
Qed.




Lemma events_since_app s s' evs :
  trace (spi s') = trace (spi s) ++ evs -> events_since s s' = evs.
Proof.
  intros H. unfold events_since. rewrite H.
  rewrite skipn_app, skipn_all, Nat.sub_diag. reflexivity.
Qed.

Lemma io_events P s s' :
  io P s s' ->
  trace (spi s') = trace (spi s) ++ events_since s s' /\ Forall P (events_since s s').
Proof.
  intros (_ & _ & _ & _ & e & H5 & H6).
  rewrite (events_since_app _ _ _ H5). auto.
Qed.

(** Structural steps shared by the proofs below. *)
Ltac pres_step :=
  match goal with
  | |- preserves _ (bind _ _) =>
      refine (preserves_bind _ _ _ _ _); [ | intros ]
  | |- preserves _ (ret _) => refine (preserves_ret _ _)
  | |- preserves _ (when ?b _) => unfold when
  | |- preserves _ (if ?b then _ else _) => destruct b
  | |- preserves _ (match ?x with (_, _) => _ end) => destruct x
  | |- preserves _ (match ?x with Some _ => _ | None => _ end) => destruct x
  | |- preserves _ (match ?x with O => _ | S _ => _ end) => destruct x
  end.

Ltac io_prim := intros s; unfold io; cbn; repeat split; auto; try lia;
  eexists; split; [reflexivity | repeat constructor; cbn; auto].

(** *** Platform primitives *)

Lemma emit_io l e : ev_ok l e -> preserves (io (ev_ok l)) (emit e).
Proof. intros H. io_prim. Qed.

Lemma sd_spi_write_io l v : preserves (io (ev_ok l)) (sd_spi_write v).
Proof. io_prim. Qed.

Lemma time_left_io l t : preserves (io (ev_ok l)) (time_left t).
Proof.
  intros s. unfold time_left. destruct (u32 t =? 0).
  - apply pre_refl.
  - unfold io; cbn. repeat split; auto.
    + destruct (clock (spi s)); cbn; lia.
    + exists []. rewrite app_nil_r. auto.
Qed.

Lemma sd_spi_transfer_start_io l tx n :
  preserves (io (ev_ok l)) (sd_spi_transfer_start tx n).
Proof.
  intros s. unfold sd_spi_transfer_start.
  destruct (take_rx _ _) as [d rest]. unfold io; cbn. repeat split; auto.
  eexists; split; [reflexivity|]. constructor; auto. destruct tx; cbn; auto.
Qed.

Lemma sd_spi_transfer_wait_complete_io l t :
  preserves (io (ev_ok l)) (sd_spi_transfer_wait_complete t).
Proof. io_prim. Qed.

Lemma get_card_io l : preserves (io (ev_ok l)) get_card.
Proof. intros s. apply pre_refl. Qed.

Lemma get_crc_on_io l : preserves (io (ev_ok l)) get_crc_on.
Proof. intros s. apply pre_refl. Qed.

Lemma get_status_io l : preserves (io (ev_ok l)) get_status.
Proof. intros s. apply pre_refl. Qed.

Lemma set_card_io P c s : io P s (set_card c s).
Proof.
  unfold io; cbn. repeat split; auto. exists []. rewrite app_nil_r. auto.
Qed.

Lemma put_card_io l c : preserves (io (ev_ok l)) (put_card c).
Proof. intros s. apply set_card_io. Qed.

Lemma set_type_io l t : preserves (io (ev_ok l)) (set_type t).
Proof. intros s. apply set_card_io. Qed.

Lemma set_status_io l v : preserves (io (ev_ok l)) (set_status v).
Proof. intros s. apply set_card_io. Qed.

Create HintDb sd_io.
#[export] Hint Resolve sd_spi_write_io time_left_io sd_spi_transfer_start_io
  sd_spi_transfer_wait_complete_io get_card_io get_crc_on_io get_status_io
  put_card_io set_type_io set_status_io : sd_io.
#[export] Hint Extern 1 (preserves (io (ev_ok _)) (emit _)) =>
  apply emit_io; exact I : sd_io.
#[export] Hint Extern 1 (preserves (io (ev_ok _)) sd_spi_deselect_pulse) =>
  apply emit_io; exact I : sd_io.
#[export] Hint Extern 1 (preserves (io (ev_ok _)) sd_spi_deselect) =>
  apply emit_io; exact I : sd_io.
#[export] Hint Extern 1 (preserves (io (ev_ok _)) sd_spi_select) =>
  apply emit_io; exact I : sd_io.
#[export] Hint Extern 1 (preserves (io (ev_ok _)) sd_spi_go_low_frequency) =>
  apply emit_io; exact I : sd_io.
#[export] Hint Extern 1 (preserves (io (ev_ok _)) sd_spi_go_high_frequency) =>
  apply emit_io; exact I : sd_io.
#[export] Hint Extern 1 (preserves (io (ev_ok _)) sd_spi_send_initializing_sequence) =>
  apply emit_io; exact I : sd_io.
#[export] Hint Extern 1 (preserves (io (ev_ok _)) (busy_wait_us _)) =>
  apply emit_io; exact I : sd_io.

Ltac io_auto := repeat (first [ pres_step | solve [ eauto with sd_io ] ]).

(** *** Command layer *)

Lemma send_bytes_io l p : preserves (io (ev_ok l)) (send_bytes p).
Proof. induction p; cbn [send_bytes]; io_auto. Qed.
#[export] Hint Resolve send_bytes_io : sd_io.

Lemma sd_cmd_spi_poll_io l n r : preserves (io (ev_ok l)) (sd_cmd_spi_poll n r).
Proof. revert r; induction n; intros r; cbn [sd_cmd_spi_poll]; io_auto. Qed.
#[export] Hint Resolve sd_cmd_spi_poll_io : sd_io.

Lemma sd_cmd_spi_io l cmd arg : preserves (io (ev_ok l)) (sd_cmd_spi cmd arg).
Proof. unfold sd_cmd_spi. io_auto. Qed.
#[export] Hint Resolve sd_cmd_spi_io : sd_io.

Lemma sd_wait_ready_loop_io l fuel t : preserves (io (ev_ok l)) (sd_wait_ready_loop fuel t).
Proof. induction fuel; cbn [sd_wait_ready_loop]; io_auto. Qed.

Lemma sd_wait_ready_io l t : preserves (io (ev_ok l)) (sd_wait_ready t).
Proof.
  intros s. unfold sd_wait_ready.
  pose proof (sd_wait_ready_loop_io l (length (clock (spi s))) t s) as H.
  destruct (sd_wait_ready_loop _ _ _). exact H.
Qed.
#[export] Hint Resolve sd_wait_ready_io : sd_io.

Lemma sd_cmd_retry_io l n cmd arg a : preserves (io (ev_ok l)) (sd_cmd_retry n cmd arg a).
Proof. induction n; cbn [sd_cmd_retry]; io_auto. Qed.
#[export] Hint Resolve sd_cmd_retry_io : sd_io.

Lemma read_r3_r7_io l : preserves (io (ev_ok l)) read_r3_r7.
Proof. unfold read_r3_r7. io_auto. Qed.
#[export] Hint Resolve read_r3_r7_io : sd_io.

Lemma sd_cmd_process_io l cmd r : preserves (io (ev_ok l)) (sd_cmd_process cmd r).
Proof. unfold sd_cmd_process. io_auto. Qed.
#[export] Hint Resolve sd_cmd_process_io : sd_io.

Lemma sd_cmd_send_io l cmd arg a :
  In cmd l -> preserves (io (ev_ok l)) (sd_cmd_send cmd arg a).
Proof.
  intros Hin. unfold sd_cmd_send.
  refine (preserves_bind _ _ _ _ _); [apply emit_io; exact Hin | intros].
  io_auto.
Qed.

Lemma sd_cmd_io l cmd arg a r :
  In cmd l -> preserves (io (ev_ok l)) (sd_cmd cmd arg a r).
Proof.
  intros Hin. unfold sd_cmd.
  refine (preserves_bind _ _ _ _ _); [apply sd_cmd_send_io; exact Hin | intros].
  io_auto.
Qed.


#[export] Hint Extern 2 (preserves (io (ev_ok _)) (sd_cmd _ _ _ _)) =>
  apply sd_cmd_io; cbn [In]; auto 12 : sd_io.


(** *** Data blocks *)

Lemma sd_wait_token_loop_io l fuel t : preserves (io (ev_ok l)) (sd_wait_token_loop fuel t).
Proof. induction fuel; cbn [sd_wait_token_loop]; io_auto. Qed.

Lemma sd_wait_token_io l t : preserves (io (ev_ok l)) (sd_wait_token t).
Proof. intros s. unfold sd_wait_token. apply sd_wait_token_loop_io. Qed.
#[export] Hint Resolve sd_wait_token_io : sd_io.

Lemma read_bytes_loop_io l n : preserves (io (ev_ok l)) (read_bytes_loop n).
Proof. induction n; cbn [read_bytes_loop]; io_auto. Qed.
#[export] Hint Resolve read_bytes_loop_io : sd_io.

Lemma read_crc16_io l : preserves (io (ev_ok l)) read_crc16.
Proof. unfold read_crc16. io_auto. Qed.
#[export] Hint Resolve read_crc16_io : sd_io.

Lemma sd_read_bytes_io l b n : preserves (io (ev_ok l)) (sd_read_bytes b n).
Proof. unfold sd_read_bytes. io_auto. Qed.
#[export] Hint Resolve sd_read_bytes_io : sd_io.


Lemma read_blocks_loop_io l n b off prev :
  preserves (io (ev_ok l)) (read_blocks_loop n b off prev).
Proof.
  revert b off prev; induction n; intros; cbn [read_blocks_loop]; io_auto.
Qed.
#[export] Hint Resolve read_blocks_loop_io : sd_io.

Lemma in_sd_read_blocks_io b sec cnt :
  preserves (io (ev_ok read_cmds)) (in_sd_read_blocks b sec cnt).
Proof.
  unfold in_sd_read_blocks, read_cmds. io_auto.
  intros st. destruct (prev_block _ _ _). destruct (negb _); apply pre_refl.
Qed.

Lemma sd_write_block_io l b t n : preserves (io (ev_ok l)) (sd_write_block b t n).
Proof. unfold sd_write_block. io_auto. Qed.
#[export] Hint Resolve sd_write_block_io : sd_io.

Lemma write_blocks_loop_io l n b off :
  preserves (io (ev_ok l)) (write_blocks_loop n b off).
Proof.
  revert off; induction n; intros; cbn [write_blocks_loop]; io_auto.
Qed.
#[export] Hint Resolve write_blocks_loop_io : sd_io.

Lemma in_sd_write_blocks_io b sec cnt :
  preserves (io (ev_ok write_cmds)) (in_sd_write_blocks b sec cnt).
Proof.
  unfold in_sd_write_blocks, write_multiple, write_check_status, write_cmds.
  io_auto.
Qed.

(** *** Initialization *)







Lemma test_com_loop_io l n cmd : preserves (io (ev_ok l)) (test_com_loop n cmd).
Proof. induction n; cbn [test_com_loop]; io_auto. Qed.
#[export] Hint Resolve test_com_loop_io : sd_io.

(** ** The session is only written where the source writes it *)

Ltac card_prim := intros s; unfold keeps_card; reflexivity.

Lemma emit_card e : preserves keeps_card (emit e).
Proof. card_prim. Qed.

Lemma sd_spi_write_card v : preserves keeps_card (sd_spi_write v).
Proof. card_prim. Qed.

Lemma time_left_card t : preserves keeps_card (time_left t).
Proof. intros s. unfold time_left, keeps_card. destruct (u32 t =? 0); reflexivity. Qed.

Lemma sd_spi_transfer_start_card tx n :
  preserves keeps_card (sd_spi_transfer_start tx n).
Proof.
  intros s. unfold sd_spi_transfer_start, keeps_card.
  destruct (take_rx _ _). reflexivity.
Qed.

Lemma sd_spi_transfer_wait_complete_card t :
  preserves keeps_card (sd_spi_transfer_wait_complete t).
Proof. card_prim. Qed.

Lemma get_card_card : preserves keeps_card get_card.
Proof. card_prim. Qed.

Lemma get_crc_on_card : preserves keeps_card get_crc_on.
Proof. card_prim. Qed.

Create HintDb sd_card.
#[export] Hint Resolve emit_card sd_spi_write_card time_left_card
  sd_spi_transfer_start_card sd_spi_transfer_wait_complete_card
  get_card_card get_crc_on_card : sd_card.
#[export] Hint Extern 1 (preserves keeps_card sd_spi_deselect_pulse) =>
  apply emit_card : sd_card.
#[export] Hint Extern 1 (preserves keeps_card sd_lock) => apply emit_card : sd_card.
#[export] Hint Extern 1 (preserves keeps_card sd_unlock) => apply emit_card : sd_card.
#[export] Hint Extern 1 (preserves keeps_card sd_spi_acquire) =>
  apply emit_card : sd_card.
#[export] Hint Extern 1 (preserves keeps_card sd_spi_release) =>
  apply emit_card : sd_card.

Ltac card_auto := repeat (first [ pres_step | solve [ eauto with sd_card ] ]).

Lemma send_bytes_card p : preserves keeps_card (send_bytes p).
Proof. induction p; cbn [send_bytes]; card_auto. Qed.
#[export] Hint Resolve send_bytes_card : sd_card.

Lemma sd_cmd_spi_poll_card n r : preserves keeps_card (sd_cmd_spi_poll n r).
Proof. revert r; induction n; intros r; cbn [sd_cmd_spi_poll]; card_auto. Qed.
#[export] Hint Resolve sd_cmd_spi_poll_card : sd_card.

Lemma sd_cmd_spi_card cmd arg : preserves keeps_card (sd_cmd_spi cmd arg).
Proof. unfold sd_cmd_spi. card_auto. Qed.
#[export] Hint Resolve sd_cmd_spi_card : sd_card.

Lemma sd_wait_ready_loop_card fuel t : preserves keeps_card (sd_wait_ready_loop fuel t).
Proof. induction fuel; cbn [sd_wait_ready_loop]; card_auto. Qed.

Lemma sd_wait_ready_card t : preserves keeps_card (sd_wait_ready t).
Proof.
  intros s. unfold sd_wait_ready.
  pose proof (sd_wait_ready_loop_card (length (clock (spi s))) t s) as H.
  destruct (sd_wait_ready_loop _ _ _). exact H.
Qed.
#[export] Hint Resolve sd_wait_ready_card : sd_card.

Lemma sd_cmd_retry_card n cmd arg a : preserves keeps_card (sd_cmd_retry n cmd arg a).
Proof. induction n; cbn [sd_cmd_retry]; card_auto. Qed.
#[export] Hint Resolve sd_cmd_retry_card : sd_card.

Lemma read_r3_r7_card : preserves keeps_card read_r3_r7.
Proof. unfold read_r3_r7. card_auto. Qed.
#[export] Hint Resolve read_r3_r7_card : sd_card.

Lemma sd_cmd_send_card cmd arg a : preserves keeps_card (sd_cmd_send cmd arg a).
Proof. unfold sd_cmd_send. card_auto. Qed.
#[export] Hint Resolve sd_cmd_send_card : sd_card.

(** [sd_cmd] writes [card_type] for CMD8 and nothing for any other command. *)
Lemma sd_cmd_process_card cmd r :
  cmd <> CMD8_SEND_IF_COND -> preserves keeps_card (sd_cmd_process cmd r).
Proof.
  intros H. apply Z.eqb_neq in H. unfold sd_cmd_process. rewrite H.
  unfold when. card_auto.
Qed.

Lemma sd_cmd_card cmd arg a r :
  cmd <> CMD8_SEND_IF_COND -> preserves keeps_card (sd_cmd cmd arg a r).
Proof.
  intros H. unfold sd_cmd. pres_step; [card_auto|].
  destruct a0; [apply sd_cmd_process_card; exact H | card_auto].
Qed.

#[export] Hint Extern 2 (preserves keeps_card (sd_cmd _ _ _ _)) =>
  apply sd_cmd_card; discriminate : sd_card.

Lemma sd_wait_token_card t : preserves keeps_card (sd_wait_token t).
Proof.
  intros s. unfold sd_wait_token. generalize (length (clock (spi s))).
  intros fuel. revert s. change (preserves keeps_card (sd_wait_token_loop fuel t)).
  induction fuel; cbn [sd_wait_token_loop]; card_auto.
Qed.
#[export] Hint Resolve sd_wait_token_card : sd_card.

Lemma read_crc16_card : preserves keeps_card read_crc16.
Proof. unfold read_crc16. card_auto. Qed.
#[export] Hint Resolve read_crc16_card : sd_card.

Lemma read_blocks_loop_card n b off prev :
  preserves keeps_card (read_blocks_loop n b off prev).
Proof.
  revert b off prev; induction n; intros; cbn [read_blocks_loop]; card_auto.
Qed.
#[export] Hint Resolve read_blocks_loop_card : sd_card.

Lemma in_sd_read_blocks_card b sec cnt :
  preserves keeps_card (in_sd_read_blocks b sec cnt).
Proof.
  unfold in_sd_read_blocks. card_auto.
  intros st. unfold keeps_card. destruct (prev_block _ _ _).
  destruct (negb _); reflexivity.
Qed.

Lemma sd_write_block_card b t n : preserves keeps_card (sd_write_block b t n).
Proof. unfold sd_write_block. card_auto. Qed.
#[export] Hint Resolve sd_write_block_card : sd_card.

Lemma write_blocks_loop_card n b off :
  preserves keeps_card (write_blocks_loop n b off).
Proof. revert off; induction n; intros; cbn [write_blocks_loop]; card_auto. Qed.
#[export] Hint Resolve write_blocks_loop_card : sd_card.

Lemma in_sd_write_blocks_card b sec cnt :
  preserves keeps_card (in_sd_write_blocks b sec cnt).
Proof.
  unfold in_sd_write_blocks, write_multiple, write_check_status. card_auto.
Qed.

Lemma sd_read_blocks_card b sec cnt :
  preserves keeps_card (sd_read_blocks b sec cnt).
Proof.
  unfold sd_read_blocks, sd_acquire, sd_release.
  pose proof (in_sd_read_blocks_card b sec cnt). card_auto.
Qed.

Lemma sd_write_blocks_card b sec cnt :
  preserves keeps_card (sd_write_blocks b sec cnt).
Proof.
  unfold sd_write_blocks, sd_acquire, sd_release.
  pose proof (in_sd_write_blocks_card b sec cnt). card_auto.
Qed.

Lemma Forall_ev_ok_no_cmd l evs c a b :
  Forall (ev_ok l) evs -> ~ In c l -> ~ In (EvCmd c a b) evs.
Proof.
  intros HF Hn Hin. rewrite Forall_forall in HF.
  apply HF in Hin. cbn in Hin. auto.
Qed.

(** ** C10: reads and writes leave the session alone *)

(** C10.  [read_blocks] and [write_blocks] (with or without the lock
    wrapper) leave [m_Status], [card_type] and [sectors] (the whole
    session record) as they found them on every path; [sd_cmd] leaves
    the session alone for every command but CMD8, and CMD8 is not among
    the commands reads and writes issue. *)
Theorem C10_read_write_keep_session :
  forall (buffer : list Z) (sector count : Z) (s : state),
    card (snd (sd_read_blocks buffer sector count s)) = card s /\
    card (snd (in_sd_read_blocks buffer sector count s)) = card s /\
    card (snd (sd_write_blocks buffer sector count s)) = card s /\
    card (snd (in_sd_write_blocks buffer sector count s)) = card s /\
    (forall cmd arg isAcmd resp0,
        cmd <> CMD8_SEND_IF_COND ->
        card (snd (sd_cmd cmd arg isAcmd resp0 s)) = card s) /\
    (forall arg isAcmd,
        ~ In (EvCmd CMD8_SEND_IF_COND arg isAcmd)
             (events_since s (snd (in_sd_read_blocks buffer sector count s))) /\
        ~ In (EvCmd CMD8_SEND_IF_COND arg isAcmd)
             (events_since s (snd (in_sd_write_blocks buffer sector count s)))).
Proof.
  intros buffer sector count s.
  split; [apply sd_read_blocks_card|].
  split; [apply in_sd_read_blocks_card|].
  split; [apply sd_write_blocks_card|].
  split; [apply in_sd_write_blocks_card|].
  split; [intros; apply sd_cmd_card; assumption|].
  intros arg isAcmd. split.
  - destruct (io_events _ _ _ (in_sd_read_blocks_io buffer sector count s)) as [_ HF].
    eapply Forall_ev_ok_no_cmd; [exact HF|].
    unfold read_cmds. cbn [In]. intuition discriminate.
  - destruct (io_events _ _ _ (in_sd_write_blocks_io buffer sector count s)) as [_ HF].
    eapply Forall_ev_ok_no_cmd; [exact HF|].
    unfold write_cmds. cbn [In]. intuition discriminate.
Qed.

Lemma C10_witness :
  CMD17_READ_SINGLE_BLOCK <> CMD8_SEND_IF_COND /\
  card (snd (sd_cmd CMD17_READ_SINGLE_BLOCK 0 false 0 crc_off_state))
  = card crc_off_state.
Proof.
  split; [discriminate|].
  apply (C10_read_write_keep_session [] 0 1 crc_off_state).
  discriminate.
Defined.

(** ** C8: the card lock and the bus around every public operation *)

Lemma ends_released_bind {A B} l (m : M A) (k : A -> M B) :
  preserves (io (ev_ok l)) m -> (forall a, ends_released l (k a)) ->
  ends_released l (bind m k).
Proof.
  intros Hm Hk s. unfold bind. specialize (Hm s).
  destruct (m s) as [a s1]. cbn in Hm.
  destruct Hm as (_ & _ & _ & _ & e1 & H1 & F1).
  destruct (Hk a s1) as (e2 & H2 & F2).
  exists (e1 ++ e2). split.
  - rewrite H2, H1. rewrite <- !app_assoc. reflexivity.
  - apply Forall_app; auto.
Qed.

Lemma ends_released_release {A} l (m : M A) :
  (forall s, trace (spi (snd (m s))) = trace (spi s)) ->
  ends_released l (sd_release ;;; m).
Proof.
  intros Hm s. exists []. split; [|constructor].
  unfold bind, sd_release, sd_unlock, sd_spi_release, emit. cbn.
  rewrite Hm. cbn. rewrite <- app_assoc. reflexivity.
Qed.

Ltac released_auto :=
  repeat first
    [ match goal with
      | |- ends_released _ (bind sd_release _) =>
          apply ends_released_release; intros; reflexivity
      | |- ends_released _ (bind _ _) =>
          apply ends_released_bind; [ | intros ]
      | |- ends_released _ (if ?b then _ else _) => destruct b
      | |- ends_released _ (match ?x with (_, _) => _ end) => destruct x
      end
    | solve [ eauto with sd_io ] ].






(** ** C7: the CRC byte of a command packet *)

Lemma u8_u8 x : u8 (u8 x) = u8 x.
Proof. unfold u8. apply Z.mod_mod. lia. Qed.

Lemma tx_bytes_app a b : tx_bytes (a ++ b) = tx_bytes a ++ tx_bytes b.
Proof.
  induction a as [|e a IH]; [reflexivity|].
  destruct e; cbn; rewrite ?IH; reflexivity.
Qed.

Lemma send_bytes_trace p s :
  exists evs,
    trace (spi (snd (send_bytes p s))) = trace (spi s) ++ evs /\
    tx_bytes evs = map u8 p.
Proof.
  revert s. induction p as [|x p IH]; intros s.
  - exists []. cbn. rewrite app_nil_r. auto.
  - cbn [send_bytes]. unfold bind at 1. cbn [sd_spi_write].
    match goal with |- context [send_bytes p ?s1] =>
      destruct (IH s1) as (evs & H & T) end.
    exists (EvXfer (u8 x) (u8 (hd SPI_FILL_CHAR (rx (spi s)))) :: evs).
    split.
    + rewrite H. cbn. rewrite <- app_assoc. reflexivity.
    + cbn. rewrite T. reflexivity.
Qed.

Lemma cmdPacket_bytes on cmd arg : map u8 (cmdPacket on cmd arg) = cmdPacket on cmd arg.
Proof.
  unfold cmdPacket, cmdPacket5. cbn [map app]. rewrite !u8_u8.
  destruct on; [rewrite u8_u8; reflexivity|].
  destruct (cmd =? CMD0_GO_IDLE_STATE); [reflexivity|].
  destruct (cmd =? CMD8_SEND_IF_COND); reflexivity.
Qed.

(** The first six bytes [sd_cmd_spi] shifts out are the command packet. *)
Lemma sd_cmd_spi_tx cmd arg s :
  exists rest,
    tx_bytes (events_since s (snd (sd_cmd_spi cmd arg s)))
    = cmdPacket (crc_on s) cmd (u32 arg) ++ rest.
Proof.
  unfold sd_cmd_spi. unfold bind at 1. unfold get_crc_on at 1.
  unfold bind at 1.
  destruct (send_bytes_trace (cmdPacket (crc_on s) cmd (u32 arg)) s) as (e1 & H1 & T1).
  destruct (send_bytes (cmdPacket (crc_on s) cmd (u32 arg)) s) as [[] s1].
  cbn [snd] in H1.
  match goal with |- context [snd (?m s1)] =>
    assert (Hm : preserves (io (ev_ok [])) m) by io_auto;
    destruct (Hm s1) as (_ & _ & _ & _ & e2 & H2 & _)
  end.
  exists (tx_bytes e2).
  rewrite (events_since_app s _ (e1 ++ e2)).
  - rewrite tx_bytes_app, T1, cmdPacket_bytes. reflexivity.
  - rewrite H2, H1, app_assoc. reflexivity.
Qed.

(** C7 (as amended).  With CRC checking disabled, the six bytes
    [sd_cmd_spi] sends first are the command packet, and its last byte is
    0x95 for CMD0, 0x87 for CMD8 and 0xFF for every other command: all
    eight bits set, the stop bit among them (not the stop bit alone).
    0x95 and 0x87 are the bytes CRC-7 gives for CMD0 with argument 0 and
    for CMD8 with argument 0x1AA. *)
Theorem C7_crc_byte_when_crc_disabled :
  forall (cmd : cmdSupported) (arg : Z) (s : state),
    crc_on s = false ->
    (exists rest,
        tx_bytes (events_since s (snd (sd_cmd_spi cmd arg s)))
        = cmdPacket false cmd (u32 arg) ++ rest) /\
    length (cmdPacket false cmd (u32 arg)) = 6%nat /\
    nth 5 (cmdPacket false cmd (u32 arg)) 0
      = (if cmd =? CMD0_GO_IDLE_STATE then 0x95
         else if cmd =? CMD8_SEND_IF_COND then 0x87
         else 0xFF) /\
    Z.testbit 0xFF 0 = true /\
    nth 5 (cmdPacket true CMD0_GO_IDLE_STATE 0) 0 = 0x95 /\
    nth 5 (cmdPacket true CMD8_SEND_IF_COND 0x1AA) 0 = 0x87.
Proof.
  intros cmd arg s Hoff.
  split.
  { destruct (sd_cmd_spi_tx cmd arg s) as (rest & H).
    rewrite Hoff in H. exists rest. exact H. }
  split; [reflexivity|].
  split; [reflexivity|].
  split; [reflexivity|].
  split; vm_compute; reflexivity.
Qed.

Lemma C7_witness :
  crc_on crc_off_state = false /\
  nth 5 (cmdPacket false CMD17_READ_SINGLE_BLOCK (u32 0)) 0 = 0xFF.
Proof.
  split; [reflexivity|].
  apply (C7_crc_byte_when_crc_disabled CMD17_READ_SINGLE_BLOCK 0 crc_off_state).
  reflexivity.
Defined.

(** The claim as worded fails: with CRC checking disabled the CRC byte
    that goes out with CMD17 is 0xFF, not a byte with the stop bit
    alone. *)
Lemma C7_counterexample :
  nth 5 (tx_bytes (events_since crc_off_state
                     (snd (sd_cmd_spi CMD17_READ_SINGLE_BLOCK 0 crc_off_state)))) 0
    = 0xFF /\
  only_stop_bit_set
    (nth 5 (tx_bytes (events_since crc_off_state
                        (snd (sd_cmd_spi CMD17_READ_SINGLE_BLOCK 0 crc_off_state)))) 0)
    = false.
Proof. split; vm_compute; reflexivity. Qed.

(** ** C4: sector count from the capacity register *)

Lemma ext_bits_from_range data lsb n :
  0 <= ext_bits_from data lsb n < 2 ^ Z.of_nat n.
Proof.
  revert lsb. induction n as [|n IH]; intros lsb.
  - cbn. lia.
  - cbn [ext_bits_from]. specialize (IH (lsb + 1)).
    rewrite Nat2Z.inj_succ, Z.pow_succ_r by lia.
    destruct (reg_bit data lsb); cbn [Z.b2z]; lia.
Qed.

Lemma ext_bits_range data msb lsb :
  0 <= ext_bits data msb lsb < 2 ^ Z.of_nat (Z.to_nat (1 + msb - lsb)).
Proof. apply ext_bits_from_range. Qed.

(** Structure version 0: the code computes the closed form, no
    intermediate value wraps. *)
Lemma csd_blocks_v0 csd :
  ext_bits csd 127 126 = 0 ->
  csd_blocks csd
  = ((ext_bits csd 73 62 + 1) * 2 ^ (ext_bits csd 49 47 + 2)
     * 2 ^ ext_bits csd 83 80) / 512.
Proof.
  intros H0. unfold csd_blocks. rewrite H0. cbn [Z.eqb].
  pose proof (ext_bits_range csd 73 62) as Hc.
  pose proof (ext_bits_range csd 49 47) as Hm.
  pose proof (ext_bits_range csd 83 80) as Hr.
  change (2 ^ Z.of_nat (Z.to_nat (1 + 73 - 62))) with 4096 in Hc.
  change (2 ^ Z.of_nat (Z.to_nat (1 + 49 - 47))) with 8 in Hm.
  change (2 ^ Z.of_nat (Z.to_nat (1 + 83 - 80))) with 16 in Hr.
  set (c := ext_bits csd 73 62) in *.
  set (m := ext_bits csd 49 47) in *.
  set (r := ext_bits csd 83 80) in *.
  rewrite !Z.shiftl_mul_pow2 by lia. rewrite !Z.mul_1_l.
  assert (Hpm : 0 < 2 ^ (m + 2) <= 2 ^ 9).
  { split; [apply Z.pow_pos_nonneg; lia | apply Z.pow_le_mono_r; lia]. }
  assert (Hpr : 0 < 2 ^ r <= 2 ^ 15).
  { split; [apply Z.pow_pos_nonneg; lia | apply Z.pow_le_mono_r; lia]. }
  change (2 ^ 9) with 512 in Hpm. change (2 ^ 15) with 32768 in Hpr.
  unfold u32, u64, _block_size.
  rewrite (Z.mod_small (2 ^ r)) by (change (2 ^ 32) with 4294967296; lia).
  rewrite (Z.mod_small (2 ^ (m + 2))) by (change (2 ^ 32) with 4294967296; lia).
  rewrite (Z.mod_small ((c + 1) * 2 ^ (m + 2)))
    by (change (2 ^ 32) with 4294967296; nia).
  rewrite Z.mod_small by (change (2 ^ 64) with 18446744073709551616; nia).
  reflexivity.
Qed.

(** Structure version 1: the shift is done on 32 bits, so the result is
    (device_size + 1) * 1024 reduced modulo 2^32; that is the exact
    product for every device size but the largest. *)
Lemma csd_blocks_v1 csd :
  ext_bits csd 127 126 = 1 ->
  csd_blocks csd = ((ext_bits csd 69 48 + 1) * 1024) mod 2 ^ 32 /\
  (ext_bits csd 69 48 < 0x3FFFFF ->
   csd_blocks csd = (ext_bits csd 69 48 + 1) * 1024) /\
  (ext_bits csd 69 48 = 0x3FFFFF -> csd_blocks csd = 0).
Proof.
  intros H1. unfold csd_blocks. rewrite H1. cbn [Z.eqb].
  pose proof (ext_bits_range csd 69 48) as Hc.
  change (2 ^ Z.of_nat (Z.to_nat (1 + 69 - 48))) with 4194304 in Hc.
  set (c := ext_bits csd 69 48) in *.
  unfold u32. rewrite Z.shiftl_mul_pow2 by lia.
  rewrite (Z.mod_small (c + 1)) by (change (2 ^ 32) with 4294967296; lia).
  change (2 ^ 10) with 1024.
  split; [reflexivity|]. split.
  - intros Hlt. apply Z.mod_small. change (2 ^ 32) with 4294967296. lia.
  - intros ->. reflexivity.
Qed.

(** C4, at the input where the code and the claim part.  For the
    structure-version-1 register whose device-size field is 0x3FFFFF the
    claim gives (0x3FFFFF + 1) * 1024 = 2^32 sectors; the code shifts in
    32 bits and gets 0, which [in_sd_spi_sectors] returns and [sd_init]
    then takes for a failed CMD9. *)
Theorem C4_device_size_all_ones_decodes_to_zero :
  ext_bits csd_2tb 127 126 = 1 /\
  ext_bits csd_2tb 69 48 = 0x3FFFFF /\
  (ext_bits csd_2tb 69 48 + 1) * 1024 = 2 ^ 32 /\
  csd_blocks csd_2tb = 0 /\
  fst (in_sd_spi_sectors csd_2tb_state) = 0 /\
  csd (card (snd (in_sd_spi_sectors csd_2tb_state))) = csd_2tb.
Proof. repeat split; vm_compute; reflexivity. Qed.

(** ** How a run begins *)

Lemma starts_with_emit {A} e (m : M A) evs0 :
  starts_with m evs0 -> starts_with (emit e ;;; m) (e :: evs0).
Proof.
  intros Hm s. unfold bind, emit.
  match goal with |- context [m ?s1] => destruct (Hm s1) as (rest & H) end.
  exists rest. rewrite H. cbn. rewrite <- app_assoc. reflexivity.
Qed.

Lemma starts_with_bind {A B} P (m : M A) (k : A -> M B) evs0 :
  starts_with m evs0 -> (forall a, preserves (io P) (k a)) ->
  starts_with (bind m k) evs0.
Proof.
  intros Hm Hk s. unfold bind. destruct (Hm s) as (r1 & H1).
  destruct (m s) as [a s1]. cbn [snd] in H1.
  destruct (Hk a s1) as (_ & _ & _ & _ & r2 & H2 & _).
  exists (r1 ++ r2). rewrite H2, H1. rewrite <- !app_assoc. reflexivity.
Qed.

Lemma starts_with_nil {A} P (m : M A) : preserves (io P) m -> starts_with m [].
Proof.
  intros Hm s. destruct (Hm s) as (_ & _ & _ & _ & r & H & _).
  exists r. exact H.
Qed.

Lemma starts_with_events {A} (m : M A) evs0 s :
  starts_with m evs0 ->
  exists rest, events_since s (snd (m s)) = evs0 ++ rest.
Proof.
  intros Hm. destruct (Hm s) as (rest & H). exists rest.
  apply events_since_app. exact H.
Qed.

(** [sd_cmd] begins by logging the command and its 32-bit argument. *)
Lemma sd_cmd_starts cmd arg a r :
  starts_with (sd_cmd cmd arg a r) [EvCmd cmd (u32 arg) a].
Proof.
  unfold sd_cmd.
  apply (starts_with_bind (ev_ok [cmd])).
  - unfold sd_cmd_send. apply starts_with_emit.
    apply (starts_with_nil (ev_ok [])). io_auto.
  - intros [response|]; [apply sd_cmd_process_io | apply preserves_ret; apply io_pre].
Qed.

(** ** C9: the command-CRC-error bit of R1 *)

Lemma sd_cmd_process_crc cmd response s :
  response <> R1_NO_RESPONSE ->
  anybit response R1_COM_CRC_ERROR = true ->
  cmd <> ACMD23_SET_WR_BLK_ERASE_COUNT ->
  sd_cmd_process cmd response s = (SD_BLOCK_DEVICE_ERROR_CRC, response, s).
Proof.
  intros Hr Hc Hn. unfold sd_cmd_process.
  apply Z.eqb_neq in Hr. apply Z.eqb_neq in Hn.
  rewrite Hr, Hc, Hn. reflexivity.
Qed.

Lemma sd_cmd_process_acmd23 response s :
  response <> R1_NO_RESPONSE ->
  sd_cmd_process ACMD23_SET_WR_BLK_ERASE_COUNT response s
  = (if anybit response R1_ILLEGAL_COMMAND
     then SD_BLOCK_DEVICE_ERROR_UNSUPPORTED
     else r1_status response, response, s).
Proof.
  intros Hr. unfold sd_cmd_process. apply Z.eqb_neq in Hr. rewrite Hr.
  rewrite Z.eqb_refl, andb_false_r.
  destruct (anybit response R1_ILLEGAL_COMMAND); reflexivity.
Qed.

Lemma r1_status_not_crc r : r1_status r <> SD_BLOCK_DEVICE_ERROR_CRC.
Proof.
  unfold r1_status.
  destruct (_ || _); [discriminate|]. destruct (_ || _); discriminate.
Qed.

(** Past its checks, a write of several blocks is the ACMD23 call
    followed by [write_multiple] from the state that call left; the
    status of the call is not looked at. *)
Lemma in_sd_write_blocks_multi buffer sector count s s1 hint :
  (u64 (sector + count) >? sectors (card s)) = false ->
  anybit (m_Status (card s)) (Z.lor STA_NOINIT STA_NODISK) = false ->
  count <> 1 ->
  sd_cmd ACMD23_SET_WR_BLK_ERASE_COUNT count true 0 s = (hint, s1) ->
  in_sd_write_blocks buffer sector count s
  = write_multiple buffer (block_addr (card_type (card s)) sector) count s1.
Proof.
  intros Hb Hst Hc Hh.
  unfold in_sd_write_blocks. unfold bind at 1. unfold get_card at 1.
  rewrite Hb, Hst. apply Z.eqb_neq in Hc. rewrite Hc.
  unfold bind at 1. rewrite Hh. reflexivity.
Qed.

(** C9.  When the R1 byte that answers a command sent through [sd_cmd]
    has the command-CRC-error bit set, [sd_cmd] returns the Crc error,
    except for ACMD23, where the bit is skipped and the status is the one
    the other bits of R1 give (never Crc).  And in the multi-block write
    the status of the ACMD23 call is dropped: whatever it is, the write
    goes on from the state that call left, with the deselect pulse and
    the CMD25 command. *)
Theorem C9_crc_error_bit_and_pre_erase_hint :
  (forall (cmd : cmdSupported) (arg : Z) (isAcmd : bool) (resp0 : Z)
          (s s1 : state) (response : Z),
      sd_cmd_send cmd (u32 arg) isAcmd s = (Some response, s1) ->
      response <> R1_NO_RESPONSE ->
      anybit response R1_COM_CRC_ERROR = true ->
      (cmd <> ACMD23_SET_WR_BLK_ERASE_COUNT ->
       sd_cmd cmd arg isAcmd resp0 s = (SD_BLOCK_DEVICE_ERROR_CRC, response, s1)) /\
      (cmd = ACMD23_SET_WR_BLK_ERASE_COUNT ->
       sd_cmd cmd arg isAcmd resp0 s
       = (if anybit response R1_ILLEGAL_COMMAND
          then SD_BLOCK_DEVICE_ERROR_UNSUPPORTED
          else r1_status response, response, s1) /\
       fst (fst (sd_cmd cmd arg isAcmd resp0 s)) <> SD_BLOCK_DEVICE_ERROR_CRC)) /\
  (forall (buffer : list Z) (sector count : Z) (s s1 : state)
          (hint : sd_error * Z),
      (u64 (sector + count) >? sectors (card s)) = false ->
      anybit (m_Status (card s)) (Z.lor STA_NOINIT STA_NODISK) = false ->
      count <> 1 ->
      sd_cmd ACMD23_SET_WR_BLK_ERASE_COUNT count true 0 s = (hint, s1) ->
      in_sd_write_blocks buffer sector count s
      = write_multiple buffer (block_addr (card_type (card s)) sector) count s1 /\
      exists rest,
        events_since s (snd (in_sd_write_blocks buffer sector count s))
        = events_since s s1
          ++ [EvDeselectPulse;
              EvCmd CMD25_WRITE_MULTIPLE_BLOCK
                    (u32 (block_addr (card_type (card s)) sector)) false]
          ++ rest).
Proof.
  split.
  - intros cmd arg isAcmd resp0 s s1 response Hs Hr Hc.
    assert (E : sd_cmd cmd arg isAcmd resp0 s = sd_cmd_process cmd response s1).
    { unfold sd_cmd, bind. rewrite Hs. reflexivity. }
    split.
    + intros Hn. rewrite E. apply sd_cmd_process_crc; assumption.
    + intros ->. rewrite E, sd_cmd_process_acmd23 by assumption.
      split; [reflexivity|]. cbn [fst].
      destruct (anybit response R1_ILLEGAL_COMMAND);
        [discriminate | apply r1_status_not_crc].
  - intros buffer sector count s s1 hint Hb Hst Hc Hh.
    assert (E : in_sd_write_blocks buffer sector count s
                = write_multiple buffer (block_addr (card_type (card s)) sector)
                                 count s1).
    { exact (in_sd_write_blocks_multi buffer sector count s s1 hint Hb Hst Hc Hh). }
    split; [exact E|]. rewrite E.
    pose proof (preserves_run _ _ _ _ _
                  (sd_cmd_io [ACMD23_SET_WR_BLK_ERASE_COUNT] _ count true 0
                             (or_introl eq_refl)) Hh) as Hio.
    destruct (io_events _ _ _ Hio) as [Ht _].
    assert (Hw : starts_with
                   (write_multiple buffer (block_addr (card_type (card s)) sector) count)
                   [EvDeselectPulse;
                    EvCmd CMD25_WRITE_MULTIPLE_BLOCK
                          (u32 (block_addr (card_type (card s)) sector)) false]).
    { unfold write_multiple. apply starts_with_emit.
      apply (starts_with_bind (ev_ok write_cmds)); [apply sd_cmd_starts|].
      intros a. unfold write_check_status, write_cmds. io_auto. }
    destruct (Hw s1) as (rest & Hr). exists rest.
    apply events_since_app. rewrite Hr, Ht. rewrite <- !app_assoc. reflexivity.
Qed.

Lemma C9_witness :
  (sd_cmd_send CMD17_READ_SINGLE_BLOCK (u32 5) false crc_error_state
   = (Some 8, snd (sd_cmd_send CMD17_READ_SINGLE_BLOCK (u32 5) false crc_error_state)) /\
   8 <> R1_NO_RESPONSE /\ anybit 8 R1_COM_CRC_ERROR = true /\
   CMD17_READ_SINGLE_BLOCK <> ACMD23_SET_WR_BLK_ERASE_COUNT) /\
  sd_cmd CMD17_READ_SINGLE_BLOCK 5 false 0 crc_error_state
  = (SD_BLOCK_DEVICE_ERROR_CRC, 8,
     snd (sd_cmd_send CMD17_READ_SINGLE_BLOCK (u32 5) false crc_error_state)) /\
  ((u64 (0 + 2) >? sectors (card hint_rejected_state)) = false /\
   anybit (m_Status (card hint_rejected_state)) (Z.lor STA_NOINIT STA_NODISK) = false /\
   2 <> 1 /\
   fst (fst (sd_cmd ACMD23_SET_WR_BLK_ERASE_COUNT 2 true 0 hint_rejected_state))
   = SD_BLOCK_DEVICE_ERROR_UNSUPPORTED) /\
  in_sd_write_blocks [] 0 2 hint_rejected_state
  = write_multiple [] (block_addr (card_type (card hint_rejected_state)) 0) 2
      (snd (sd_cmd ACMD23_SET_WR_BLK_ERASE_COUNT 2 true 0 hint_rejected_state)).
Proof.
  split.
  { split; [vm_compute; reflexivity|].
    split; [discriminate|]. split; [vm_compute; reflexivity | discriminate]. }
  split.
  - apply (proj1 C9_crc_error_bit_and_pre_erase_hint
             CMD17_READ_SINGLE_BLOCK 5 false 0 crc_error_state _ 8).
    + vm_compute; reflexivity.
    + discriminate.
    + vm_compute; reflexivity.
    + discriminate.
  - split.
    { split; [vm_compute; reflexivity|]. split; [vm_compute; reflexivity|].
      split; [discriminate | vm_compute; reflexivity]. }
    apply (proj2 C9_crc_error_bit_and_pre_erase_hint [] 0 2 hint_rejected_state _
             (fst (sd_cmd ACMD23_SET_WR_BLK_ERASE_COUNT 2 true 0 hint_rejected_state))).
    + vm_compute; reflexivity.
    + vm_compute; reflexivity.
    + discriminate.
    + apply surjective_pairing.
Defined.

(** ** C2: the bounds check in front of reads and writes *)

(** Requests that are out of range without wrapping, and requests on a
    session that is not initialized or has no medium, are refused before
    anything is done: the state, trace included, is untouched. *)
Lemma bounds_check_rejects buffer sector count s :
  (0 <= sector + count < 2 ^ 64 /\ sector + count > sectors (card s)) \/
  anybit (m_Status (card s)) (Z.lor STA_NOINIT STA_NODISK) = true ->
  in_sd_read_blocks buffer sector count s
    = (SD_BLOCK_DEVICE_ERROR_PARAMETER, buffer, s) /\
  in_sd_write_blocks buffer sector count s
    = (SD_BLOCK_DEVICE_ERROR_PARAMETER, s).
Proof.
  intros H. unfold in_sd_read_blocks, in_sd_write_blocks.
  unfold bind, get_card, ret.
  destruct H as [[Hr Hgt] | Hst].
  - assert (E : (u64 (sector + count) >? sectors (card s)) = true).
    { unfold u64. rewrite Z.mod_small by lia. apply Z.gtb_lt. lia. }
    rewrite E. destruct (anybit _ _); split; reflexivity.
  - rewrite Hst. destruct (_ >? _); split; reflexivity.
Qed.

(** With the lock wrapper: nothing but the lock and the bus being taken
    and given back, no byte exchanged. *)
Lemma sd_read_blocks_rejects buffer sector count s :
  (0 <= sector + count < 2 ^ 64 /\ sector + count > sectors (card s)) \/
  anybit (m_Status (card s)) (Z.lor STA_NOINIT STA_NODISK) = true ->
  fst (sd_read_blocks buffer sector count s)
    = (SD_BLOCK_DEVICE_ERROR_PARAMETER, buffer) /\
  fst (sd_write_blocks buffer sector count s) = SD_BLOCK_DEVICE_ERROR_PARAMETER /\
  events_since s (snd (sd_read_blocks buffer sector count s)) = locked_run [] /\
  events_since s (snd (sd_write_blocks buffer sector count s)) = locked_run [].
Proof.
  intros H.
  pose (s1 := snd (sd_acquire s)).
  destruct (bounds_check_rejects buffer sector count s1 H) as [Er Ew].
  assert (R : sd_read_blocks buffer sector count s
              = (SD_BLOCK_DEVICE_ERROR_PARAMETER, buffer, snd (sd_release s1))).
  { unfold sd_read_blocks, bind. change (sd_acquire s) with (tt, s1).
    cbv beta iota. rewrite Er. reflexivity. }
  assert (W : sd_write_blocks buffer sector count s
              = (SD_BLOCK_DEVICE_ERROR_PARAMETER, snd (sd_release s1))).
  { unfold sd_write_blocks, bind. change (sd_acquire s) with (tt, s1).
    cbv beta iota. rewrite Ew. reflexivity. }
  rewrite R, W. cbn [fst snd].
  repeat split; apply events_since_app; cbn; rewrite <- ?app_assoc; reflexivity.
Qed.

(** C2, at the input where the code and the claim part.  The sum
    [ulSectorNumber + ulSectorCount] is taken in 64 bits: for sector
    2^64 - 1 and count 1 it wraps to 0, the check passes on a session of
    1000 sectors, and the read and the write go to the bus (command,
    argument 0xFFFFFFFF) instead of returning the Parameter error. *)
Theorem C2_wrapped_sum_passes_bounds_check :
  2 ^ 64 - 1 + 1 > sectors (card ready_state) /\
  u64 (2 ^ 64 - 1 + 1) = 0 /\
  fst (fst (in_sd_read_blocks [] (2 ^ 64 - 1) 1 ready_state))
    = SD_BLOCK_DEVICE_ERROR_NO_RESPONSE /\
  hd EvLock (events_since ready_state
               (snd (in_sd_read_blocks [] (2 ^ 64 - 1) 1 ready_state)))
    = EvCmd CMD17_READ_SINGLE_BLOCK 0xFFFFFFFF false /\
  existsb is_xfer (events_since ready_state
                     (snd (in_sd_read_blocks [] (2 ^ 64 - 1) 1 ready_state))) = true /\
  fst (in_sd_write_blocks [] (2 ^ 64 - 1) 1 ready_state)
    = SD_BLOCK_DEVICE_ERROR_NO_RESPONSE /\
  existsb is_xfer (events_since ready_state
                     (snd (in_sd_write_blocks [] (2 ^ 64 - 1) 1 ready_state))) = true.
Proof.
  split; [vm_compute; reflexivity|].
  split; [vm_compute; reflexivity|].
  split; [vm_compute; reflexivity|].
  split; [vm_compute; reflexivity|].
  split; [vm_compute; reflexivity|].
  split; vm_compute; reflexivity.
Qed.

(** ** C3: the address on the wire *)

Lemma events_bind {A B} P Q (m : M A) (k : A -> M B) s :
  preserves (io P) m -> (forall a, preserves (io Q) (k a)) ->
  events_since s (snd (bind m k s))
  = events_since s (snd (m s))
    ++ events_since (snd (m s)) (snd (k (fst (m s)) (snd (m s)))).
Proof.
  intros Hm Hk. unfold bind.
  destruct (io_events _ _ _ (Hm s)) as [H1 _].
  destruct (m s) as [a s1]. cbn [fst snd] in *.
  destruct (io_events _ _ _ (Hk a s1)) as [H2 _].
  apply events_since_app. rewrite H2, H1 at 1. rewrite app_assoc. reflexivity.
Qed.

Lemma bind_fst_snd {A B} (m : M A) (k : A -> M B) s :
  bind m k s = k (fst (m s)) (snd (m s)).
Proof. unfold bind. destruct (m s). reflexivity. Qed.

Lemma u32_u32 x : u32 (u32 x) = u32 x.
Proof. unfold u32. apply Z.mod_mod. lia. Qed.

Lemma u32_u64 x : u32 (u64 x) = u32 x.
Proof.
  unfold u32, u64. apply Z.mod_mod_divide.
  exists (2 ^ 32). reflexivity.
Qed.

(** The four argument bytes of a packet are the big-endian encoding of
    the low 32 bits of the argument. *)
Lemma packet_arg_cmdPacket on cmd a :
  packet_arg (cmdPacket on cmd a) = u32 a.
Proof.
  unfold packet_arg, cmdPacket. cbn [app nth].
  unfold u8, u32. rewrite !Z.shiftr_div_pow2 by lia.
  change (2 ^ 24) with 16777216. change (2 ^ 16) with 65536.
  change (2 ^ 8) with 256. change (2 ^ 0) with 1. change (2 ^ 32) with 4294967296.
  Z.div_mod_to_equations. lia.
Qed.

Lemma sd_spi_write_fill P v :
  (forall r, P (EvXfer (u8 v) r)) -> preserves (io P) (sd_spi_write v).
Proof.
  intros HP s. unfold io; cbn. repeat split; auto.
  eexists; split; [reflexivity|]. constructor; auto.
Qed.

Lemma time_left_any P t : preserves (io P) (time_left t).
Proof.
  intros s. unfold time_left. destruct (u32 t =? 0).
  - apply pre_refl.
  - unfold io; cbn. repeat split; auto.
    + destruct (clock (spi s)); cbn; lia.
    + exists []. rewrite app_nil_r. auto.
Qed.

Lemma sd_wait_ready_loop_fill fuel t :
  preserves (io (fun e => exists r, e = EvXfer 0xFF r)) (sd_wait_ready_loop fuel t).
Proof.
  induction fuel; cbn [sd_wait_ready_loop];
    repeat first
      [ pres_step
      | apply sd_spi_write_fill; intros; eexists; reflexivity
      | apply time_left_any
      | assumption ].
Qed.

Lemma tx_bytes_fill evs :
  Forall (fun e => exists r, e = EvXfer 0xFF r) evs ->
  tx_bytes evs = repeat 0xFF (length evs).
Proof.
  induction 1 as [|e evs [r ->] _ IH]; [reflexivity|].
  cbn. rewrite IH. reflexivity.
Qed.

Lemma sd_wait_ready_loop_tx fuel t s :
  exists k, tx_bytes (events_since s (snd (sd_wait_ready_loop fuel t s)))
            = repeat 0xFF k.
Proof.
  destruct (io_events _ _ _ (sd_wait_ready_loop_fill fuel t s)) as [_ HF].
  eexists. apply tx_bytes_fill. exact HF.
Qed.

Lemma sd_wait_ready_tx t s :
  exists k, tx_bytes (events_since s (snd (sd_wait_ready t s))) = repeat 0xFF k.
Proof.
  unfold sd_wait_ready.
  destruct (sd_wait_ready_loop_tx (length (clock (spi s))) t s) as (k & H).
  exists k. destruct (sd_wait_ready_loop _ _ _). exact H.
Qed.

(** [sd_cmd] and its retry loop, step by step. *)
Lemma sd_cmd_eq cmd arg a r s :
  sd_cmd cmd arg a r s
  = let (ready, s1) :=
        (if negb (cmd =? CMD12_STOP_TRANSMISSION) && negb (cmd =? CMD0_GO_IDLE_STATE)
         then sd_wait_ready SD_COMMAND_TIMEOUT else ret true)
          (snd (emit (EvCmd cmd (u32 arg) a) s)) in
    if ready then
      let (response, s2) := sd_cmd_retry SD_COMMAND_RETRIES cmd (u32 arg) a s1 in
      sd_cmd_process cmd response s2
    else (SD_BLOCK_DEVICE_ERROR_NO_RESPONSE, r, s1).
Proof.
  unfold sd_cmd, sd_cmd_send, bind. cbn [emit snd].
  set (READY := if negb (cmd =? CMD12_STOP_TRANSMISSION)
                   && negb (cmd =? CMD0_GO_IDLE_STATE)
                then sd_wait_ready SD_COMMAND_TIMEOUT else ret true).
  destruct (READY _) as [[|] s1]; cbn [negb ret].
  - destruct (sd_cmd_retry _ _ _ _ _). reflexivity.
  - reflexivity.
Qed.

Lemma sd_cmd_retry_eq n cmd arg s :
  sd_cmd_retry (S n) cmd arg false s
  = let (response, s2) := sd_cmd_spi cmd arg s in
    if response =? R1_NO_RESPONSE then sd_cmd_retry n cmd arg false s2
    else (response, s2).
Proof.
  cbn [sd_cmd_retry]. unfold bind, ret.
  destruct (sd_cmd_spi cmd arg s) as [response s2].
  destruct (response =? R1_NO_RESPONSE); reflexivity.
Qed.

(** What [sd_cmd] puts on the wire for a plain command: fill bytes while
    it waits for the card, then, unless the card never became ready, the
    command packet. *)
Lemma sd_cmd_tx cmd arg r s :
  exists k rest,
    tx_bytes (events_since s (snd (sd_cmd cmd arg false r s)))
      = repeat 0xFF k ++ rest /\
    ((rest = [] /\
      fst (fst (sd_cmd cmd arg false r s)) = SD_BLOCK_DEVICE_ERROR_NO_RESPONSE) \/
     exists rest', rest = cmdPacket (crc_on s) cmd (u32 arg) ++ rest').
Proof.
  rewrite sd_cmd_eq. cbn [emit snd].
  set (s0 := set_spi (log (EvCmd cmd (u32 arg) false) (spi s)) s).
  assert (T0 : trace (spi s0) = trace (spi s) ++ [EvCmd cmd (u32 arg) false])
    by reflexivity.
  assert (C0 : crc_on s0 = crc_on s) by reflexivity.
  set (READY := if negb (cmd =? CMD12_STOP_TRANSMISSION)
                   && negb (cmd =? CMD0_GO_IDLE_STATE)
                then sd_wait_ready SD_COMMAND_TIMEOUT else ret true).
  assert (HR : exists k, tx_bytes (events_since s0 (snd (READY s0))) = repeat 0xFF k).
  { subst READY. destruct (_ && _).
    - apply sd_wait_ready_tx.
    - exists 0%nat. cbn. unfold events_since. rewrite skipn_all. reflexivity. }
  assert (IR : io (ev_ok []) s0 (snd (READY s0))).
  { subst READY. destruct (_ && _); [apply sd_wait_ready_io | apply pre_refl]. }
  destruct HR as (k & HR).
  destruct (io_events _ _ _ IR) as [T1 _].
  destruct IR as (C1 & _).
  destruct (READY s0) as [ready s1]. cbn [snd] in *.
  destruct ready.
  - unfold SD_COMMAND_RETRIES. rewrite sd_cmd_retry_eq.
    destruct (sd_cmd_spi_tx cmd (u32 arg) s1) as (rest2 & H2).
    destruct (io_events _ _ _ (sd_cmd_spi_io [] cmd (u32 arg) s1)) as [T2 _].
    destruct (sd_cmd_spi cmd (u32 arg) s1) as [resp1 s2]. cbn [snd] in *.
    rewrite u32_u32, C1, C0 in H2.
    assert (IK : forall st,
               io (ev_ok []) st
                 (snd (let (response, s3) :=
                           if resp1 =? R1_NO_RESPONSE
                           then sd_cmd_retry 2 cmd (u32 arg) false st
                           else (resp1, st) in
                       sd_cmd_process cmd response s3))).
    { intros st. destruct (resp1 =? R1_NO_RESPONSE).
      - pose proof (sd_cmd_retry_io [] 2 cmd (u32 arg) false st) as H.
        destruct (sd_cmd_retry 2 cmd (u32 arg) false st) as [resp s3].
        cbn [snd] in H. eapply pre_trans; [exact H|].
        apply sd_cmd_process_io.
      - apply sd_cmd_process_io. }
    destruct (io_events _ _ _ (IK s2)) as [T3 _].
    match type of T3 with trace (spi ?f) = _ => set (fin := f) in * end.
    exists k. eexists. split.
    + rewrite (events_since_app s fin
                 ([EvCmd cmd (u32 arg) false] ++ events_since s0 s1
                  ++ events_since s1 s2 ++ events_since s2 fin)).
      * cbn [app tx_bytes]. rewrite !tx_bytes_app, HR, H2. reflexivity.
      * etransitivity; [exact T3|]. rewrite T2, T1, T0.
        rewrite <- !app_assoc. reflexivity.
    + right. rewrite <- app_assoc. eexists. reflexivity.
  - cbn [snd fst]. exists k, []. split.
    + rewrite (events_since_app s s1 ([EvCmd cmd (u32 arg) false] ++ events_since s0 s1)).
      * cbn [app tx_bytes]. rewrite HR, app_nil_r. reflexivity.
      * rewrite T1, T0, <- app_assoc. reflexivity.
    + left. split; reflexivity.
Qed.

(** A plain command followed by code that stops at once when the command
    got no response. *)
Lemma cmd_then {B} Q cmd arg r (k : sd_error * Z -> M B) (stat : B -> sd_error) s :
  (forall p, preserves (io Q) (k p)) ->
  (forall p s', fst p = SD_BLOCK_DEVICE_ERROR_NO_RESPONSE ->
                snd (k p s') = s' /\
                stat (fst (k p s')) = SD_BLOCK_DEVICE_ERROR_NO_RESPONSE) ->
  (exists rest,
      events_since s (snd (bind (sd_cmd cmd arg false r) k s))
      = EvCmd cmd (u32 arg) false :: rest) /\
  sends_packet (crc_on s) cmd (u32 arg)
    (events_since s (snd (bind (sd_cmd cmd arg false r) k s)))
    (stat (fst (bind (sd_cmd cmd arg false r) k s))).
Proof.
  intros Hk Hstop. split.
  - apply (starts_with_events _ [EvCmd cmd (u32 arg) false]).
    apply (starts_with_bind Q); [apply sd_cmd_starts | exact Hk].
  - rewrite (events_bind (ev_ok [cmd]) Q);
      [ | apply sd_cmd_io; left; reflexivity | exact Hk ].
    rewrite bind_fst_snd.
    destruct (sd_cmd_tx cmd arg r s) as (n & rest & Htx & Hrest).
    exists n. eexists. split.
    + rewrite tx_bytes_app, Htx, <- app_assoc. reflexivity.
    + destruct Hrest as [[-> Hno] | (rest' & ->)].
      * left. destruct (Hstop _ (snd (sd_cmd cmd arg false r s)) Hno) as [Hs Hst].
        split; [|exact Hst].
        rewrite Hs. unfold events_since. rewrite skipn_all. reflexivity.
      * right. rewrite <- app_assoc. eexists. reflexivity.
Qed.

Lemma skip_pulse_sends on cmd a evs st :
  sends_packet on cmd a evs st -> sends_packet on cmd a (EvDeselectPulse :: evs) st.
Proof. intros H. exact H. Qed.

(** C3 (as amended).  For every read or write that reaches the command
    stage, the 32-bit argument of the read/write command, in the call of
    [sd_cmd] and in the packet on the wire, is the low 32 bits of the
    requested sector number when the capacity class is V2HighCapacity and
    the low 32 bits of sector * 512 for every other class; it is the
    sector number, respectively sector * 512, itself whenever that value
    fits 32 bits. *)
Theorem C3_wire_address_is_low_32_bits :
  forall (buffer : list Z) (sector count : Z) (s : state),
    anybit (m_Status (card s)) (Z.lor STA_NOINIT STA_NODISK) = false ->
    (u64 (sector + count) >? sectors (card s)) = false ->
    let a := u32 (block_addr (card_type (card s)) sector) in
    a = (if is_v2hc (card_type (card s)) then sector mod 2 ^ 32
         else (sector * 512) mod 2 ^ 32) /\
    (is_v2hc (card_type (card s)) = true -> 0 <= sector < 2 ^ 32 -> a = sector) /\
    (is_v2hc (card_type (card s)) = false -> 0 <= sector * 512 < 2 ^ 32 ->
     a = sector * 512) /\
    (forall cmd, packet_arg (cmdPacket (crc_on s) cmd a) = a) /\
    (let r := in_sd_read_blocks buffer sector count s in
     let cmd := if count =? 1 then CMD17_READ_SINGLE_BLOCK
                else CMD18_READ_MULTIPLE_BLOCK in
     (exists rest, events_since s (snd r) = EvCmd cmd a false :: rest) /\
     sends_packet (crc_on s) cmd a (events_since s (snd r)) (fst (fst r))) /\
    (count = 1 ->
     let r := in_sd_write_blocks buffer sector count s in
     (exists rest, events_since s (snd r) = EvCmd CMD24_WRITE_BLOCK a false :: rest) /\
     sends_packet (crc_on s) CMD24_WRITE_BLOCK a (events_since s (snd r)) (fst r)) /\
    (count <> 1 ->
     forall hint s1,
       sd_cmd ACMD23_SET_WR_BLK_ERASE_COUNT count true 0 s = (hint, s1) ->
       let r := write_multiple buffer (block_addr (card_type (card s)) sector)
                               count s1 in
       in_sd_write_blocks buffer sector count s = r /\
       (exists rest,
           events_since s1 (snd r)
           = EvDeselectPulse :: EvCmd CMD25_WRITE_MULTIPLE_BLOCK a false :: rest) /\
       sends_packet (crc_on s) CMD25_WRITE_MULTIPLE_BLOCK a
                    (events_since s1 (snd r)) (fst r)).
Proof.
  intros buffer sector count s Hst Hb a.
  assert (Ha : a = (if is_v2hc (card_type (card s)) then sector mod 2 ^ 32
                    else (sector * 512) mod 2 ^ 32)).
  { subst a. unfold block_addr. destruct (is_v2hc _).
    - reflexivity.
    - rewrite u32_u64. reflexivity. }
  split; [exact Ha|].
  split. { intros Hv Hr. rewrite Ha, Hv. apply Z.mod_small. exact Hr. }
  split. { intros Hv Hr. rewrite Ha, Hv. apply Z.mod_small. exact Hr. }
  split. { intros cmd. rewrite packet_arg_cmdPacket. subst a. apply u32_u32. }
  split; [|split].
  - cbv zeta.
    assert (E : in_sd_read_blocks buffer sector count s
                = bind (sd_cmd (if count =? 1 then CMD17_READ_SINGLE_BLOCK
                                else CMD18_READ_MULTIPLE_BLOCK)
                               (block_addr (card_type (card s)) sector) false 0)
                    (fun x => let (status, _) := x in
                       if negb (is_none status) then ret (status, buffer)
                       else
                         '(status, buffer', prev) <-
                           read_blocks_loop (Z.to_nat count) buffer 0 None ;;
                         when (count >? 1)
                              (_ <- sd_cmd CMD12_STOP_TRANSMISSION 0x0 false 0 ;; ret tt) ;;;
                         if is_none status then
                           on <- get_crc_on ;;
                           fun s =>
                             let (blk, crc) := prev_block (spi s) buffer' prev in
                             if negb (chk_crc16 on blk crc)
                             then (SD_BLOCK_DEVICE_ERROR_CRC, buffer', s)
                             else (status, buffer', s)
                         else ret (status, buffer')) s).
    { unfold in_sd_read_blocks. unfold bind at 1. unfold get_card at 1.
      rewrite Hst, Hb. destruct (count =? 1); reflexivity. }
    rewrite E.
    apply (cmd_then (ev_ok read_cmds) _ _ 0 _ (fun v => fst v)).
    + intros [status z]. unfold read_cmds. io_auto.
      intros st. destruct (prev_block _ _ _). destruct (negb _); apply pre_refl.
    + intros [status z] s' Hn. cbn [fst] in Hn. subst status. split; reflexivity.
  - intros ->. cbv zeta.
    assert (E : in_sd_write_blocks buffer sector 1 s
                = bind (sd_cmd CMD24_WRITE_BLOCK
                               (block_addr (card_type (card s)) sector) false 0)
                    (fun x => let (status, _) := x in
                       if negb (is_none status) then ret status
                       else
                         _ <- sd_write_block buffer SPI_START_BLOCK
                                             (Z.to_nat _block_size) ;;
                         write_check_status) s).
    { unfold in_sd_write_blocks. unfold bind at 1. unfold get_card at 1.
      rewrite Hst, Hb. reflexivity. }
    rewrite E.
    apply (cmd_then (ev_ok write_cmds) _ _ 0 _ (fun v => v)).
    + intros [status z]. unfold write_check_status, write_cmds. io_auto.
    + intros [status z] s' Hn. cbn [fst] in Hn. subst status. split; reflexivity.
  - intros Hc hint s1 Hh. cbv zeta.
    split.
    { exact (in_sd_write_blocks_multi buffer sector count s s1 hint Hb Hst Hc Hh). }
    set (s2 := snd (sd_spi_deselect_pulse s1)).
    set (K := fun x : sd_error * Z => let (status, _) := x in
                if negb (is_none status) then ret status
                else
                  _ <- write_blocks_loop
                         (Z.to_nat (if count =? 0 then 2 ^ 32 else count)) buffer 0 ;;
                  _ <- sd_spi_write SPI_STOP_TRAN ;;
                  write_check_status).
    assert (E : write_multiple buffer (block_addr (card_type (card s)) sector) count s1
                = bind (sd_cmd CMD25_WRITE_MULTIPLE_BLOCK
                               (block_addr (card_type (card s)) sector) false 0) K s2).
    { reflexivity. }
    rewrite E.
    assert (C : crc_on s2 = crc_on s).
    { pose proof (preserves_run _ _ _ _ _
                    (sd_cmd_io [ACMD23_SET_WR_BLK_ERASE_COUNT] _ count true 0
                               (or_introl eq_refl)) Hh) as (C1 & _).
      exact C1. }
    assert (HK : forall p, preserves (io (ev_ok write_cmds)) (K p)).
    { intros [status z]. unfold K, write_check_status, write_cmds. io_auto. }
    destruct (cmd_then (ev_ok write_cmds) CMD25_WRITE_MULTIPLE_BLOCK
                (block_addr (card_type (card s)) sector) 0 K (fun v => v) s2 HK)
      as [(rest & Hev) Hsp].
    { intros [status z] s' Hn. cbn [fst] in Hn. subst status. split; reflexivity. }
    rewrite C in Hsp. fold a in Hev, Hsp.
    set (fin := snd (bind (sd_cmd CMD25_WRITE_MULTIPLE_BLOCK
                             (block_addr (card_type (card s)) sector) false 0) K s2)) in *.
    assert (H3 : trace (spi fin) = trace (spi s2) ++ events_since s2 fin).
    { assert (Hio : preserves (io (ev_ok write_cmds))
                      (bind (sd_cmd CMD25_WRITE_MULTIPLE_BLOCK
                               (block_addr (card_type (card s)) sector) false 0) K)).
      { refine (preserves_bind _ _ _ _ HK). apply sd_cmd_io.
        unfold write_cmds. cbn [In]. auto. }
      exact (proj1 (io_events _ _ _ (Hio s2))). }
    assert (H1 : events_since s1 fin = EvDeselectPulse :: events_since s2 fin).
    { apply events_since_app. rewrite H3. cbn. rewrite <- app_assoc. reflexivity. }
    rewrite H1. split.
    + exists rest. rewrite Hev. reflexivity.
    + apply skip_pulse_sends. exact Hsp.
Qed.

Lemma C3_witness :
  (anybit (m_Status (card ready_state)) (Z.lor STA_NOINIT STA_NODISK) = false /\
   (u64 (5 + 1) >? sectors (card ready_state)) = false /\
   is_v2hc (card_type (card ready_state)) = true /\ 0 <= 5 < 2 ^ 32) /\
  u32 (block_addr (card_type (card ready_state)) 5) = 5.
Proof.
  split.
  { split; [reflexivity|]. split; [reflexivity|]. split; [reflexivity|]. lia. }
  apply (C3_wire_address_is_low_32_bits [] 5 1 ready_state).
  - reflexivity.
  - reflexivity.
  - reflexivity.
  - lia.
Defined.

(** The claim as worded fails when sector * 512 does not fit 32 bits: on
    a byte-addressed session of 2^24 sectors, a read of sector 2^23
    passes the checks and sends CMD17 with argument 0, not 2^23 * 512 =
    2^32. *)
Lemma C3_counterexample :
  hd EvLock (events_since v1_big_state
               (snd (in_sd_read_blocks [] (2 ^ 23) 1 v1_big_state)))
    = EvCmd CMD17_READ_SINGLE_BLOCK 0 false /\
  firstn 6 (skipn 1 (tx_bytes (events_since v1_big_state
                                 (snd (in_sd_read_blocks [] (2 ^ 23) 1 v1_big_state)))))
    = [0x51; 0; 0; 0; 0; 0x55] /\
  packet_arg [0x51; 0; 0; 0; 0; 0x55] = 0 /\
  2 ^ 23 * 512 = 2 ^ 32 /\
  0 <> 2 ^ 23 * 512.
Proof.
  split; [vm_compute; reflexivity|].
  split; [vm_compute; reflexivity|].
  split; [reflexivity|]. split; [reflexivity | discriminate].
Qed.

(** The pre-erase hint rejected as an illegal command, the two blocks
    written all the same. *)
Example hint_rejected_write_succeeds :
  fst (fst (sd_cmd ACMD23_SET_WR_BLK_ERASE_COUNT 2 true 0 write_hint_rejected_state))
    = SD_BLOCK_DEVICE_ERROR_UNSUPPORTED /\
  fst (in_sd_write_blocks (repeat 0xAB 1024) 7 2 write_hint_rejected_state)
    = SD_BLOCK_DEVICE_ERROR_NONE /\
  filter (fun e => negb (is_xfer e || is_dma e))
         (events_since write_hint_rejected_state
            (snd (in_sd_write_blocks (repeat 0xAB 1024) 7 2 write_hint_rejected_state)))
    = [EvCmd ACMD23_SET_WR_BLK_ERASE_COUNT 2 true; EvDeselectPulse;
       EvCmd CMD25_WRITE_MULTIPLE_BLOCK 7 false; EvDeselectPulse;
       EvCmd CMD13_SEND_STATUS 0 false].
Proof.
  split; [vm_compute; reflexivity|]. split; vm_compute; reflexivity.
Qed.

(** ** C6: the data-response token *)

(** [sd_write_block] itself does what the claim says: when the transfer
    completes, the sixth thing it does is read the data-response token,
    and a token whose low five bits are not 00101 makes it return the
    Write error. *)
Lemma sd_write_block_rejected buffer token length s tx resp :
  nth_error (events_since s (snd (sd_write_block buffer token length s))) 5
    = Some (EvXfer tx resp) ->
  Z.land resp SPI_DATA_RESPONSE_MASK <> SPI_DATA_ACCEPTED ->
  fst (sd_write_block buffer token length s) = SD_BLOCK_DEVICE_ERROR_WRITE.
Proof.
  unfold sd_write_block, bind.
  destruct (sd_spi_write token s) as [r0 s1] eqn:E0.
  assert (T1 : trace (spi s1) = trace (spi s) ++ [EvXfer (u8 token) r0]).
  { revert E0. unfold sd_spi_write. intros [= <- <-]. reflexivity. }
  destruct (sd_spi_transfer_start (Some buffer) length s1) as [d s2] eqn:E1.
  assert (T2 : exists e, trace (spi s2) = trace (spi s1) ++ [e]).
  { revert E1. unfold sd_spi_transfer_start. destruct (take_rx _ _).
    intros [= <- <-]. eexists. reflexivity. }
  destruct T2 as (e2 & T2).
  unfold get_crc_on, sd_spi_transfer_wait_complete.
  set (s3 := set_spi (log (EvDmaWait (dma_pending (spi s2))) (spi s2)) s2).
  assert (T3 : trace (spi s3) = trace (spi s2) ++ [EvDmaWait (dma_pending (spi s2))])
    by reflexivity.
  clearbody s3.
  destruct (dma_pending (spi s2)); cbn [negb]; [|reflexivity].
  set (crc := if crc_on s2 then u16 (crc16 (firstn length buffer)) else 0xFFFF).
  destruct (sd_spi_write (Z.shiftr crc 8) s3) as [r4 s4] eqn:E4.
  assert (T4 : exists e, trace (spi s4) = trace (spi s3) ++ [e]).
  { revert E4. unfold sd_spi_write. intros [= <- <-]. eexists. reflexivity. }
  destruct T4 as (e4 & T4).
  destruct (sd_spi_write crc s4) as [r5 s5] eqn:E5.
  assert (T5 : exists e, trace (spi s5) = trace (spi s4) ++ [e]).
  { revert E5. unfold sd_spi_write. intros [= <- <-]. eexists. reflexivity. }
  destruct T5 as (e5 & T5).
  destruct (sd_spi_write SPI_FILL_CHAR s5) as [response s6] eqn:E6.
  assert (T6 : trace (spi s6)
               = trace (spi s5) ++ [EvXfer (u8 SPI_FILL_CHAR) response]).
  { revert E6. unfold sd_spi_write. intros [= <- <-]. reflexivity. }
  destruct (negb (Z.land response SPI_DATA_RESPONSE_MASK =? SPI_DATA_ACCEPTED))
    eqn:Hacc; [reflexivity|].
  intros Hn Hrej. exfalso.
  pose proof (sd_wait_ready_io [] SD_COMMAND_TIMEOUT s6) as Hio.
  destruct (io_events _ _ _ Hio) as [T7 _].
  destruct (sd_wait_ready SD_COMMAND_TIMEOUT s6) as [ready s7].
  cbn [snd] in T7.
  assert (Hev : events_since s s7
                = [EvXfer (u8 token) r0; e2; EvDmaWait true; e4; e5;
                   EvXfer (u8 SPI_FILL_CHAR) response] ++ events_since s6 s7).
  { apply events_since_app.
    rewrite T7, T6, T5, T4, T3, T2, T1. rewrite <- !app_assoc. reflexivity. }
  assert (Hn' : nth_error (events_since s s7) 5 = Some (EvXfer tx resp)).
  { destruct ready; exact Hn. }
  rewrite Hev in Hn'. cbn in Hn'. injection Hn' as _ <-.
  apply negb_false_iff, Z.eqb_eq in Hacc. contradiction.
Qed.

(** C6, at the inputs where the code and the claim part.  Single block:
    the card answers the data with the CRC-error token 0x0B;
    [sd_write_block] returns the Write error, [in_sd_write_blocks] drops
    that value and returns what the CMD13 status query gives, here no
    error.  Two blocks: the first is answered with the write-error token
    0x0D; the loop stops with the Write error in [status], and the
    function again returns the status of CMD13. *)
Theorem C6_rejected_token_not_reported :
  Z.land SPI_DATA_CRC_ERROR SPI_DATA_RESPONSE_MASK <> SPI_DATA_ACCEPTED /\
  fst (sd_write_block (repeat 0xAB 512) SPI_START_BLOCK 512
         (snd (sd_cmd CMD24_WRITE_BLOCK 7 false 0 write_rejected_state)))
    = SD_BLOCK_DEVICE_ERROR_WRITE /\
  In (EvXfer SPI_FILL_CHAR SPI_DATA_CRC_ERROR)
     (events_since write_rejected_state
        (snd (in_sd_write_blocks (repeat 0xAB 512) 7 1 write_rejected_state))) /\
  fst (in_sd_write_blocks (repeat 0xAB 512) 7 1 write_rejected_state)
    = SD_BLOCK_DEVICE_ERROR_NONE /\
  fst (sd_write_blocks (repeat 0xAB 512) 7 1 write_rejected_state)
    = SD_BLOCK_DEVICE_ERROR_NONE /\
  Z.land SPI_DATA_WRITE_ERROR SPI_DATA_RESPONSE_MASK <> SPI_DATA_ACCEPTED /\
  In (EvXfer SPI_FILL_CHAR SPI_DATA_WRITE_ERROR)
     (events_since write_multi_rejected_state
        (snd (in_sd_write_blocks (repeat 0xAB 1024) 7 2 write_multi_rejected_state))) /\
  fst (in_sd_write_blocks (repeat 0xAB 1024) 7 2 write_multi_rejected_state)
    = SD_BLOCK_DEVICE_ERROR_NONE.
Proof.
  split; [discriminate|].
  split; [vm_compute; reflexivity|].
  split; [vm_compute; intuition (auto 2000) |].
  split; [vm_compute; reflexivity|].
  split; [vm_compute; reflexivity|].
  split; [discriminate|].
  split; [vm_compute; intuition (auto 2000) |].
  vm_compute; reflexivity.
Qed.

(** ** C1: initialization and the ACMD41 poll *)

#[export] Instance keeps_status_pre : Pre keeps_status.
Proof. split; unfold keeps_status; intros; congruence. Qed.

Lemma keeps_card_status {A} (m : M A) :
  preserves keeps_card m -> preserves keeps_status m.
Proof. intros H s. unfold keeps_status. rewrite (H s). reflexivity. Qed.

Lemma set_type_status t : preserves keeps_status (set_type t).
Proof. intros s. reflexivity. Qed.

Ltac status_auto :=
  repeat first
    [ pres_step
    | apply set_type_status
    | solve [ apply keeps_card_status; eauto with sd_card ]
    | assumption ].

Lemma sd_cmd_process_status cmd r : preserves keeps_status (sd_cmd_process cmd r).
Proof. unfold sd_cmd_process. status_auto. Qed.

Lemma sd_cmd_status cmd arg a r : preserves keeps_status (sd_cmd cmd arg a r).
Proof.
  unfold sd_cmd. pres_step; [status_auto|].
  destruct a0; [apply sd_cmd_process_status | status_auto].
Qed.

Lemma sd_cmd8_status : preserves keeps_status sd_cmd8.
Proof. pose proof sd_cmd_status. unfold sd_cmd8. status_auto; auto. Qed.

Lemma sd_go_idle_state_loop_status n r :
  preserves keeps_status (sd_go_idle_state_loop n r).
Proof.
  pose proof sd_cmd_status.
  revert r; induction n; intros; cbn [sd_go_idle_state_loop]; status_auto; auto.
  all: apply keeps_card_status; apply emit_card.
Qed.

Lemma crc_enable_loop_status n : preserves keeps_status (crc_enable_loop n).
Proof.
  pose proof sd_cmd_status.
  induction n; cbn [crc_enable_loop]; status_auto; auto.
Qed.

Lemma acmd41_loop_status fuel arg r : preserves keeps_status (acmd41_loop fuel arg r).
Proof.
  pose proof sd_cmd_status.
  revert r; induction fuel; intros; cbn [acmd41_loop]; status_auto; auto.
Qed.

Lemma sd_init_medium_resolve_status st r :
  preserves keeps_status (sd_init_medium_resolve st r).
Proof.
  pose proof sd_cmd_status. unfold sd_init_medium_resolve. status_auto; auto.
Qed.

Lemma sd_init_medium_status : preserves keeps_status sd_init_medium.
Proof.
  pose proof sd_cmd_status. pose proof sd_cmd8_status.
  pose proof sd_go_idle_state_loop_status. pose proof crc_enable_loop_status.
  pose proof sd_init_medium_resolve_status.
  assert (forall a r, preserves keeps_status (sd_init_medium_poll a r)).
  { intros a r s. apply acmd41_loop_status. }
  unfold sd_init_medium, sd_go_idle_state. status_auto; auto.
  all: apply keeps_card_status; apply emit_card.
Qed.

(** When [sd_init_medium] fails, [sd_init] leaves the status bits as they
    were: NotInitialized stays set. *)
Lemma sd_init_locked_failure s :
  fst (sd_init_medium s) <> SD_BLOCK_DEVICE_ERROR_NONE ->
  m_Status (card (snd (sd_init_locked s))) = m_Status (card s) /\
  fst (sd_init_locked s) = m_Status (card s).
Proof.
  intros Hf. unfold sd_init_locked, bind.
  pose proof (sd_init_medium_status s) as Hs. unfold keeps_status in Hs.
  destruct (sd_init_medium s) as [err s1]. cbn [fst snd] in *.
  destruct err; try contradiction; cbn; auto.
Qed.

(** (a) Without the idle-state answer to the reset command within its 10
    attempts, [sd_init_medium] fails with NoDevice. *)
Lemma sd_init_medium_no_idle s :
  fst (sd_go_idle_state
         (snd (sd_spi_send_initializing_sequence (snd (sd_spi_go_low_frequency s)))))
    <> R1_IDLE_STATE ->
  fst (sd_init_medium s) = SD_BLOCK_DEVICE_ERROR_NO_DEVICE.
Proof.
  intros Hn. unfold sd_init_medium. unfold bind at 1 2 3.
  cbn [sd_spi_go_low_frequency sd_spi_send_initializing_sequence emit snd] in *.
  destruct (sd_go_idle_state _) as [idle s1]. cbn [fst] in Hn.
  apply Z.eqb_neq in Hn. rewrite Hn. reflexivity.
Qed.

(** The defect: when the poll ends with the idle bit still set and the
    last ACMD41 itself reported no error, the value [sd_init_medium]
    returns is that status, NONE; the card is tagged unknown, and the
    caller is told that initialization succeeded. *)
Lemma sd_init_medium_resolve_idle response s :
  anybit response R1_IDLE_STATE = true ->
  sd_init_medium_resolve SD_BLOCK_DEVICE_ERROR_NONE response s
  = (SD_BLOCK_DEVICE_ERROR_NONE, set_card (set_card_type CARD_UNKNOWN (card s)) s).
Proof.
  intros Hi. unfold sd_init_medium_resolve.
  assert (E : (0 =? response) = false).
  { apply Z.eqb_neq. intros <-. discriminate Hi. }
  rewrite E. reflexivity.
Qed.

(** C1, at the input where the code and the claim part.  The card
    answers every ACMD41 with R1 = 0x01 and the deadline of the poll
    elapses after the third: the poll ends with status NONE and the idle
    bit set.  [sd_init_medium] tags the card unknown and returns NONE;
    [sd_init] goes on to read the registers, clears NotInitialized and
    returns 0. *)
Theorem C1_poll_timeout_still_initializes :
  sd_init_medium_poll 0 0xFF8000 poll_timeout_at_poll
    = (SD_BLOCK_DEVICE_ERROR_NONE, 0x01,
       snd (sd_init_medium_poll 0 0xFF8000 poll_timeout_at_poll)) /\
  clock (spi poll_timeout_at_poll) = [true; true; false] /\
  clock (spi (snd (sd_init_medium_poll 0 0xFF8000 poll_timeout_at_poll))) = [] /\
  anybit 0x01 R1_IDLE_STATE = true /\
  filter (fun e => negb (is_xfer e))
         (events_since poll_timeout_state (snd (sd_init poll_timeout_state)))
    = [EvLock; EvCardDetect true; EvSpiAcquire; EvLowFrequency; EvInitSequence;
       EvCmd CMD0_GO_IDLE_STATE 0 false; EvCmd CMD8_SEND_IF_COND 0x1AA false;
       EvCmd CMD59_CRC_ON_OFF 1 false; EvCmd CMD58_READ_OCR 0 false;
       EvCmd ACMD41_SD_SEND_OP_COND 0 true; EvCmd ACMD41_SD_SEND_OP_COND 0 true;
       EvCmd ACMD41_SD_SEND_OP_COND 0 true;
       EvCmd CMD9_SEND_CSD 0 false; EvCmd CMD10_SEND_CID 0 false;
       EvCmd CMD16_SET_BLOCKLEN 512 false; EvDeselect; EvHighFrequency;
       EvUnlock; EvSpiRelease] /\
  anybit (m_Status (card poll_timeout_state)) STA_NOINIT = true /\
  fst (sd_init poll_timeout_state) = 0 /\
  anybit (m_Status (card (snd (sd_init poll_timeout_state)))) STA_NOINIT = false /\
  card_type (card (snd (sd_init poll_timeout_state))) = CARD_UNKNOWN /\
  sectors (card (snd (sd_init poll_timeout_state))) = 1984000.
Proof.
  split; [vm_compute; reflexivity|].
  split; [vm_compute; reflexivity|].
  split; [vm_compute; reflexivity|].
  split; [vm_compute; reflexivity|].
  split; [vm_compute; reflexivity|].
  split; [vm_compute; reflexivity|].
  split; [vm_compute; reflexivity|].
  split; [vm_compute; reflexivity|].
  split; vm_compute; reflexivity.
Qed.

(** ** The deadline loops never run out of fuel

    Each loop is given the length of the clock oracle as fuel; any larger
    amount gives the same run, so the branch taken at fuel 0 with time
    left is not reachable. *)

Lemma time_left_true t s :
  fst (time_left t s) = true ->
  (S (length (clock (spi (snd (time_left t s))))) = length (clock (spi s)))%nat.
Proof.
  unfold time_left. destruct (u32 t =? 0); [discriminate|].
  cbn. destruct (clock (spi s)); [discriminate|]. reflexivity.
Qed.

Lemma sd_wait_ready_loop_fuel f1 f2 t s :
  (length (clock (spi s)) <= f1)%nat -> (length (clock (spi s)) <= f2)%nat ->
  sd_wait_ready_loop f1 t s = sd_wait_ready_loop f2 t s.
Proof.
  revert f2 s. induction f1 as [|f1 IH]; intros f2 s H1 H2.
  - destruct f2; [reflexivity|]. cbn [sd_wait_ready_loop]. unfold bind.
    destruct (sd_spi_write 255 s) as [resp s1] eqn:E.
    assert (C : clock (spi s1) = clock (spi s)).
    { revert E. unfold sd_spi_write. intros [= _ <-]. reflexivity. }
    destruct (resp =? 0); [|reflexivity].
    pose proof (time_left_true t s1) as Ht.
    destruct (time_left t s1) as [[|] s2]; [|reflexivity].
    specialize (Ht eq_refl). rewrite C in Ht. lia.
  - destruct f2.
    + symmetry. cbn [sd_wait_ready_loop]. unfold bind.
      destruct (sd_spi_write 255 s) as [resp s1] eqn:E.
      assert (C : clock (spi s1) = clock (spi s)).
      { revert E. unfold sd_spi_write. intros [= _ <-]. reflexivity. }
      destruct (resp =? 0); [|reflexivity].
      pose proof (time_left_true t s1) as Ht.
      destruct (time_left t s1) as [[|] s2]; [|reflexivity].
      specialize (Ht eq_refl). rewrite C in Ht. lia.
    + cbn [sd_wait_ready_loop]. unfold bind.
      destruct (sd_spi_write 255 s) as [resp s1] eqn:E.
      assert (C : clock (spi s1) = clock (spi s)).
      { revert E. unfold sd_spi_write. intros [= _ <-]. reflexivity. }
      destruct (resp =? 0); [|reflexivity].
      pose proof (time_left_true t s1) as Ht.
      destruct (time_left t s1) as [[|] s2]; [|reflexivity].
      specialize (Ht eq_refl). rewrite C in Ht. cbn [snd] in Ht.
      apply IH; lia.
Qed.

Lemma sd_wait_token_loop_fuel f1 f2 token s :
  (length (clock (spi s)) <= f1)%nat -> (length (clock (spi s)) <= f2)%nat ->
  sd_wait_token_loop f1 token s = sd_wait_token_loop f2 token s.
Proof.
  revert f2 s. induction f1 as [|f1 IH]; intros f2 s H1 H2.
  - destruct f2; [reflexivity|]. cbn [sd_wait_token_loop]. unfold bind.
    destruct (sd_spi_write SPI_FILL_CHAR s) as [resp s1] eqn:E.
    assert (C : clock (spi s1) = clock (spi s)).
    { revert E. unfold sd_spi_write. intros [= _ <-]. reflexivity. }
    destruct (token =? resp); [reflexivity|].
    pose proof (time_left_true SD_COMMAND_TIMEOUT s1) as Ht.
    destruct (time_left SD_COMMAND_TIMEOUT s1) as [[|] s2]; [|reflexivity].
    specialize (Ht eq_refl). rewrite C in Ht. lia.
  - destruct f2.
    + symmetry. cbn [sd_wait_token_loop]. unfold bind.
      destruct (sd_spi_write SPI_FILL_CHAR s) as [resp s1] eqn:E.
      assert (C : clock (spi s1) = clock (spi s)).
      { revert E. unfold sd_spi_write. intros [= _ <-]. reflexivity. }
      destruct (token =? resp); [reflexivity|].
      pose proof (time_left_true SD_COMMAND_TIMEOUT s1) as Ht.
      destruct (time_left SD_COMMAND_TIMEOUT s1) as [[|] s2]; [|reflexivity].
      specialize (Ht eq_refl). rewrite C in Ht. lia.
    + cbn [sd_wait_token_loop]. unfold bind.
      destruct (sd_spi_write SPI_FILL_CHAR s) as [resp s1] eqn:E.
      assert (C : clock (spi s1) = clock (spi s)).
      { revert E. unfold sd_spi_write. intros [= _ <-]. reflexivity. }
      destruct (token =? resp); [reflexivity|].
      pose proof (time_left_true SD_COMMAND_TIMEOUT s1) as Ht.
      destruct (time_left SD_COMMAND_TIMEOUT s1) as [[|] s2]; [|reflexivity].
      specialize (Ht eq_refl). rewrite C in Ht. cbn [snd] in Ht.
      apply IH; lia.
Qed.

Lemma acmd41_loop_fuel f1 f2 arg r s :
  (length (clock (spi s)) <= f1)%nat -> (length (clock (spi s)) <= f2)%nat ->
  acmd41_loop f1 arg r s = acmd41_loop f2 arg r s.
Proof.
  revert f2 r s. induction f1 as [|f1 IH]; intros f2 r s H1 H2.
  - destruct f2; [reflexivity|]. cbn [acmd41_loop]. unfold bind.
    pose proof (sd_cmd_io [ACMD41_SD_SEND_OP_COND] _ arg true r
                  (or_introl eq_refl) s) as (_ & _ & _ & C & _).
    destruct (sd_cmd ACMD41_SD_SEND_OP_COND arg true r s) as [[st r'] s1].
    cbn [snd] in C.
    destruct (anybit r' R1_IDLE_STATE); [|reflexivity].
    pose proof (time_left_true SD_COMMAND_TIMEOUT s1) as Ht.
    destruct (time_left SD_COMMAND_TIMEOUT s1) as [[|] s2]; [|reflexivity].
    specialize (Ht eq_refl). lia.
  - destruct f2.
    + symmetry. cbn [acmd41_loop]. unfold bind.
      pose proof (sd_cmd_io [ACMD41_SD_SEND_OP_COND] _ arg true r
                    (or_introl eq_refl) s) as (_ & _ & _ & C & _).
      destruct (sd_cmd ACMD41_SD_SEND_OP_COND arg true r s) as [[st r'] s1].
      cbn [snd] in C.
      destruct (anybit r' R1_IDLE_STATE); [|reflexivity].
      pose proof (time_left_true SD_COMMAND_TIMEOUT s1) as Ht.
      destruct (time_left SD_COMMAND_TIMEOUT s1) as [[|] s2]; [|reflexivity].
      specialize (Ht eq_refl). lia.
    + cbn [acmd41_loop]. unfold bind.
      pose proof (sd_cmd_io [ACMD41_SD_SEND_OP_COND] _ arg true r
                    (or_introl eq_refl) s) as (_ & _ & _ & C & _).
      destruct (sd_cmd ACMD41_SD_SEND_OP_COND arg true r s) as [[st r'] s1].
      cbn [snd] in C.
      destruct (anybit r' R1_IDLE_STATE); [|reflexivity].
      pose proof (time_left_true SD_COMMAND_TIMEOUT s1) as Ht.
      destruct (time_left SD_COMMAND_TIMEOUT s1) as [[|] s2]; [|reflexivity].
      specialize (Ht eq_refl). cbn [snd] in Ht.
      apply IH; lia.
Qed.

(** ** C5: CRC failure in a multi-block read *)

Section XferOnly.
Variable P : event -> Prop.
Hypothesis HX : forall tx rx, P (EvXfer tx rx).

Lemma sd_spi_write_x v : preserves (io P) (sd_spi_write v).
Proof. apply sd_spi_write_fill. intros. apply HX. Qed.

Ltac x_auto :=
  repeat first
    [ pres_step
    | apply sd_spi_write_x
    | apply time_left_any
    | apply preserves_ret; apply io_pre
    | solve [ auto ] ].

Lemma send_bytes_x p : preserves (io P) (send_bytes p).
Proof. induction p; cbn [send_bytes]; x_auto. Qed.

Lemma sd_cmd_spi_poll_x n r : preserves (io P) (sd_cmd_spi_poll n r).
Proof. revert r; induction n; intros r; cbn [sd_cmd_spi_poll]; x_auto. Qed.

Lemma get_crc_on_x : preserves (io P) get_crc_on.
Proof. intros s. apply pre_refl. Qed.

Lemma sd_cmd_spi_x cmd arg : preserves (io P) (sd_cmd_spi cmd arg).
Proof.
  pose proof send_bytes_x. pose proof sd_cmd_spi_poll_x. pose proof get_crc_on_x.
  unfold sd_cmd_spi. x_auto; auto.
Qed.

Lemma sd_wait_ready_x t : preserves (io P) (sd_wait_ready t).
Proof.
  assert (H : forall fuel, preserves (io P) (sd_wait_ready_loop fuel t)).
  { induction fuel; cbn [sd_wait_ready_loop]; x_auto. }
  intros s. unfold sd_wait_ready. specialize (H (length (clock (spi s))) s).
  destruct (sd_wait_ready_loop _ _ _). exact H.
Qed.

Lemma sd_wait_token_x t : preserves (io P) (sd_wait_token t).
Proof.
  assert (H : forall fuel, preserves (io P) (sd_wait_token_loop fuel t)).
  { induction fuel; cbn [sd_wait_token_loop]; x_auto. }
  intros s. unfold sd_wait_token. apply H.
Qed.

Lemma sd_cmd_retry_x n cmd arg : preserves (io P) (sd_cmd_retry n cmd arg false).
Proof.
  pose proof sd_cmd_spi_x.
  induction n; cbn [sd_cmd_retry]; x_auto; auto.
Qed.

(** For the commands reads issue, [sd_cmd_process] only exchanges bytes. *)
Lemma sd_cmd_process_x cmd r :
  cmd <> CMD8_SEND_IF_COND -> preserves (io P) (sd_cmd_process cmd r).
Proof.
  intros H8. apply Z.eqb_neq in H8.
  pose proof sd_wait_ready_x.
  unfold sd_cmd_process, read_r3_r7. rewrite H8. unfold when. x_auto; auto.
Qed.

Lemma sd_cmd_x cmd arg r :
  cmd <> CMD8_SEND_IF_COND -> P (EvCmd cmd (u32 arg) false) ->
  preserves (io P) (sd_cmd cmd arg false r).
Proof.
  intros H8 HC.
  pose proof sd_wait_ready_x. pose proof sd_cmd_retry_x.
  pose proof (fun r => sd_cmd_process_x cmd r H8).
  unfold sd_cmd, sd_cmd_send.
  repeat first
    [ pres_step
    | apply sd_spi_write_x
    | apply preserves_ret; apply io_pre
    | solve [ auto ]
    | (intros s0; unfold io, emit; cbn; repeat split; auto;
       eexists; split; [reflexivity | repeat constructor; exact HC]) ].
Qed.
End XferOnly.

Lemma received_skip tok r :
  Forall xfer_ev tok -> received (tok ++ r) = received r.
Proof.
  induction 1 as [|e tok He _ IH]; [reflexivity|].
  destruct e; try contradiction. cbn. exact IH.
Qed.

Lemma received_none evs :
  Forall (fun e => match e with EvDmaRx _ => False | _ => True end) evs ->
  received evs = [].
Proof.
  induction 1 as [|e evs He _ IH]; [reflexivity|].
  destruct e; try contradiction; cbn; exact IH.
Qed.

Lemma take_rx_length n l : length (fst (take_rx n l)) = n.
Proof.
  revert l. induction n as [|n IH]; intros l; [reflexivity|].
  cbn [take_rx]. specialize (IH (tl l)). destruct (take_rx n (tl l)).
  cbn in *. rewrite IH. reflexivity.
Qed.

(** The DMA receive: the data, their length, and what the wait will say. *)
Lemma sd_spi_transfer_start_rx len s data s1 :
  sd_spi_transfer_start None len s = (data, s1) ->
  trace (spi s1) = trace (spi s) ++ [EvDmaRx data] /\
  crc_on s1 = crc_on s /\
  (length data <= len)%nat /\
  (dma_pending (spi s1) = true -> length data = len).
Proof.
  unfold sd_spi_transfer_start.
  pose proof (take_rx_length (Nat.min (hd len (dma (spi s))) len) (rx (spi s))) as Hl.
  destruct (take_rx _ _) as [d rest]. cbn [fst] in Hl.
  intros [= <- <-]. cbn. repeat split.
  - rewrite Hl. apply Nat.le_min_r.
  - intros Hp. apply Nat.leb_le in Hp. rewrite Hl. apply Nat.min_r. exact Hp.
Qed.

Lemma read_crc16_run s :
  exists hi lo t1 t2,
    fst (read_crc16 s) = Z.lor (u16 (Z.shiftl hi 8)) lo /\
    trace (spi (snd (read_crc16 s))) = trace (spi s) ++ [EvXfer t1 hi; EvXfer t2 lo] /\
    crc_on (snd (read_crc16 s)) = crc_on s.
Proof.
  unfold read_crc16, bind, sd_spi_write, ret. cbn.
  do 4 eexists. split; [reflexivity|]. split; [|reflexivity].
  rewrite <- app_assoc. reflexivity.
Qed.

(** Blocks of a buffer under [write_at]. *)
Lemma write_at_length buffer off data :
  (off + length data <= length buffer)%nat ->
  length (write_at buffer off data) = length buffer.
Proof.
  intros H. unfold write_at. rewrite !length_app, length_firstn, length_skipn. lia.
Qed.

Lemma block_at_write_at_same buffer off data :
  length data = Z.to_nat _block_size -> (off <= length buffer)%nat ->
  block_at (write_at buffer off data) off = data.
Proof.
  intros Hd Ho. unfold block_at, write_at.
  rewrite skipn_app, length_firstn, Nat.min_l by exact Ho.
  rewrite skipn_all2 by (rewrite length_firstn; lia).
  rewrite Nat.sub_diag. cbn [skipn app].
  rewrite firstn_app, <- Hd, firstn_all, Nat.sub_diag. cbn.
  apply app_nil_r.
Qed.

Lemma block_at_write_at_below buffer off data p :
  (p + Z.to_nat _block_size <= off)%nat -> (off <= length buffer)%nat ->
  block_at (write_at buffer off data) p = block_at buffer p.
Proof.
  intros Hp Ho. unfold block_at, write_at.
  rewrite skipn_app, length_firstn, Nat.min_l by exact Ho.
  replace (p - off)%nat with 0%nat by lia. cbn [skipn].
  rewrite firstn_app, length_skipn, length_firstn, Nat.min_l by exact Ho.
  replace (Z.to_nat _block_size - (off - p))%nat with 0%nat by lia.
  cbn [firstn]. rewrite app_nil_r.
  rewrite skipn_firstn_comm. rewrite firstn_firstn.
  rewrite Nat.min_l by lia. reflexivity.
Qed.

Lemma last_cons_nonempty {A} (x : A) l d : l <> [] -> last (x :: l) d = last l d.
Proof. destruct l; [contradiction | reflexivity]. Qed.

(** The receive loop: what it leaves in the buffer and in [prev], and how
    its status relates to the blocks it received. *)
Lemma read_blocks_loop_spec n :
  forall buffer off prev s st buf' prev' s',
    (off + 512 * n <= length buffer)%nat ->
    read_blocks_loop n buffer off prev s = (st, buf', prev', s') ->
    crc_on s' = crc_on s /\
    trace (spi s') = trace (spi s) ++ events_since s s' /\
    Forall (ev_ok []) (events_since s s') /\
    length buf' = length buffer /\
    (forall p, (p + 512 <= off)%nat -> block_at buf' p = block_at buffer p) /\
    (length (received (events_since s s')) <= n)%nat /\
    (st = SD_BLOCK_DEVICE_ERROR_NONE -> length (received (events_since s s')) = n) /\
    (st = SD_BLOCK_DEVICE_ERROR_NO_RESPONSE ->
     (length (received (events_since s s')) < n)%nat) /\
    (st = SD_BLOCK_DEVICE_ERROR_NONE \/ st = SD_BLOCK_DEVICE_ERROR_CRC \/
     st = SD_BLOCK_DEVICE_ERROR_NO_RESPONSE) /\
    (forall j, (j < length (received (events_since s s')))%nat ->
               block_at buf' (off + 512 * j)
               = fst (nth j (received (events_since s s')) no_block)) /\
    prev' = match received (events_since s s') with
            | [] => prev
            | _ => Some ((off + 512 * (length (received (events_since s s')) - 1))%nat,
                         snd (last (received (events_since s s')) no_block))
            end /\
    (forall poff pcrc,
        prev = Some (poff, pcrc) -> (poff + 512 <= off)%nat ->
        received (events_since s s') <> [] ->
        chk_crc16 (crc_on s) (block_at buffer poff) pcrc = false ->
        st = SD_BLOCK_DEVICE_ERROR_CRC) /\
    (forall j, (S j < length (received (events_since s s')))%nat ->
               bad_block (crc_on s) (nth j (received (events_since s s')) no_block) ->
               st = SD_BLOCK_DEVICE_ERROR_CRC) /\
    (forall poff pcrc,
        prev = Some (poff, pcrc) -> (poff + 512 <= off)%nat ->
        chk_crc16 (crc_on s) (block_at buffer poff) pcrc = false ->
        (length (received (events_since s s')) <= 1)%nat) /\
    (forall j, (j < length (received (events_since s s')))%nat ->
               bad_block (crc_on s) (nth j (received (events_since s s')) no_block) ->
               (length (received (events_since s s')) <= j + 2)%nat) /\
    ((forall poff pcrc, prev = Some (poff, pcrc) -> (poff + 512 <= off)%nat) ->
     st = SD_BLOCK_DEVICE_ERROR_CRC ->
     (length (received (events_since s s')) = 1%nat /\
      exists poff pcrc,
        prev = Some (poff, pcrc) /\
        chk_crc16 (crc_on s) (block_at buffer poff) pcrc = false) \/
     (exists j,
        S (S j) = length (received (events_since s s')) /\
        bad_block (crc_on s) (nth j (received (events_since s s')) no_block))).
Proof.
  induction n as [|m IH]; intros buffer off prev s st buf' prev' s' Hroom Hrun.
  - cbn in Hrun. injection Hrun as <- <- <- <-.
    assert (E : events_since s s = []) by (unfold events_since; apply skipn_all).
    rewrite E. cbn. rewrite app_nil_r.
    repeat split; auto; try lia; intros; try lia; try congruence; try discriminate.
  - cbn [read_blocks_loop] in Hrun. unfold bind at 1 in Hrun.
    pose proof (sd_wait_token_x xfer_ev (fun _ _ => I) SPI_START_BLOCK s) as Htok.
    destruct (sd_wait_token SPI_START_BLOCK s) as [tok s1]. cbn [snd] in Htok.
    destruct Htok as (C1 & _ & _ & _ & e1 & T1 & F1).
    destruct tok; cbn [negb] in Hrun.
    2:{ (* no start token *)
      injection Hrun as <- <- <- <-.
      rewrite (events_since_app s s1 e1 T1).
      assert (R : received e1 = []).
      { rewrite <- (app_nil_r e1). rewrite received_skip by exact F1. reflexivity. }
      rewrite R. cbn [length].
      repeat split; auto; try lia; intros; try lia; try congruence; try discriminate.
      eapply Forall_impl; [|exact F1]. intros e; destruct e; cbn; auto. }
    unfold bind at 1 in Hrun.
    destruct (sd_spi_transfer_start None (Z.to_nat _block_size) s1) as [data s2] eqn:E2.
    destruct (sd_spi_transfer_start_rx _ _ _ _ E2) as (T2 & C2 & L2 & P2).
    change (Z.to_nat _block_size) with 512%nat in *.
    unfold bind at 1 in Hrun. unfold get_crc_on at 1 in Hrun.
    unfold bind at 1 in Hrun. unfold sd_spi_transfer_wait_complete at 1 in Hrun.
    set (s3 := set_spi (log (EvDmaWait (dma_pending (spi s2))) (spi s2)) s2) in *.
    assert (T3 : trace (spi s3) = trace (spi s2) ++ [EvDmaWait (dma_pending (spi s2))])
      by reflexivity.
    assert (C3 : crc_on s3 = crc_on s2) by reflexivity.
    clearbody s3.
    assert (Hlen1 : length (write_at buffer off data) = length buffer)
      by (apply write_at_length; lia).
    assert (Hlow1 : forall p, (p + 512 <= off)%nat ->
                    block_at (write_at buffer off data) p = block_at buffer p).
    { intros p Hp. apply block_at_write_at_below; [exact Hp | lia]. }
    destruct (dma_pending (spi s2)) eqn:Hpend; cbn [negb] in Hrun.
    2:{ (* the transfer did not complete *)
      injection Hrun as <- <- <- <-.
      rewrite (events_since_app s s3 (e1 ++ [EvDmaRx data; EvDmaWait false]))
        by (rewrite T3, T2, T1, <- !app_assoc; reflexivity).
      assert (R : received (e1 ++ [EvDmaRx data; EvDmaWait false]) = []).
      { rewrite received_skip by exact F1. reflexivity. }
      rewrite R. cbn [length].
      repeat split; auto; try lia; intros; try lia; try congruence; try discriminate.
      - rewrite T3, T2, T1, <- !app_assoc. reflexivity.
      - apply Forall_app. split.
        + eapply Forall_impl; [|exact F1]. intros e; destruct e; cbn; auto.
        + repeat constructor. }
    specialize (P2 eq_refl).
    assert (Hsame : block_at (write_at buffer off data) off = data)
      by (apply block_at_write_at_same; [exact P2 | lia]).
    unfold bind at 1 in Hrun.
    destruct (read_crc16_run s3) as (hi & lo & t1 & t2 & Hcrc & T4 & C4).
    destruct (read_crc16 s3) as [crc s4]. cbn [fst snd] in Hcrc, T4, C4.
    set (E1 := e1 ++ [EvDmaRx data; EvDmaWait true; EvXfer t1 hi; EvXfer t2 lo]).
    assert (T14 : trace (spi s4) = trace (spi s) ++ E1).
    { subst E1. rewrite T4, T3, T2, T1, <- !app_assoc. reflexivity. }
    assert (F14 : Forall (ev_ok []) E1).
    { subst E1. apply Forall_app. split.
      - eapply Forall_impl; [|exact F1]. intros e; destruct e; cbn; auto.
      - repeat constructor. }
    assert (R1 : forall r, received (E1 ++ r) = (data, crc) :: received r).
    { intros r. subst E1. rewrite <- app_assoc, received_skip by exact F1.
      cbn. rewrite Hcrc. reflexivity. }
    assert (Con : crc_on s2 = crc_on s) by congruence.
    rewrite Con in Hrun.
    set (status := match prev with
                   | Some (poff, pcrc) =>
                       if negb (chk_crc16 (crc_on s)
                                  (block_at (write_at buffer off data) poff) pcrc)
                       then SD_BLOCK_DEVICE_ERROR_CRC
                       else SD_BLOCK_DEVICE_ERROR_NONE
                   | None => SD_BLOCK_DEVICE_ERROR_NONE
                   end) in *.
    destruct (is_none status) eqn:Hst.
    + (* the previous block passed: next round *)
      assert (Hprev : forall poff pcrc,
                 prev = Some (poff, pcrc) -> (poff + 512 <= off)%nat ->
                 chk_crc16 (crc_on s) (block_at buffer poff) pcrc = true).
      { intros poff pcrc -> Hp. subst status. rewrite (Hlow1 _ Hp) in Hst.
        destruct (chk_crc16 _ _ _); [reflexivity | discriminate]. }
      specialize (IH (write_at buffer off data) (off + 512)%nat (Some (off, crc))
                     s4 st buf' prev' s').
      destruct IH as (IC & IT & IF & IL & ILow & ILe & INone & INo & ISt & IBlk
                      & IPrev & IChk & IBad & IOne & ITwo & IWhy);
        [lia | exact Hrun |].
      set (ev' := events_since s4 s') in *.
      assert (Hev : events_since s s' = E1 ++ ev').
      { apply events_since_app. rewrite IT, T14, <- app_assoc. reflexivity. }
      rewrite Hev, R1. cbn [length].
      assert (C14 : crc_on s4 = crc_on s) by congruence.
      rewrite C14 in *.
      split; [congruence|].
      split; [rewrite IT, T14, <- app_assoc; reflexivity|].
      split; [apply Forall_app; auto|].
      split; [congruence|].
      split. { intros p Hp. rewrite ILow by lia. apply Hlow1. exact Hp. }
      split; [lia|].
      split. { intros H0. rewrite (INone H0). reflexivity. }
      split. { intros H0. specialize (INo H0). lia. }
      split; [exact ISt|].
      split.
      { intros [|j] Hj.
        - cbn [nth fst]. rewrite Nat.mul_0_r, Nat.add_0_r.
          rewrite ILow by lia. exact Hsame.
        - cbn [nth]. rewrite <- IBlk by lia. f_equal. lia. }
      split.
      { rewrite IPrev. destruct (received ev') as [|b bs] eqn:Eb.
        - cbn. f_equal. f_equal. lia.
        - rewrite (last_cons_nonempty (data, crc) (b :: bs)) by discriminate.
          f_equal. f_equal. cbn [length]. lia. }
      split.
      { intros poff pcrc Hp Hle _ Hbad. rewrite (Hprev _ _ Hp Hle) in Hbad.
        discriminate. }
      split.
      { intros [|j] Hj Hbad.
        * cbn [nth] in Hbad. unfold bad_block in Hbad. cbn [fst snd] in Hbad.
          apply (IChk off crc eq_refl); [lia | | rewrite Hsame; exact Hbad].
          intros Hnil. rewrite Hnil in Hj. cbn in Hj. lia.
        * cbn [nth] in Hbad. apply (IBad j); [lia | exact Hbad]. }
      split.
      { intros poff pcrc Hp Hle Hbad. rewrite (Hprev _ _ Hp Hle) in Hbad.
        discriminate. }
      split.
      { intros [|j] Hj Hbad.
        * cbn [nth] in Hbad. unfold bad_block in Hbad. cbn [fst snd] in Hbad.
          assert (Hone : (length (received ev') <= 1)%nat).
          { apply (IOne off crc eq_refl); [lia | rewrite Hsame; exact Hbad]. }
          lia.
        * cbn [nth] in Hbad. assert (Hj' : (j < length (received ev'))%nat) by lia.
          specialize (ITwo j Hj' Hbad). lia. }
      intros _ Hcrc'.
      assert (Hg' : forall poff pcrc,
                 Some (off, crc) = Some (poff, pcrc) -> (poff + 512 <= off + 512)%nat).
      { intros poff pcrc Hp. injection Hp as <- <-. lia. }
      destruct (IWhy Hg' Hcrc') as [[L1 (poff & pcrc & Hp & Hchk)] | (j & Hj & Hbad)].
      * injection Hp as <- <-. right. exists 0%nat. split; [lia|].
        cbn [nth]. unfold bad_block. cbn [fst snd]. rewrite <- Hsame. exact Hchk.
      * right. exists (S j). split; [lia|]. cbn [nth]. exact Hbad.
    + (* the previous block failed its check *)
      injection Hrun as <- <- <- <-.
      assert (Hs : status = SD_BLOCK_DEVICE_ERROR_CRC).
      { subst status. destruct prev as [[poff pcrc]|]; [|discriminate].
        destruct (negb _); [reflexivity | discriminate]. }
      rewrite (events_since_app s s4 E1 T14).
      pose proof (R1 []) as RE. rewrite app_nil_r in RE. cbn [received] in RE.
      rewrite RE. cbn [length].
      split; [congruence|].
      split; [exact T14|].
      split; [exact F14|].
      split; [exact Hlen1|].
      split; [exact Hlow1|].
      split; [lia|].
      split; [intros H0; rewrite Hs in H0; discriminate|].
      split; [intros H0; rewrite Hs in H0; discriminate|].
      split; [auto|].
      split.
      { intros [|j] Hj; [|lia]. cbn [nth fst].
        rewrite Nat.mul_0_r, Nat.add_0_r. exact Hsame. }
      split. { cbn. f_equal. f_equal. lia. }
      split; [intros; exact Hs|].
      split. { intros j Hj. lia. }
      split. { intros; lia. }
      split. { intros j Hj _. lia. }
      intros Hg _. left. split; [reflexivity|].
      subst status. destruct prev as [[poff pcrc]|]; [|discriminate].
      exists poff, pcrc. split; [reflexivity|].
      rewrite <- (Hlow1 poff (Hg _ _ eq_refl)).
      destruct (chk_crc16 _ _ _); [discriminate | reflexivity].
Qed.

Lemma last_is_nth {A} (l : list A) d : last l d = nth (length l - 1) l d.
Proof.
  induction l as [|x l IH]; [reflexivity|].
  destruct l as [|y l]; [reflexivity|].
  change (last (x :: y :: l) d) with (last (y :: l) d). rewrite IH.
  cbn [length]. rewrite !Nat.sub_succ, !Nat.sub_0_r. reflexivity.
Qed.

(** A plain command other than CMD8 logs itself and then only exchanges
    bytes. *)
Lemma sd_cmd_shape cmd arg r s :
  cmd <> CMD8_SEND_IF_COND ->
  crc_on (snd (sd_cmd cmd arg false r s)) = crc_on s /\
  exists tail,
    trace (spi (snd (sd_cmd cmd arg false r s)))
      = trace (spi s) ++ EvCmd cmd (u32 arg) false :: tail /\
    Forall xfer_ev tail.
Proof.
  intros H8. rewrite sd_cmd_eq. cbn [emit snd].
  set (s0 := set_spi (log (EvCmd cmd (u32 arg) false) (spi s)) s).
  assert (T0 : trace (spi s0) = trace (spi s) ++ [EvCmd cmd (u32 arg) false])
    by reflexivity.
  assert (C0 : crc_on s0 = crc_on s) by reflexivity.
  clearbody s0.
  set (READY := if negb (cmd =? CMD12_STOP_TRANSMISSION)
                   && negb (cmd =? CMD0_GO_IDLE_STATE)
                then sd_wait_ready SD_COMMAND_TIMEOUT else ret true).
  assert (IR : io xfer_ev s0 (snd (READY s0))).
  { subst READY. destruct (_ && _);
      [apply sd_wait_ready_x; intros; exact I | apply pre_refl]. }
  destruct (READY s0) as [ready s1]. cbn [snd] in IR.
  destruct IR as (C1 & _ & _ & _ & e1 & T1 & F1).
  destruct ready.
  - pose proof (sd_cmd_retry_x xfer_ev (fun _ _ => I) SD_COMMAND_RETRIES cmd
                  (u32 arg) s1) as IR2.
    destruct (sd_cmd_retry SD_COMMAND_RETRIES cmd (u32 arg) false s1) as [resp s2].
    cbn [snd] in IR2. destruct IR2 as (C2 & _ & _ & _ & e2 & T2 & F2).
    destruct (sd_cmd_process_x xfer_ev (fun _ _ => I) cmd resp H8 s2)
      as (C3 & _ & _ & _ & e3 & T3 & F3).
    split; [congruence|].
    exists (e1 ++ e2 ++ e3). split.
    + rewrite T3, T2, T1, T0. rewrite <- !app_assoc. reflexivity.
    + repeat (apply Forall_app; split); assumption.
  - cbn [snd]. split; [congruence|].
    exists e1. split; [|exact F1].
    rewrite T1, T0, <- app_assoc. reflexivity.
Qed.

(** [in_sd_read_blocks] for a request of several blocks that passes the
    checks, step by step. *)
Lemma in_sd_read_blocks_multi buffer sector count s :
  anybit (m_Status (card s)) (Z.lor STA_NOINIT STA_NODISK) = false ->
  (u64 (sector + count) >? sectors (card s)) = false ->
  1 < count ->
  in_sd_read_blocks buffer sector count s
  = let (p0, s1) := sd_cmd CMD18_READ_MULTIPLE_BLOCK
                      (block_addr (card_type (card s)) sector) false 0 s in
    if negb (is_none (fst p0)) then (fst p0, buffer, s1)
    else
      let (r1, s2) := read_blocks_loop (Z.to_nat count) buffer 0 None s1 in
      let (_, s3) := sd_cmd CMD12_STOP_TRANSMISSION 0 false 0 s2 in
      if is_none (fst (fst r1)) then
        if negb (chk_crc16 (crc_on s3)
                   (fst (prev_block (spi s3) (snd (fst r1)) (snd r1)))
                   (snd (prev_block (spi s3) (snd (fst r1)) (snd r1))))
        then (SD_BLOCK_DEVICE_ERROR_CRC, snd (fst r1), s3)
        else (fst (fst r1), snd (fst r1), s3)
      else (fst (fst r1), snd (fst r1), s3).
Proof.
  intros Hst Hb Hc. unfold in_sd_read_blocks. unfold bind at 1. unfold get_card at 1.
  rewrite Hst, Hb.
  assert (E1 : (count =? 1) = false) by (apply Z.eqb_neq; lia).
  assert (E2 : (count >? 1) = true) by (apply Z.gtb_lt; lia).
  rewrite E1, E2. unfold bind at 1.
  destruct (sd_cmd CMD18_READ_MULTIPLE_BLOCK _ false 0 s) as [[st0 z0] s1].
  cbn [fst]. destruct (negb (is_none st0)); [reflexivity|].
  unfold bind at 1.
  destruct (read_blocks_loop (Z.to_nat count) buffer 0 None s1)
    as [[[st1 buf1] prev1] s2].
  cbn [fst snd]. unfold when. unfold bind at 1 2.
  destruct (sd_cmd CMD12_STOP_TRANSMISSION 0 false 0 s2) as [p3 s3].
  cbn [ret snd]. destruct (is_none st1); [|reflexivity].
  unfold bind, get_crc_on. destruct (prev_block (spi s3) buf1 prev1) as [blk crc].
  cbn [fst snd]. destruct (negb _); reflexivity.
Qed.

Lemma if3_eq {A B} (f : A -> B) (c1 c2 : bool) (x y z : A) (v : B) :
  f x = v -> f y = v -> f z = v ->
  f (if c1 then if c2 then x else y else z) = v.
Proof. intros; destruct c1; [destruct c2|]; assumption. Qed.

(** C5 (as amended).  In every multi-block read (count > 1) that passes
    the checks and whose read command is accepted: exactly one
    stop-transmission command is issued, after the last transfer; the
    blocks received completely are in the destination buffer; and when
    the CRC-16 of some received block does not match, with [k] the first
    such block: at most one block is received after block [k]; the
    operation returns Crc if [k] is the last block of the request or if
    block [k + 1] was received completely as well, and NoResponse
    otherwise (the start token of block [k + 1] did not come, or its
    transfer did not complete: that later failure is what is reported). *)
Theorem C5_multi_block_read_crc_failure :
  forall (buffer : list Z) (sector count : Z) (s : state),
    1 < count ->
    (512 * Z.to_nat count <= length buffer)%nat ->
    anybit (m_Status (card s)) (Z.lor STA_NOINIT STA_NODISK) = false ->
    (u64 (sector + count) >? sectors (card s)) = false ->
    fst (fst (sd_cmd CMD18_READ_MULTIPLE_BLOCK
                (block_addr (card_type (card s)) sector) false 0 s))
      = SD_BLOCK_DEVICE_ERROR_NONE ->
    multi_read_outcome buffer sector count s.
Proof.
  intros buffer sector count s Hc Hroom Hst Hb Hcmd.
  unfold multi_read_outcome. cbv zeta.
  rewrite (in_sd_read_blocks_multi buffer sector count s Hst Hb Hc).
  destruct (sd_cmd_shape CMD18_READ_MULTIPLE_BLOCK
              (block_addr (card_type (card s)) sector) 0 s ltac:(discriminate))
    as (C1 & t1 & T1 & F1).
  destruct (sd_cmd CMD18_READ_MULTIPLE_BLOCK _ false 0 s) as [p0 s1].
  cbn [fst snd] in *. rewrite Hcmd. cbn [is_none negb].
  destruct (read_blocks_loop (Z.to_nat count) buffer 0 None s1)
    as [[[st1 buf1] prev1] s2] eqn:Hloop.
  assert (Hroom' : (0 + 512 * Z.to_nat count <= length buffer)%nat)
    by (rewrite Nat.add_0_l; exact Hroom).
  destruct (read_blocks_loop_spec (Z.to_nat count) buffer 0%nat None s1
              st1 buf1 prev1 s2 Hroom' Hloop)
    as (C2 & T2 & F2 & L2 & _ & Le & HNone & HNo & HSt & HBlk0 & HPrev0 & _ & HBad
        & _ & HTwo & HWhy0).
  assert (HWhy : st1 = SD_BLOCK_DEVICE_ERROR_CRC ->
                 exists j,
                   S (S j) = length (received (events_since s1 s2)) /\
                   bad_block (crc_on s1) (nth j (received (events_since s1 s2)) no_block)).
  { intros Hcrc.
    assert (Hg : forall (poff : nat) (pcrc : Z),
               @None (nat * Z) = Some (poff, pcrc) -> (poff + 512 <= 0)%nat)
      by (intros poff pcrc Hp; discriminate Hp).
    destruct (HWhy0 Hg Hcrc) as [[_ (poff & pcrc & Hp & _)] | Hj];
      [discriminate Hp | exact Hj]. }
  clear HWhy0.
  assert (HBlk : forall j, (j < length (received (events_since s1 s2)))%nat ->
                 block_at buf1 (512 * j)
                 = fst (nth j (received (events_since s1 s2)) no_block)).
  { intros j Hj. specialize (HBlk0 j Hj). rewrite Nat.add_0_l in HBlk0. exact HBlk0. }
  assert (HPrev : prev1 = match received (events_since s1 s2) with
                          | [] => None
                          | _ => Some ((512 * (length (received (events_since s1 s2)) - 1))%nat,
                                       snd (last (received (events_since s1 s2)) no_block))
                          end).
  { rewrite HPrev0. destruct (received (events_since s1 s2)); [reflexivity|].
    rewrite Nat.add_0_l. reflexivity. }
  clear HBlk0 HPrev0.
  destruct (sd_cmd_shape CMD12_STOP_TRANSMISSION 0 0 s2 ltac:(discriminate))
    as (C3 & t3 & T3 & F3).
  destruct (sd_cmd CMD12_STOP_TRANSMISSION 0 false 0 s2) as [p3 s3].
  cbn [fst snd] in *.
  assert (Hn : (2 <= Z.to_nat count)%nat) by lia.
  set (n := Z.to_nat count) in *.
  clearbody n.
  assert (Con : crc_on s3 = crc_on s) by congruence.
  assert (Con1 : crc_on s1 = crc_on s) by congruence.
  rewrite Con. rewrite Con1 in HBad, HTwo, HWhy.
  assert (Main : forall X : sd_error * list Z * state,
    snd X = s3 -> snd (fst X) = buf1 ->
    (forall k, (k < length (received (events_since s1 s2)))%nat ->
               bad_block (crc_on s) (nth k (received (events_since s1 s2)) no_block) ->
               (forall j, (j < k)%nat ->
                          ~ bad_block (crc_on s)
                              (nth j (received (events_since s1 s2)) no_block)) ->
               (length (received (events_since s1 s2)) <= k + 2)%nat /\
               (S k = n \/ (S k < length (received (events_since s1 s2)))%nat ->
                fst (fst X) = SD_BLOCK_DEVICE_ERROR_CRC) /\
               ((S k < n)%nat /\ S k = length (received (events_since s1 s2)) ->
                fst (fst X) = SD_BLOCK_DEVICE_ERROR_NO_RESPONSE)) ->
    exists E_cmd E_loop E_stop tail,
      events_since s (snd X) = E_cmd ++ E_loop ++ E_stop /\
      Forall (cmd_ev CMD18_READ_MULTIPLE_BLOCK) E_cmd /\
      Forall (ev_ok []) E_loop /\
      E_stop = EvCmd CMD12_STOP_TRANSMISSION 0 false :: tail /\
      Forall xfer_ev tail /\
      (length (received E_loop) <= n)%nat /\
      (forall j, (j < length (received E_loop))%nat ->
                 block_at (snd (fst X)) (512 * j)
                 = fst (nth j (received E_loop) no_block)) /\
      (forall k, (k < length (received E_loop))%nat ->
                 bad_block (crc_on s) (nth k (received E_loop) no_block) ->
                 (forall j, (j < k)%nat ->
                            ~ bad_block (crc_on s) (nth j (received E_loop) no_block)) ->
                 (length (received E_loop) <= k + 2)%nat /\
                 (S k = n \/ (S k < length (received E_loop))%nat ->
                  fst (fst X) = SD_BLOCK_DEVICE_ERROR_CRC) /\
                 ((S k < n)%nat /\ S k = length (received E_loop) ->
                  fst (fst X) = SD_BLOCK_DEVICE_ERROR_NO_RESPONSE))).
  { intros X HX1 HX2 Hstat. rewrite HX1, HX2.
    exists (EvCmd CMD18_READ_MULTIPLE_BLOCK
                  (u32 (block_addr (card_type (card s)) sector)) false :: t1),
           (events_since s1 s2),
           (EvCmd CMD12_STOP_TRANSMISSION 0 false :: t3), t3.
    split.
    { apply events_since_app. rewrite T3, T2, T1. rewrite <- !app_assoc. reflexivity. }
    split.
    { constructor; [reflexivity|].
      eapply Forall_impl; [|exact F1].
      intros e He; destruct e; try contradiction; exact I. }
    split; [exact F2|].
    split; [reflexivity|].
    split; [exact F3|].
    split; [exact Le|].
    split; [exact HBlk|].
    exact Hstat. }
  destruct HSt as [E | [E | E]].
  - (* the loop ended without error: the last block is checked now *)
    specialize (HNone E).
    assert (HB : received (events_since s1 s2) <> []).
    { intros E0. rewrite E0 in HNone. cbn in HNone. lia. }
    assert (Hp : prev_block (spi s3) buf1 prev1
                 = (fst (nth (n - 1) (received (events_since s1 s2)) no_block),
                    snd (nth (n - 1) (received (events_since s1 s2)) no_block))).
    { rewrite HPrev. rewrite last_is_nth, HNone.
      destruct (received (events_since s1 s2)) as [|b0 B0] eqn:EB; [contradiction|].
      rewrite <- EB in *. unfold prev_block.
      rewrite (HBlk (n - 1)%nat) by lia. reflexivity. }
    assert (Hpf : fst (prev_block (spi s3) buf1 prev1)
                  = fst (nth (n - 1) (received (events_since s1 s2)) no_block))
      by (rewrite Hp; reflexivity).
    assert (Hps : snd (prev_block (spi s3) buf1 prev1)
                  = snd (nth (n - 1) (received (events_since s1 s2)) no_block))
      by (rewrite Hp; reflexivity).
    rewrite Hpf, Hps.
    apply Main.
    + apply (if3_eq snd); reflexivity.
    + apply (if3_eq (fun X => snd (fst X))); reflexivity.
    + intros k Hk Hbadk _.
      assert (Hk' : k = (n - 1)%nat).
      { destruct (Nat.eq_dec k (n - 1)) as [e|ne]; [exact e | exfalso].
        assert (Hlt : (S k < length (received (events_since s1 s2)))%nat) by lia.
        specialize (HBad k Hlt Hbadk). congruence. }
      split; [lia|]. split.
      * intros _. rewrite Hk' in Hbadk. unfold bad_block in Hbadk.
        rewrite E, Hbadk. reflexivity.
      * intros [H1 H2]. lia.
  - (* the loop stopped on a block whose CRC does not match *)
    destruct (HWhy E) as (j & Hj & Hbadj).
    apply Main.
    + apply (if3_eq snd); reflexivity.
    + apply (if3_eq (fun X => snd (fst X))); reflexivity.
    + intros k Hk Hbadk Hfirst.
      pose proof (HTwo k Hk Hbadk) as Hle.
      assert (Hjk : ~ (j < k)%nat).
      { intros Hlt. exact (Hfirst j Hlt Hbadj). }
      split; [exact Hle|]. split.
      * intros _. rewrite E. reflexivity.
      * intros [H1 H2]. lia.
  - (* the loop stopped on a start token or a transfer that did not come *)
    specialize (HNo E).
    apply Main.
    + apply (if3_eq snd); reflexivity.
    + apply (if3_eq (fun X => snd (fst X))); reflexivity.
    + intros k Hk Hbadk _.
      assert (Hlast : S k = length (received (events_since s1 s2))).
      { destruct (Nat.eq_dec (S k) (length (received (events_since s1 s2))))
          as [e|ne]; [exact e | exfalso].
        assert (Hlt : (S k < length (received (events_since s1 s2)))%nat) by lia.
        specialize (HBad k Hlt Hbadk). congruence. }
      split; [lia|]. split.
      * intros [H1 | H1]; lia.
      * intros _. rewrite E. reflexivity.
Qed.

Lemma C5_witness :
  (1 < 2 /\
   (512 * Z.to_nat 2 <= length (repeat 0 1024))%nat /\
   anybit (m_Status (card bad_crc_state)) (Z.lor STA_NOINIT STA_NODISK) = false /\
   (u64 (7 + 2) >? sectors (card bad_crc_state)) = false /\
   fst (fst (sd_cmd CMD18_READ_MULTIPLE_BLOCK
               (block_addr (card_type (card bad_crc_state)) 7) false 0 bad_crc_state))
     = SD_BLOCK_DEVICE_ERROR_NONE) /\
  multi_read_outcome (repeat 0 1024) 7 2 bad_crc_state.
Proof.
  assert (H1 : 1 < 2) by lia.
  assert (H2 : (512 * Z.to_nat 2 <= length (repeat 0 1024))%nat)
    by (apply Nat.leb_le; vm_compute; reflexivity).
  assert (H3 : anybit (m_Status (card bad_crc_state)) (Z.lor STA_NOINIT STA_NODISK)
               = false) by reflexivity.
  assert (H4 : (u64 (7 + 2) >? sectors (card bad_crc_state)) = false) by reflexivity.
  assert (H5 : fst (fst (sd_cmd CMD18_READ_MULTIPLE_BLOCK
                           (block_addr (card_type (card bad_crc_state)) 7) false 0
                           bad_crc_state))
               = SD_BLOCK_DEVICE_ERROR_NONE) by (vm_compute; reflexivity).
  split; [repeat split; assumption|].
  exact (C5_multi_block_read_crc_failure (repeat 0 1024) 7 2 bad_crc_state
           H1 H2 H3 H4 H5).
Defined.

(** The run of that state: block 0 fails its check while block 1 comes
    in, block 1 is received, the read stops and returns Crc. *)
Example bad_crc_read_returns_crc :
  fst (fst (in_sd_read_blocks (repeat 0 1024) 7 2 bad_crc_state))
    = SD_BLOCK_DEVICE_ERROR_CRC /\
  map (fun b => chk_crc16 true (fst b) (snd b))
      (received (events_since bad_crc_state
                   (snd (in_sd_read_blocks (repeat 0 1024) 7 2 bad_crc_state))))
    = [false; true] /\
  filter (fun e => negb (is_xfer e || is_dma e))
         (events_since bad_crc_state
            (snd (in_sd_read_blocks (repeat 0 1024) 7 2 bad_crc_state)))
    = [EvCmd CMD18_READ_MULTIPLE_BLOCK 7 false; EvCmd CMD12_STOP_TRANSMISSION 0 false].
Proof.
  split; [vm_compute; reflexivity|]. split; vm_compute; reflexivity.
Qed.

(** Three blocks asked for, the first two with a CRC that does not match:
    the check of block 0 fails while block 1 comes in; block 1 is received
    and never checked, block 2 is not read, and the read returns Crc. *)
Example two_bad_blocks_read_stops_after_second :
  fst (fst (in_sd_read_blocks (repeat 0 1536) 7 3 two_bad_blocks_state))
    = SD_BLOCK_DEVICE_ERROR_CRC /\
  map (fun b => chk_crc16 true (fst b) (snd b))
      (received (events_since two_bad_blocks_state
                   (snd (in_sd_read_blocks (repeat 0 1536) 7 3 two_bad_blocks_state))))
    = [false; false] /\
  filter (fun e => negb (is_xfer e || is_dma e))
         (events_since two_bad_blocks_state
            (snd (in_sd_read_blocks (repeat 0 1536) 7 3 two_bad_blocks_state)))
    = [EvCmd CMD18_READ_MULTIPLE_BLOCK 7 false; EvCmd CMD12_STOP_TRANSMISSION 0 false].
Proof.
  split; [vm_compute; reflexivity|]. split; vm_compute; reflexivity.
Qed.

(** The claim as worded fails: block 0 arrives with a CRC that does not
    match, the start token of block 1 is found and the check of block 0
    fails while block 1 is being transferred, but that transfer does not
    complete; the status Crc is overwritten and the read returns
    NoResponse.  (One stop-transmission command is issued all the
    same.) *)
Lemma C5_counterexample :
  map (fun b => chk_crc16 true (fst b) (snd b))
      (received (events_since bad_crc_dma_timeout_state
                   (snd (in_sd_read_blocks (repeat 0 1024) 7 2
                           bad_crc_dma_timeout_state))))
    = [false] /\
  filter (fun e => match e with EvDmaWait _ | EvCmd _ _ _ => true | _ => false end)
         (events_since bad_crc_dma_timeout_state
            (snd (in_sd_read_blocks (repeat 0 1024) 7 2 bad_crc_dma_timeout_state)))
    = [EvCmd CMD18_READ_MULTIPLE_BLOCK 7 false; EvDmaWait true; EvDmaWait false;
       EvCmd CMD12_STOP_TRANSMISSION 0 false] /\
  fst (fst (in_sd_read_blocks (repeat 0 1024) 7 2 bad_crc_dma_timeout_state))
    = SD_BLOCK_DEVICE_ERROR_NO_RESPONSE /\
  SD_BLOCK_DEVICE_ERROR_NO_RESPONSE <> SD_BLOCK_DEVICE_ERROR_CRC.
Proof.
  split; [vm_compute; reflexivity|].
  split; [vm_compute; reflexivity|].
  split; [vm_compute; reflexivity | discriminate].
Qed.

(** * More of the driver *)

(** ** Checking a property of a byte by enumeration *)

Lemma forall_below (P : Z -> bool) (n : nat) :
  forallb P (map Z.of_nat (seq 0 n)) = true ->
  forall x, 0 <= x < Z.of_nat n -> P x = true.
Proof.
  intros H x Hx. rewrite forallb_forall in H. apply H.
  apply in_map_iff. exists (Z.to_nat x). split; [lia|].
  apply in_seq. lia.
Qed.

Lemma u8_range x : 0 <= u8 x < 256.
Proof. unfold u8. apply Z.mod_pos_bound. lia. Qed.

(** X1.  The packet [sd_cmd_spi] sends for a command: six bytes, the first
    with the start bits 01 and the command index in its low six bits,
    the last with the stop bit set. *)
Theorem X1_cmdPacket_framing on cmd arg :
  length (cmdPacket on cmd arg) = PACKET_SIZE /\
  Forall (fun b => 0 <= b < 256) (cmdPacket on cmd arg) /\
  Z.testbit (nth 0 (cmdPacket on cmd arg) 0) 7 = false /\
  Z.testbit (nth 0 (cmdPacket on cmd arg) 0) 6 = true /\
  Z.land (nth 0 (cmdPacket on cmd arg) 0) 0x3F = cmd mod 64 /\
  Z.testbit (nth 5 (cmdPacket on cmd arg) 0) 0 = true.
Proof.
  assert (H5 : 0 <= cmdPacket5 on cmd
                      [u8 (SPI_CMD cmd); u8 (Z.shiftr arg 24); u8 (Z.shiftr arg 16);
                       u8 (Z.shiftr arg 8); u8 (Z.shiftr arg 0)] < 256 /\
               Z.testbit (cmdPacket5 on cmd
                      [u8 (SPI_CMD cmd); u8 (Z.shiftr arg 24); u8 (Z.shiftr arg 16);
                       u8 (Z.shiftr arg 8); u8 (Z.shiftr arg 0)]) 0 = true).
  { unfold cmdPacket5. destruct on.
    - split; [apply u8_range|]. unfold u8.
      change 256 with (2 ^ 8). rewrite Z.mod_pow2_bits_low by lia.
      rewrite Z.lor_spec. apply orb_true_r.
    - destruct (cmd =? CMD0_GO_IDLE_STATE); [split; [lia | reflexivity]|].
      destruct (cmd =? CMD8_SEND_IF_COND); split; try lia; reflexivity. }
  assert (Hc : Z.land cmd 0x3f = cmd mod 64).
  { change 0x3f with (Z.ones 6). rewrite Z.land_ones by lia. reflexivity. }
  assert (Hr : 0 <= cmd mod 64 < Z.of_nat 64) by (apply Z.mod_pos_bound; lia).
  pose proof (forall_below
                (fun x => negb (Z.testbit (u8 (Z.lor 0x40 x)) 7)
                          && Z.testbit (u8 (Z.lor 0x40 x)) 6
                          && (Z.land (u8 (Z.lor 0x40 x)) 0x3F =? x))
                64 ltac:(vm_compute; reflexivity) _ Hr) as Hb.
  cbv beta in Hb. apply andb_prop in Hb. destruct Hb as [Hb H3].
  apply andb_prop in Hb. destruct Hb as [H1 H2].
  apply negb_true_iff in H1. apply Z.eqb_eq in H3.
  unfold cmdPacket. cbn [app length nth].
  split; [reflexivity|].
  split.
  { repeat (apply Forall_cons; [apply u8_range|]).
    apply Forall_cons; [exact (proj1 H5) | apply Forall_nil]. }
  unfold SPI_CMD. rewrite Hc.
  split; [exact H1|]. split; [exact H2|]. split; [exact H3|].
  rewrite <- Hc. exact (proj2 H5).
Qed.

(** ** The polling loops *)

Lemma sd_spi_write_run v s :
  sd_spi_write v s
  = (u8 (hd SPI_FILL_CHAR (rx (spi s))),
     set_spi (mk_spi (tl (rx (spi s))) (clock (spi s)) (dma (spi s))
                     (dma_pending (spi s)) (card_present (spi s))
                     (null_page (spi s))
                     (trace (spi s)
                      ++ [EvXfer (u8 v) (u8 (hd SPI_FILL_CHAR (rx (spi s))))])) s).
Proof. reflexivity. Qed.

Lemma sd_wait_ready_loop_polls fuel :
  forall timeout s,
    (length (clock (spi s)) <= fuel)%nat ->
    exists n last,
      trace (spi (snd (sd_wait_ready_loop fuel timeout s)))
        = trace (spi s) ++ repeat (EvXfer 0xFF 0) n ++ [EvXfer 0xFF last] /\
      fst (sd_wait_ready_loop fuel timeout s) = last /\
      0 <= last < 256 /\
      (n <= length (clock (spi s)))%nat /\
      (u32 timeout = 0 -> n = 0%nat) /\
      (last = 0 -> u32 timeout = 0 \/ nth n (clock (spi s)) false = false) /\
      card (snd (sd_wait_ready_loop fuel timeout s)) = card s.
Proof.
  induction fuel as [|f IH]; intros timeout s Hf;
    cbn [sd_wait_ready_loop]; unfold bind; rewrite sd_spi_write_run;
    pose proof (u8_range (hd SPI_FILL_CHAR (rx (spi s)))) as Hr;
    remember (u8 (hd SPI_FILL_CHAR (rx (spi s)))) as r eqn:Er; clear Er;
    (destruct (r =? 0) eqn:E;
     [ apply Z.eqb_eq in E; unfold time_left;
       destruct (u32 timeout =? 0) eqn:T;
       [ apply Z.eqb_eq in T; exists 0%nat, r; cbn; repeat split; auto; lia |]
     | exists 0%nat, r; cbn; apply Z.eqb_neq in E; repeat split; auto; lia ]);
    apply Z.eqb_neq in T; cbn [spi set_spi clock hd tl].
  - destruct (clock (spi s)) as [|c cl] eqn:Ec; [|cbn in Hf; lia].
    exists 0%nat, r. cbn. rewrite ?Ec. repeat split; auto; lia.
  - destruct (clock (spi s)) as [|c cl] eqn:Ec.
    { exists 0%nat, r. cbn. rewrite ?Ec. repeat split; auto; lia. }
    destruct c.
    2:{ exists 0%nat, r. cbn. rewrite ?Ec. repeat split; auto; lia. }
    cbn [hd tl].
    match goal with |- context [sd_wait_ready_loop f timeout ?s2] =>
      destruct (IH timeout s2) as (n & last & H1 & H2 & H3 & H4 & H5 & H6 & H7);
      [cbn; cbn in Hf; lia|]
    end.
    exists (S n), last. rewrite H1, H2, H7. cbn [spi set_spi trace clock card] in *.
    rewrite ?Ec. rewrite E. cbn [repeat app length nth].
    rewrite <- app_assoc. cbn [app].
    repeat split; auto; lia.
Qed.

(** X2.  [sd_wait_ready]: the card is polled with 0xFF; every poll but the
    last is answered 0x00; the result tells whether the last answer is
    non-zero.  A poll answered 0x00 is the last one only when the deadline
    has elapsed: at once for a timeout that is 0 as a [uint32_t], when the
    clock says so for any other, a negative [int] included.  With a
    timeout of 0 there is one poll only.  The session is not touched. *)
Theorem X2_sd_wait_ready_polls timeout s :
  exists n last,
    events_since s (snd (sd_wait_ready timeout s))
      = repeat (EvXfer 0xFF 0) n ++ [EvXfer 0xFF last] /\
    fst (sd_wait_ready timeout s) = negb (last =? 0) /\
    0 <= last < 256 /\
    (n <= length (clock (spi s)))%nat /\
    (u32 timeout = 0 -> n = 0%nat) /\
    (last = 0 -> u32 timeout = 0 \/ nth n (clock (spi s)) false = false) /\
    card (snd (sd_wait_ready timeout s)) = card s.
Proof.
  destruct (sd_wait_ready_loop_polls (length (clock (spi s))) timeout s (le_n _))
    as (n & last & H1 & H2 & H3 & H4 & H5 & H6 & H7).
  exists n, last. unfold sd_wait_ready.
  destruct (sd_wait_ready_loop (length (clock (spi s))) timeout s) as [resp s'].
  cbn [fst snd] in *. subst resp.
  split; [apply events_since_app; exact H1|].
  split.
  { destruct (last =? 0) eqn:E.
    - apply Z.eqb_eq in E. subst last. reflexivity.
    - apply Z.eqb_neq in E. cbn. apply Z.ltb_lt. lia. }
  repeat split; auto; lia.
Qed.

Lemma sd_wait_token_loop_polls fuel :
  forall token s,
    (length (clock (spi s)) <= fuel)%nat ->
    exists others last,
      trace (spi (snd (sd_wait_token_loop fuel token s)))
        = trace (spi s) ++ map (EvXfer 0xFF) (others ++ [last]) /\
      fst (sd_wait_token_loop fuel token s) = (token =? last) /\
      Forall (fun b => b <> token) others /\
      (length others <= length (clock (spi s)))%nat /\
      (last <> token -> nth (length others) (clock (spi s)) false = false) /\
      rx (spi (snd (sd_wait_token_loop fuel token s)))
        = skipn (S (length others)) (rx (spi s)) /\
      card (snd (sd_wait_token_loop fuel token s)) = card s.
Proof.
  induction fuel as [|f IH]; intros token s Hf;
    cbn [sd_wait_token_loop]; unfold bind; rewrite sd_spi_write_run;
    remember (u8 (hd SPI_FILL_CHAR (rx (spi s)))) as r eqn:Er; clear Er;
    (destruct (token =? r) eqn:E;
     [ exists [], r; cbn; rewrite E; apply Z.eqb_eq in E;
       repeat split; auto; lia |]);
    apply Z.eqb_neq in E; unfold time_left;
    change (u32 SD_COMMAND_TIMEOUT =? 0) with false; cbn [spi set_spi clock hd tl].
  - destruct (clock (spi s)) as [|c cl] eqn:Ec; [|cbn in Hf; lia].
    exists [], r. cbn. rewrite ?Ec. apply Z.eqb_neq in E. rewrite E.
    repeat split; auto; lia.
  - destruct (clock (spi s)) as [|c cl] eqn:Ec.
    { exists [], r. cbn. rewrite ?Ec. apply Z.eqb_neq in E. rewrite E.
      repeat split; auto; lia. }
    destruct c.
    2:{ exists [], r. cbn. rewrite ?Ec. apply Z.eqb_neq in E. rewrite E.
        repeat split; auto; lia. }
    cbn [hd tl].
    match goal with |- context [sd_wait_token_loop f token ?s2] =>
      destruct (IH token s2) as (others & last & H1 & H2 & H3 & H4 & H5 & H6 & H7);
      [cbn; cbn in Hf; lia|]
    end.
    exists (r :: others), last. rewrite H1, H2, H6, H7.
    cbn [spi set_spi trace clock card rx] in *.
    rewrite ?Ec. cbn [map app length nth].
    rewrite <- app_assoc. cbn [app].
    split; [reflexivity|]. split; [reflexivity|].
    split; [constructor; [congruence | exact H3]|].
    split; [lia|]. split; [exact H5|]. split; [|reflexivity].
    destruct (rx (spi s)); [|reflexivity]. cbn [tl]. rewrite !skipn_nil. reflexivity.
Qed.

(** X3.  [sd_wait_token]: the card is polled with 0xFF until it answers the
    token or the deadline has elapsed; the result tells whether the last
    answer is the token, and no earlier answer is.  The bytes polled are
    consumed, the session is not touched. *)
Theorem X3_sd_wait_token_polls token s :
  exists others last,
    events_since s (snd (sd_wait_token token s))
      = map (EvXfer 0xFF) (others ++ [last]) /\
    fst (sd_wait_token token s) = (token =? last) /\
    Forall (fun b => b <> token) others /\
    (length others <= length (clock (spi s)))%nat /\
    (last <> token -> nth (length others) (clock (spi s)) false = false) /\
    rx (spi (snd (sd_wait_token token s))) = skipn (S (length others)) (rx (spi s)) /\
    card (snd (sd_wait_token token s)) = card s.
Proof.
  destruct (sd_wait_token_loop_polls (length (clock (spi s))) token s (le_n _))
    as (others & last & H1 & H2 & H3 & H4 & H5 & H6 & H7).
  exists others, last. unfold sd_wait_token.
  split; [apply events_since_app; exact H1|].
  repeat split; assumption.
Qed.

(** ** Register reads *)

Lemma read_bytes_loop_run n :
  forall s,
    trace (spi (snd (read_bytes_loop n s)))
      = trace (spi s) ++ map (EvXfer 0xFF) (fst (read_bytes_loop n s)) /\
    length (fst (read_bytes_loop n s)) = n /\
    crc_on (snd (read_bytes_loop n s)) = crc_on s /\
    card (snd (read_bytes_loop n s)) = card s.
Proof.
  induction n as [|n IH]; intros s; cbn [read_bytes_loop].
  - cbn. rewrite app_nil_r. auto.
  - unfold bind. rewrite sd_spi_write_run.
    match goal with |- context [read_bytes_loop n ?s1] =>
      destruct (IH s1) as (H1 & H2 & H3 & H4);
      destruct (read_bytes_loop n s1) as [rest s2]
    end.
    cbn [fst snd ret] in *. rewrite H1, H3, H4. cbn [spi set_spi trace map length].
    rewrite <- app_assoc. cbn [app]. rewrite H2. auto.
Qed.

Lemma read_crc16_polls s :
  exists hi lo,
    read_crc16 s = (Z.lor (u16 (Z.shiftl hi 8)) lo, snd (read_crc16 s)) /\
    trace (spi (snd (read_crc16 s)))
      = trace (spi s) ++ [EvXfer 0xFF hi; EvXfer 0xFF lo] /\
    crc_on (snd (read_crc16 s)) = crc_on s /\
    card (snd (read_crc16 s)) = card s.
Proof.
  unfold read_crc16, bind. rewrite sd_spi_write_run.
  match goal with |- context [EvXfer _ ?h] => exists h end.
  rewrite sd_spi_write_run.
  match goal with |- context [sd_spi_write_run] => idtac | _ => idtac end.
  eexists. cbn. rewrite <- app_assoc. cbn [app].
  split; [reflexivity|]. split; [reflexivity|]. auto.
Qed.

Lemma sd_read_bytes_run buffer len s :
  exists st buf s',
    sd_read_bytes buffer len s = (st, buf, s') /\
    ((st = SD_BLOCK_DEVICE_ERROR_NO_RESPONSE /\ buf = buffer) \/
     (exists pre data hi lo,
         trace (spi s')
           = trace (spi s)
             ++ map (EvXfer 0xFF) pre ++ [EvXfer 0xFF SPI_START_BLOCK]
             ++ map (EvXfer 0xFF) data ++ [EvXfer 0xFF hi; EvXfer 0xFF lo] /\
         Forall (fun b => b <> SPI_START_BLOCK) pre /\
         length data = len /\
         buf = data ++ skipn len buffer /\
         st = (if chk_crc16 (crc_on s) data (Z.lor (u16 (Z.shiftl hi 8)) lo)
               then SD_BLOCK_DEVICE_ERROR_NONE else SD_BLOCK_DEVICE_ERROR_CRC))).
Proof.
  unfold sd_read_bytes. unfold bind at 1.
  destruct (sd_wait_token_loop_polls (length (clock (spi s))) SPI_START_BLOCK s (le_n _))
    as (others & last & H1 & H2 & H3 & _ & _ & _ & _).
  assert (Hon1 : crc_on (snd (sd_wait_token SPI_START_BLOCK s)) = crc_on s).
  { exact (proj1 (sd_wait_token_io [] SPI_START_BLOCK s)). }
  unfold sd_wait_token in *.
  destruct (sd_wait_token_loop (length (clock (spi s))) SPI_START_BLOCK s) as [tok s1].
  cbn [fst snd] in H1, H2, Hon1. subst tok.
  destruct (SPI_START_BLOCK =? last) eqn:E; cbn [negb].
  2:{ do 3 eexists. split; [reflexivity|]. left. split; reflexivity. }
  apply Z.eqb_eq in E. subst last.
  unfold bind at 1.
  destruct (read_bytes_loop_run len s1) as (R1 & R2 & R3 & _).
  destruct (read_bytes_loop len s1) as [data s2]. cbn [fst snd] in R1, R2, R3.
  unfold bind at 1.
  destruct (read_crc16_polls s2) as (hi & lo & C1 & C2 & C3 & _).
  rewrite C1. remember (snd (read_crc16 s2)) as s3 eqn:E3. clear E3 C1.
  unfold bind, get_crc_on.
  assert (Hon : crc_on s3 = crc_on s) by congruence.
  rewrite Hon.
  assert (T : trace (spi s3)
              = trace (spi s)
                ++ map (EvXfer 0xFF) others ++ [EvXfer 0xFF SPI_START_BLOCK]
                ++ map (EvXfer 0xFF) data ++ [EvXfer 0xFF hi; EvXfer 0xFF lo]).
  { rewrite C2, R1, H1, map_app. cbn [map]. rewrite <- !app_assoc. reflexivity. }
  destruct (chk_crc16 (crc_on s) data (Z.lor (u16 (Z.shiftl hi 8)) lo)) eqn:K;
    cbn [negb ret]; do 3 eexists; (split; [reflexivity|]); right;
    exists others, data, hi, lo; rewrite K; repeat split; auto.
Qed.

(** X4.  [sd_read_bytes].  When the start token does not come, the status is
    NoResponse and the buffer is left as it was.  Otherwise the [len]
    bytes that follow the token are stored at the head of the buffer,
    the rest of the buffer is untouched, two more bytes are read as the
    CRC, and the status is Crc when the check of the stored bytes against
    them fails and no error when it succeeds: the bytes are stored in
    both cases. *)
Theorem X4_sd_read_bytes_stores buffer len s :
  (fst (fst (sd_read_bytes buffer len s)) = SD_BLOCK_DEVICE_ERROR_NO_RESPONSE /\
   snd (fst (sd_read_bytes buffer len s)) = buffer) \/
  (exists pre data hi lo,
      events_since s (snd (sd_read_bytes buffer len s))
        = map (EvXfer 0xFF) pre ++ [EvXfer 0xFF SPI_START_BLOCK]
          ++ map (EvXfer 0xFF) data ++ [EvXfer 0xFF hi; EvXfer 0xFF lo] /\
      Forall (fun b => b <> SPI_START_BLOCK) pre /\
      length data = len /\
      snd (fst (sd_read_bytes buffer len s)) = data ++ skipn len buffer /\
      fst (fst (sd_read_bytes buffer len s))
        = (if chk_crc16 (crc_on s) data (Z.lor (u16 (Z.shiftl hi 8)) lo)
           then SD_BLOCK_DEVICE_ERROR_NONE else SD_BLOCK_DEVICE_ERROR_CRC)).
Proof.
  destruct (sd_read_bytes_run buffer len s) as (st & buf & s' & E & [[H1 H2] | H]).
  - left. rewrite E. auto.
  - right. destruct H as (pre & data & hi & lo & T & H).
    exists pre, data, hi, lo. rewrite E. cbn [fst snd].
    split; [apply events_since_app; exact T | exact H].
Qed.

(** ** The status [sd_cmd] derives from the R1 byte *)

Lemma sd_cmd_of_send cmd arg isAcmd resp0 s s1 response :
  sd_cmd_send cmd (u32 arg) isAcmd s = (Some response, s1) ->
  sd_cmd cmd arg isAcmd resp0 s = sd_cmd_process cmd response s1.
Proof. intros H. unfold sd_cmd, bind. rewrite H. reflexivity. Qed.

Lemma sd_cmd_spi_poll_range n :
  forall r s, 0 <= r < 256 -> 0 <= fst (sd_cmd_spi_poll n r s) < 256.
Proof.
  induction n as [|n IH]; intros r s Hr; cbn [sd_cmd_spi_poll].
  - exact Hr.
  - unfold bind. rewrite sd_spi_write_run.
    destruct (anybit _ _); [apply IH | cbn [ret fst]]; apply u8_range.
Qed.

Lemma sd_cmd_spi_range cmd arg s : 0 <= fst (sd_cmd_spi cmd arg s) < 256.
Proof.
  unfold sd_cmd_spi. rewrite !bind_fst_snd.
  apply sd_cmd_spi_poll_range. unfold R1_NO_RESPONSE. lia.
Qed.

Lemma sd_cmd_retry_range n :
  forall cmd arg a s, 0 <= fst (sd_cmd_retry n cmd arg a s) < 256.
Proof.
  induction n as [|n IH]; intros cmd arg a s; cbn [sd_cmd_retry].
  - cbn. unfold R1_NO_RESPONSE. lia.
  - rewrite !bind_fst_snd.
    match goal with |- context [sd_cmd_spi cmd arg ?s1] =>
      pose proof (sd_cmd_spi_range cmd arg s1) as Hr;
      destruct (sd_cmd_spi cmd arg s1) as [r s2]
    end.
    cbn [fst snd] in *.
    destruct (r =? R1_NO_RESPONSE); [apply IH | exact Hr].
Qed.

Lemma sd_cmd_send_range cmd arg a s s1 response :
  sd_cmd_send cmd arg a s = (Some response, s1) -> 0 <= response < 256.
Proof.
  unfold sd_cmd_send. rewrite !bind_fst_snd.
  match goal with |- context [negb (fst ?x)] => destruct (fst x) end;
    cbn [negb]; [|discriminate].
  rewrite bind_fst_snd. intros H.
  apply (f_equal fst) in H. unfold ret in H at 1. cbn [fst] in H.
  injection H as <-.
  match goal with |- context [snd (?w ?s0)] =>
    exact (sd_cmd_retry_range SD_COMMAND_RETRIES cmd arg a (snd (w s0)))
  end.
Qed.

Lemma sd_cmd_process_status_of cmd response s :
  cmd <> CMD13_SEND_STATUS ->
  fst (fst (sd_cmd_process cmd response s))
  = if response =? R1_NO_RESPONSE then SD_BLOCK_DEVICE_ERROR_NO_RESPONSE
    else if anybit response R1_COM_CRC_ERROR
            && negb (cmd =? ACMD23_SET_WR_BLK_ERASE_COUNT)
    then SD_BLOCK_DEVICE_ERROR_CRC
    else if anybit response R1_ILLEGAL_COMMAND
    then SD_BLOCK_DEVICE_ERROR_UNSUPPORTED
    else r1_status response.
Proof.
  intros H13. apply Z.eqb_neq in H13. unfold sd_cmd_process.
  destruct (response =? R1_NO_RESPONSE); [reflexivity|].
  destruct (anybit response R1_COM_CRC_ERROR
            && negb (cmd =? ACMD23_SET_WR_BLK_ERASE_COUNT)); [reflexivity|].
  destruct (anybit response R1_ILLEGAL_COMMAND).
  { unfold bind, when. destruct (cmd =? CMD8_SEND_IF_COND); reflexivity. }
  rewrite H13.
  destruct (cmd =? CMD8_SEND_IF_COND).
  { unfold bind. destruct (set_type SDCARD_V2 s) as [[] s1].
    destruct (read_r3_r7 s1). reflexivity. }
  destruct (cmd =? CMD58_READ_OCR).
  { unfold bind. destruct (read_r3_r7 s). reflexivity. }
  destruct ((cmd =? CMD12_STOP_TRANSMISSION) || (cmd =? CMD38_ERASE)).
  { unfold bind. destruct (sd_wait_ready SD_COMMAND_TIMEOUT s). reflexivity. }
  reflexivity.
Qed.

Lemma is_none_iff e : is_none e = true <-> e = SD_BLOCK_DEVICE_ERROR_NONE.
Proof. destruct e; cbn; split; congruence. Qed.

Lemma is_unsupported_iff e :
  is_unsupported e = true <-> e = SD_BLOCK_DEVICE_ERROR_UNSUPPORTED.
Proof. destruct e; cbn; split; congruence. Qed.

(** X5.  How [sd_cmd] reads the R1 byte that answered the command (any
    command but CMD13, whose second status byte is read too, and ACMD23,
    for which the CRC bit is skipped).  The status is no error exactly when
    the byte is not 0xFF and none of its bits 1 to 6 is set: the idle bit
    (bit 0) and the top bit are not errors.  It is Crc exactly when the
    byte is not 0xFF and has bit 3 set, whatever the other bits, and
    Unsupported exactly when bit 2 is set and bit 3 is not. *)
Theorem X5_sd_cmd_status_of_r1 :
  forall (cmd : cmdSupported) (arg : Z) (isAcmd : bool) (resp0 : Z)
         (s s1 : state) (response : Z),
    sd_cmd_send cmd (u32 arg) isAcmd s = (Some response, s1) ->
    cmd <> CMD13_SEND_STATUS ->
    cmd <> ACMD23_SET_WR_BLK_ERASE_COUNT ->
    (fst (fst (sd_cmd cmd arg isAcmd resp0 s)) = SD_BLOCK_DEVICE_ERROR_NONE
     <-> response <> 0xFF /\ Z.land response 0x7E = 0) /\
    (fst (fst (sd_cmd cmd arg isAcmd resp0 s)) = SD_BLOCK_DEVICE_ERROR_CRC
     <-> response <> 0xFF /\ Z.testbit response 3 = true) /\
    (fst (fst (sd_cmd cmd arg isAcmd resp0 s)) = SD_BLOCK_DEVICE_ERROR_UNSUPPORTED
     <-> response <> 0xFF /\ Z.testbit response 3 = false
         /\ Z.testbit response 2 = true).
Proof.
  intros cmd arg isAcmd resp0 s s1 response Hs H13 H23.
  pose proof (sd_cmd_send_range _ _ _ _ _ _ Hs) as Hr.
  rewrite (sd_cmd_of_send _ _ _ resp0 _ _ _ Hs).
  rewrite (sd_cmd_process_status_of _ _ _ H13).
  apply Z.eqb_neq in H23. rewrite H23. cbn [negb]. rewrite andb_true_r.
  clear Hs H13 H23.
  set (st := fun r => if r =? R1_NO_RESPONSE then SD_BLOCK_DEVICE_ERROR_NO_RESPONSE
                      else if anybit r R1_COM_CRC_ERROR then SD_BLOCK_DEVICE_ERROR_CRC
                      else if anybit r R1_ILLEGAL_COMMAND
                      then SD_BLOCK_DEVICE_ERROR_UNSUPPORTED
                      else r1_status r).
  change (if response =? R1_NO_RESPONSE then _ else _) with (st response).
  pose proof (forall_below
    (fun r =>
       Bool.eqb (is_none (st r)) (negb (r =? 0xFF) && (Z.land r 0x7E =? 0))
       && Bool.eqb (match st r with SD_BLOCK_DEVICE_ERROR_CRC => true | _ => false end)
                   (negb (r =? 0xFF) && Z.testbit r 3)
       && Bool.eqb (is_unsupported (st r))
                   (negb (r =? 0xFF) && negb (Z.testbit r 3) && Z.testbit r 2))
    256 ltac:(vm_compute; reflexivity) response Hr) as Hb.
  cbv beta in Hb.
  apply andb_prop in Hb. destruct Hb as [Hb H3].
  apply andb_prop in Hb. destruct Hb as [H1 H2].
  apply Bool.eqb_prop in H1, H2, H3.
  assert (Hcrc : match st response with
                 | SD_BLOCK_DEVICE_ERROR_CRC => true | _ => false end = true
                 <-> st response = SD_BLOCK_DEVICE_ERROR_CRC).
  { destruct (st response); split; congruence. }
  clearbody st.
  split; [|split].
  - rewrite <- is_none_iff, H1, andb_true_iff, negb_true_iff, Z.eqb_neq, Z.eqb_eq.
    reflexivity.
  - rewrite <- Hcrc, H2, andb_true_iff, negb_true_iff, Z.eqb_neq. reflexivity.
  - rewrite <- is_unsupported_iff, H3, !andb_true_iff, !negb_true_iff, Z.eqb_neq.
    tauto.
Qed.

Lemma X5_witness :
  (sd_cmd_send CMD17_READ_SINGLE_BLOCK (u32 5) false crc_error_state
   = (Some 8, snd (sd_cmd_send CMD17_READ_SINGLE_BLOCK (u32 5) false crc_error_state)) /\
   CMD17_READ_SINGLE_BLOCK <> CMD13_SEND_STATUS /\
   CMD17_READ_SINGLE_BLOCK <> ACMD23_SET_WR_BLK_ERASE_COUNT) /\
  (fst (fst (sd_cmd CMD17_READ_SINGLE_BLOCK 5 false 0 crc_error_state))
   = SD_BLOCK_DEVICE_ERROR_CRC
   <-> 8 <> 0xFF /\ Z.testbit 8 3 = true).
Proof.
  assert (H1 : sd_cmd_send CMD17_READ_SINGLE_BLOCK (u32 5) false crc_error_state
               = (Some 8, snd (sd_cmd_send CMD17_READ_SINGLE_BLOCK (u32 5) false
                                 crc_error_state)))
    by (vm_compute; reflexivity).
  assert (H2 : CMD17_READ_SINGLE_BLOCK <> CMD13_SEND_STATUS) by discriminate.
  assert (H3 : CMD17_READ_SINGLE_BLOCK <> ACMD23_SET_WR_BLK_ERASE_COUNT)
    by discriminate.
  split; [split; [exact H1 | split; assumption]|].
  exact (proj1 (proj2 (X5_sd_cmd_status_of_r1 CMD17_READ_SINGLE_BLOCK 5 false 0
                         crc_error_state _ 8 H1 H2 H3))).
Defined.

(** ** The status query CMD13 *)

Lemma sd_cmd_process_cmd13 response s :
  response <> R1_NO_RESPONSE ->
  anybit response R1_COM_CRC_ERROR = false ->
  anybit response R1_ILLEGAL_COMMAND = false ->
  sd_cmd_process CMD13_SEND_STATUS response s
  = let b := u8 (hd SPI_FILL_CHAR (rx (spi s))) in
    let r2 := Z.lor (u32 (Z.shiftl response 8)) b in
    (if negb (r2 =? 0) then r2_status r2 (r1_status response) else r1_status response,
     r2, snd (sd_spi_write SPI_FILL_CHAR s)).
Proof.
  intros Hn Hc Hi. apply Z.eqb_neq in Hn. unfold sd_cmd_process.
  rewrite Hn, Hc, Hi. cbn [andb]. change (CMD13_SEND_STATUS =? CMD8_SEND_IF_COND) with false.
  change (CMD13_SEND_STATUS =? CMD58_READ_OCR) with false.
  change ((CMD13_SEND_STATUS =? CMD12_STOP_TRANSMISSION)
          || (CMD13_SEND_STATUS =? CMD38_ERASE)) with false.
  change (CMD13_SEND_STATUS =? CMD13_SEND_STATUS) with true.
  cbv iota. unfold bind. rewrite sd_spi_write_run. cbv zeta. cbn [snd].
  destruct (negb _); reflexivity.
Qed.

(** X6.  The status query CMD13 answered with a first byte 0x00 is without
    error exactly when the second byte is 0x00 too, and the value handed
    back is that second byte.  Answered with a first byte 0x01 (idle bit
    alone) it is without error whatever the second byte reports: the test
    of bit 8 resets the status after the bits of the second byte have been
    looked at. *)
Theorem X6_sd_cmd_send_status_second_byte :
  forall (arg resp0 : Z) (s s1 : state) (response : Z),
    sd_cmd_send CMD13_SEND_STATUS (u32 arg) false s = (Some response, s1) ->
    let b := u8 (hd SPI_FILL_CHAR (rx (spi s1))) in
    let r := sd_cmd CMD13_SEND_STATUS arg false resp0 s in
    (response = 0x00 ->
     (fst (fst r) = SD_BLOCK_DEVICE_ERROR_NONE <-> b = 0) /\ snd (fst r) = b) /\
    (response = 0x01 ->
     fst (fst r) = SD_BLOCK_DEVICE_ERROR_NONE /\ snd (fst r) = 0x100 + b).
Proof.
  intros arg resp0 s s1 response Hs b r.
  subst r. rewrite (sd_cmd_of_send _ _ _ resp0 _ _ _ Hs).
  pose proof (u8_range (hd SPI_FILL_CHAR (rx (spi s1)))) as Hb. fold b in Hb.
  split; intros ->.
  - rewrite sd_cmd_process_cmd13 by (reflexivity || discriminate).
    cbv zeta. fold b. cbn [fst snd].
    change (u32 (Z.shiftl 0 8)) with 0. rewrite Z.lor_0_l.
    change (r1_status 0) with SD_BLOCK_DEVICE_ERROR_NONE.
    split; [|reflexivity].
    pose proof (forall_below
      (fun b => Bool.eqb (is_none (if negb (b =? 0)
                                   then r2_status b SD_BLOCK_DEVICE_ERROR_NONE
                                   else SD_BLOCK_DEVICE_ERROR_NONE))
                         (b =? 0))
      256 ltac:(vm_compute; reflexivity) b Hb) as H.
    cbv beta in H. apply Bool.eqb_prop in H.
    rewrite <- is_none_iff, H, Z.eqb_eq. reflexivity.
  - rewrite sd_cmd_process_cmd13 by (reflexivity || discriminate).
    cbv zeta. fold b. cbn [fst snd].
    change (u32 (Z.shiftl 1 8)) with 0x100.
    change (r1_status 1) with SD_BLOCK_DEVICE_ERROR_NONE.
    pose proof (forall_below
      (fun b => is_none (if negb (Z.lor 0x100 b =? 0)
                         then r2_status (Z.lor 0x100 b) SD_BLOCK_DEVICE_ERROR_NONE
                         else SD_BLOCK_DEVICE_ERROR_NONE)
                && (Z.lor 0x100 b =? 0x100 + b))
      256 ltac:(vm_compute; reflexivity) b Hb) as H.
    cbv beta in H. apply andb_prop in H. destruct H as [H1 H2].
    apply is_none_iff in H1. apply Z.eqb_eq in H2. split; assumption.
Qed.

Lemma X6_witness :
  sd_cmd_send CMD13_SEND_STATUS (u32 0) false idle_status_state
  = (Some 1, snd (sd_cmd_send CMD13_SEND_STATUS (u32 0) false idle_status_state)) /\
  fst (fst (sd_cmd CMD13_SEND_STATUS 0 false 0 idle_status_state))
    = SD_BLOCK_DEVICE_ERROR_NONE /\
  snd (fst (sd_cmd CMD13_SEND_STATUS 0 false 0 idle_status_state))
    = 0x100 + u8 (hd SPI_FILL_CHAR
                     (rx (spi (snd (sd_cmd_send CMD13_SEND_STATUS (u32 0) false
                                      idle_status_state))))).
Proof.
  assert (H : sd_cmd_send CMD13_SEND_STATUS (u32 0) false idle_status_state
              = (Some 1, snd (sd_cmd_send CMD13_SEND_STATUS (u32 0) false
                                idle_status_state)))
    by (vm_compute; reflexivity).
  split; [exact H|].
  exact (proj2 (X6_sd_cmd_send_status_second_byte 0 0 idle_status_state _ 1 H) eq_refl).
Defined.

(** ** The interface-condition command CMD8 *)

Lemma r1_status_cases r :
  r1_status r = SD_BLOCK_DEVICE_ERROR_NONE \/
  r1_status r = SD_BLOCK_DEVICE_ERROR_ERASE \/
  r1_status r = SD_BLOCK_DEVICE_ERROR_PARAMETER.
Proof.
  unfold r1_status. destruct (_ || _); auto. destruct (_ || _); auto.
Qed.

Lemma sd_cmd_process_cmd8 response s :
  let r := sd_cmd_process CMD8_SEND_IF_COND response s in
  (fst (fst r) = SD_BLOCK_DEVICE_ERROR_NONE -> card_type (card (snd r)) = SDCARD_V2) /\
  (fst (fst r) = SD_BLOCK_DEVICE_ERROR_UNSUPPORTED ->
   card_type (card (snd r)) = CARD_UNKNOWN) /\
  fst (fst r) <> SD_BLOCK_DEVICE_ERROR_UNUSABLE.
Proof.
  unfold sd_cmd_process.
  destruct (response =? R1_NO_RESPONSE).
  { cbn. repeat split; discriminate. }
  destruct (anybit response R1_COM_CRC_ERROR
            && negb (CMD8_SEND_IF_COND =? ACMD23_SET_WR_BLK_ERASE_COUNT)).
  { cbn. repeat split; discriminate. }
  destruct (anybit response R1_ILLEGAL_COMMAND).
  { cbn. repeat split; try discriminate; reflexivity. }
  change (CMD8_SEND_IF_COND =? CMD8_SEND_IF_COND) with true. cbv iota.
  rewrite !bind_fst_snd. cbv zeta. cbn [ret fst snd].
  assert (K : card (snd (read_r3_r7 (snd (set_type SDCARD_V2 s))))
              = card (snd (set_type SDCARD_V2 s))) by apply read_r3_r7_card.
  rewrite K. cbn [set_type snd card set_card set_card_type card_type].
  destruct (r1_status_cases response) as [E | [E | E]]; rewrite E;
    repeat split; try discriminate; reflexivity.
Qed.

Lemma sd_cmd_cmd8 arg r0 s :
  exists st resp s1,
    sd_cmd CMD8_SEND_IF_COND arg false r0 s = (st, resp, s1) /\
    (st = SD_BLOCK_DEVICE_ERROR_NONE -> card_type (card s1) = SDCARD_V2) /\
    (st = SD_BLOCK_DEVICE_ERROR_UNSUPPORTED -> card_type (card s1) = CARD_UNKNOWN) /\
    st <> SD_BLOCK_DEVICE_ERROR_UNUSABLE.
Proof.
  rewrite sd_cmd_eq.
  destruct ((if negb (CMD8_SEND_IF_COND =? CMD12_STOP_TRANSMISSION)
                && negb (CMD8_SEND_IF_COND =? CMD0_GO_IDLE_STATE)
             then sd_wait_ready SD_COMMAND_TIMEOUT else ret true)
              (snd (emit (EvCmd CMD8_SEND_IF_COND (u32 arg) false) s)))
    as [ready s1].
  destruct ready.
  2:{ do 3 eexists. split; [reflexivity|]. repeat split; discriminate. }
  destruct (sd_cmd_retry SD_COMMAND_RETRIES CMD8_SEND_IF_COND (u32 arg) false s1)
    as [response s2].
  pose proof (sd_cmd_process_cmd8 response s2) as H. cbv zeta in H.
  destruct (sd_cmd_process CMD8_SEND_IF_COND response s2) as [[st resp] s3].
  do 3 eexists. split; [reflexivity | exact H].
Qed.

Lemma sd_cmd8_run s :
  (fst (sd_cmd8 s) = SD_BLOCK_DEVICE_ERROR_NONE ->
   card_type (card (snd (sd_cmd8 s))) = SDCARD_V2 /\
   Z.land (snd (fst (sd_cmd CMD8_SEND_IF_COND 0x1AA false 0 s))) 0xFFF = 0x1AA) /\
  (fst (sd_cmd8 s) = SD_BLOCK_DEVICE_ERROR_UNSUPPORTED ->
   card_type (card (snd (sd_cmd8 s))) = CARD_UNKNOWN) /\
  (fst (sd_cmd8 s) = SD_BLOCK_DEVICE_ERROR_UNUSABLE ->
   card_type (card (snd (sd_cmd8 s))) = CARD_UNKNOWN) /\
  m_Status (card (snd (sd_cmd8 s))) = m_Status (card s).
Proof.
  assert (E8 : sd_cmd8 s
               = let (p, s1) := sd_cmd CMD8_SEND_IF_COND 0x1AA false 0 s in
                 if is_none (fst p) && is_v2 (card_type (card s1)) then
                   if negb (Z.land (snd p) 0xFFF =? 0x1AA)
                   then (SD_BLOCK_DEVICE_ERROR_UNUSABLE,
                         set_card (set_card_type CARD_UNKNOWN (card s1)) s1)
                   else (fst p, s1)
                 else (fst p, s1)).
  { unfold sd_cmd8, bind. cbv zeta.
    change (Z.lor (Z.shiftl CMD8_PATTERN 0) (Z.shiftl 1 8)) with 0x1AA.
    destruct (sd_cmd CMD8_SEND_IF_COND 0x1AA false 0 s) as [[st resp] s1].
    cbn [fst snd get_card].
    destruct (is_none st && is_v2 (card_type (card s1))); [|reflexivity].
    destruct (negb _); reflexivity. }
  split; [|split; [|split; [|apply sd_cmd8_status]]]; rewrite E8;
    destruct (sd_cmd_cmd8 0x1AA 0 s) as (st & resp & s1 & E & P1 & P2 & P3);
    rewrite E; cbn [fst snd].
  - destruct (is_none st && is_v2 (card_type (card s1))) eqn:C.
    + destruct (Z.land resp 4095 =? 426) eqn:K; cbn [negb fst snd];
        [|discriminate].
      intros ->. split; [auto | apply Z.eqb_eq; exact K].
    + cbn [fst snd]. intros ->. rewrite (P1 eq_refl) in C. discriminate C.
  - destruct (is_none st && is_v2 (card_type (card s1))) eqn:C.
    + apply andb_prop in C. destruct C as [C _]. apply is_none_iff in C. subst st.
      destruct (negb _); cbn [fst snd]; discriminate.
    + cbn [fst snd]. exact P2.
  - destruct (is_none st && is_v2 (card_type (card s1))) eqn:C.
    + destruct (negb _); cbn [fst snd]; [reflexivity|].
      intros K. contradiction.
    + cbn [fst snd]. intros K. contradiction.
Qed.

(** X7.  [sd_cmd8] and the capacity class.  When it returns no error the card
    is tagged V2 and the low 12 bits of the R7 answer echo the argument
    0x1AA; when it returns Unsupported (the card rejected the command) or
    Unusable (the echo does not match) the card is tagged unknown.  The
    status bits of the session are not touched. *)
Theorem X7_sd_cmd8_card_type s :
  (fst (sd_cmd8 s) = SD_BLOCK_DEVICE_ERROR_NONE ->
   card_type (card (snd (sd_cmd8 s))) = SDCARD_V2 /\
   Z.land (snd (fst (sd_cmd CMD8_SEND_IF_COND 0x1AA false 0 s))) 0xFFF = 0x1AA) /\
  (fst (sd_cmd8 s) = SD_BLOCK_DEVICE_ERROR_UNSUPPORTED ->
   card_type (card (snd (sd_cmd8 s))) = CARD_UNKNOWN) /\
  (fst (sd_cmd8 s) = SD_BLOCK_DEVICE_ERROR_UNUSABLE ->
   card_type (card (snd (sd_cmd8 s))) = CARD_UNKNOWN) /\
  m_Status (card (snd (sd_cmd8 s))) = m_Status (card s).
Proof. exact (sd_cmd8_run s). Qed.

Lemma logged_nil s : logged [] s = s.
Proof.
  unfold logged. rewrite app_nil_r. destruct s as [c [? ? ? ? ? ? ?] o]. reflexivity.
Qed.

Lemma logged_logged a b s : logged b (logged a s) = logged (a ++ b) s.
Proof. unfold logged. cbn. rewrite app_assoc. reflexivity. Qed.

Lemma logged_rx evs s : rx (spi (logged evs s)) = rx (spi s).
Proof. reflexivity. Qed.

Lemma logged_crc_on evs s : crc_on (logged evs s) = crc_on s.
Proof. reflexivity. Qed.

Lemma logged_card evs s : card (logged evs s) = card s.
Proof. reflexivity. Qed.

Lemma logged_events evs s : events_since s (logged evs s) = evs.
Proof. apply events_since_app. reflexivity. Qed.

Lemma emit_logged e s : emit e s = (tt, logged [e] s).
Proof. reflexivity. Qed.

Lemma sd_spi_write_silent v s :
  rx (spi s) = [] ->
  sd_spi_write v s = (0xFF, logged (unanswered [u8 v]) s).
Proof.
  intros H. rewrite sd_spi_write_run. unfold logged, unanswered. rewrite H. reflexivity.
Qed.

Lemma unanswered_app a b : unanswered (a ++ b) = unanswered a ++ unanswered b.
Proof. apply map_app. Qed.

Lemma send_bytes_silent p :
  forall s, rx (spi s) = [] ->
            send_bytes p s = (tt, logged (unanswered (map u8 p)) s).
Proof.
  induction p as [|x p IH]; intros s H; cbn [send_bytes map].
  - cbn. rewrite logged_nil. reflexivity.
  - unfold bind. rewrite sd_spi_write_silent by exact H.
    rewrite IH by (rewrite logged_rx; exact H).
    rewrite logged_logged. reflexivity.
Qed.

Lemma sd_cmd_spi_poll_silent n :
  forall r s, rx (spi s) = [] ->
    sd_cmd_spi_poll (S n) r s = (0xFF, logged (unanswered (repeat 0xFF (S n))) s).
Proof.
  induction n as [|n IH]; intros r s H.
  - cbn [sd_cmd_spi_poll]. unfold bind. rewrite sd_spi_write_silent by exact H.
    reflexivity.
  - change (sd_cmd_spi_poll (S (S n)) r s)
      with (bind (sd_spi_write SPI_FILL_CHAR)
                 (fun r => if anybit r R1_RESPONSE_RECV
                           then sd_cmd_spi_poll (S n) r else ret r) s).
    unfold bind. rewrite sd_spi_write_silent by exact H.
    change (anybit 255 R1_RESPONSE_RECV) with true. cbv iota.
    rewrite IH by (rewrite logged_rx; exact H).
    rewrite logged_logged. reflexivity.
Qed.

Lemma sd_cmd_spi_silent cmd arg s :
  rx (spi s) = [] ->
  sd_cmd_spi cmd arg s
  = (0xFF, logged (unanswered (cmdPacket (crc_on s) cmd (u32 arg)
                               ++ (if cmd =? CMD12_STOP_TRANSMISSION then [0xFF] else [])
                               ++ repeat 0xFF 16)) s).
Proof.
  intros H. unfold sd_cmd_spi. unfold bind at 1. unfold get_crc_on.
  unfold bind at 1. rewrite send_bytes_silent by exact H.
  rewrite cmdPacket_bytes.
  unfold bind at 1.
  destruct (cmd =? CMD12_STOP_TRANSMISSION).
  - unfold bind. rewrite sd_spi_write_silent by (rewrite logged_rx; exact H).
    cbn [ret]. rewrite sd_cmd_spi_poll_silent by (rewrite !logged_rx; exact H).
    rewrite !logged_logged, !unanswered_app, <- ?app_assoc. reflexivity.
  - cbn [ret]. rewrite sd_cmd_spi_poll_silent by (rewrite !logged_rx; exact H).
    rewrite !logged_logged, !unanswered_app, <- ?app_assoc. reflexivity.
Qed.

Lemma sd_wait_ready_silent t s :
  rx (spi s) = [] ->
  sd_wait_ready t s = (true, logged (unanswered [0xFF]) s).
Proof.
  intros H. unfold sd_wait_ready.
  assert (E : forall fuel, sd_wait_ready_loop fuel t s
                           = (0xFF, logged (unanswered [0xFF]) s)).
  { intros [|f]; cbn [sd_wait_ready_loop]; unfold bind;
      rewrite sd_spi_write_silent by exact H; reflexivity. }
  rewrite E. reflexivity.
Qed.

Lemma sd_cmd_retry_silent n :
  forall cmd arg a s, rx (spi s) = [] ->
    sd_cmd_retry n cmd arg a s
    = (0xFF, logged (unanswered
                       (concat (repeat (silent_attempt (crc_on s) cmd (u32 arg) a) n))) s).
Proof.
  induction n as [|n IH]; intros cmd arg a s H; cbn [sd_cmd_retry repeat concat].
  - cbn. rewrite logged_nil. reflexivity.
  - unfold bind at 1.
    assert (E : (if a
                 then _ <- sd_cmd_spi CMD55_APP_CMD 0 ;;
                      _ <- sd_wait_ready SD_COMMAND_TIMEOUT ;; ret tt
                 else ret tt) s
                = (tt, logged (unanswered
                                 (if a then cmdPacket (crc_on s) CMD55_APP_CMD 0
                                            ++ repeat 0xFF 16 ++ [0xFF]
                                  else [])) s)).
    { destruct a.
      - unfold bind. rewrite sd_cmd_spi_silent by exact H.
        rewrite sd_wait_ready_silent by (rewrite logged_rx; exact H).
        cbn [ret]. rewrite logged_logged, <- unanswered_app.
        change (CMD55_APP_CMD =? CMD12_STOP_TRANSMISSION) with false.
        change (u32 0) with 0. cbn [app]. rewrite <- ?app_assoc. reflexivity.
      - cbn. rewrite logged_nil. reflexivity. }
    rewrite E. unfold bind.
    rewrite sd_cmd_spi_silent by (rewrite logged_rx; exact H).
    change (255 =? R1_NO_RESPONSE) with true. cbv iota.
    rewrite IH by (rewrite !logged_rx; exact H).
    rewrite !logged_logged, !logged_crc_on, <- !unanswered_app.
    unfold silent_attempt. rewrite <- ?app_assoc. reflexivity.
Qed.

Lemma sd_cmd_silent cmd arg isAcmd resp0 s :
  rx (spi s) = [] ->
  sd_cmd cmd arg isAcmd resp0 s
  = (SD_BLOCK_DEVICE_ERROR_NO_RESPONSE, R1_NO_RESPONSE,
     logged (silent_events (crc_on s) cmd (u32 arg) isAcmd) s).
Proof.
  intros H. rewrite sd_cmd_eq. rewrite emit_logged. cbn [snd].
  unfold silent_events, silent_cmd.
  destruct (negb (cmd =? CMD12_STOP_TRANSMISSION) && negb (cmd =? CMD0_GO_IDLE_STATE)).
  - rewrite sd_wait_ready_silent by (rewrite logged_rx; exact H).
    rewrite sd_cmd_retry_silent by (rewrite !logged_rx; exact H).
    unfold sd_cmd_process. change (255 =? R1_NO_RESPONSE) with true. cbv iota.
    rewrite !logged_logged, !logged_crc_on, u32_u32. cbn [ret app].
    rewrite <- unanswered_app. reflexivity.
  - cbn [ret]. rewrite sd_cmd_retry_silent by (rewrite !logged_rx; exact H).
    unfold sd_cmd_process. change (255 =? R1_NO_RESPONSE) with true. cbv iota.
    rewrite !logged_logged, !logged_crc_on, u32_u32. cbn [ret app]. reflexivity.
Qed.

(** X8.  A card that never drives the line: every byte read is 0xFF.  [sd_cmd]
    then returns NoResponse and leaves 0xFF in [*resp], after sending the
    command SD_COMMAND_RETRIES times, each packet followed by 16 polls;
    the session is not touched and nothing but these bytes is exchanged. *)
Theorem X8_sd_cmd_silent_card cmd arg isAcmd resp0 s :
  rx (spi s) = [] ->
  sd_cmd cmd arg isAcmd resp0 s
  = (SD_BLOCK_DEVICE_ERROR_NO_RESPONSE, R1_NO_RESPONSE,
     logged (EvCmd cmd (u32 arg) isAcmd
             :: unanswered (silent_cmd (crc_on s) cmd (u32 arg) isAcmd)) s).
Proof.
  exact (sd_cmd_silent cmd arg isAcmd resp0 s).
Qed.

Lemma X8_witness :
  rx (spi ready_state) = [] /\
  sd_cmd CMD17_READ_SINGLE_BLOCK 7 false 0 ready_state
  = (SD_BLOCK_DEVICE_ERROR_NO_RESPONSE, R1_NO_RESPONSE,
     logged (EvCmd CMD17_READ_SINGLE_BLOCK (u32 7) false
             :: unanswered (silent_cmd (crc_on ready_state) CMD17_READ_SINGLE_BLOCK
                                       (u32 7) false)) ready_state).
Proof.
  split; [reflexivity|].
  exact (X8_sd_cmd_silent_card CMD17_READ_SINGLE_BLOCK 7 false 0 ready_state eq_refl).
Defined.

(** ** A read that succeeds *)

Lemma bind_ret_snd {A} (m : M A) s : snd ((_ <- m ;; ret tt) s) = snd (m s).
Proof. unfold bind. destruct (m s). reflexivity. Qed.

Lemma stop_when_shape count s2 :
  exists E_stop,
    trace (spi (snd (when (count >? 1)
                          (_ <- sd_cmd CMD12_STOP_TRANSMISSION 0 false 0 ;; ret tt)
                          s2)))
      = trace (spi s2) ++ E_stop /\
    crc_on (snd (when (count >? 1)
                      (_ <- sd_cmd CMD12_STOP_TRANSMISSION 0 false 0 ;; ret tt)
                      s2)) = crc_on s2 /\
    (count = 1 -> E_stop = []) /\
    (1 < count -> exists tail,
        E_stop = EvCmd CMD12_STOP_TRANSMISSION 0 false :: tail /\
        Forall xfer_ev tail).
Proof.
  unfold when. destruct (count >? 1) eqn:G.
  - destruct (sd_cmd_shape CMD12_STOP_TRANSMISSION 0 0 s2 ltac:(discriminate))
      as (C3 & t3 & T3 & F3).
    rewrite bind_ret_snd.
    exists (EvCmd CMD12_STOP_TRANSMISSION (u32 0) false :: t3).
    split; [exact T3|]. split; [exact C3|].
    split; [intros ->; discriminate G|].
    intros _. exists t3. split; [reflexivity | exact F3].
  - exists []. unfold ret. cbn [snd]. rewrite app_nil_r.
    split; [reflexivity|]. split; [reflexivity|].
    split; [reflexivity|]. intros K. rewrite Z.gtb_ltb in G.
    apply Z.ltb_ge in G. lia.
Qed.

Lemma in_sd_read_blocks_eq buffer sector count s :
  anybit (m_Status (card s)) (Z.lor STA_NOINIT STA_NODISK) = false ->
  (u64 (sector + count) >? sectors (card s)) = false ->
  in_sd_read_blocks buffer sector count s
  = let (p0, s1) := sd_cmd (if count =? 1 then CMD17_READ_SINGLE_BLOCK
                            else CMD18_READ_MULTIPLE_BLOCK)
                      (block_addr (card_type (card s)) sector) false 0 s in
    if negb (is_none (fst p0)) then (fst p0, buffer, s1)
    else
      let (r1, s2) := read_blocks_loop (Z.to_nat count) buffer 0 None s1 in
      let (_, s3) := when (count >? 1)
                          (_ <- sd_cmd CMD12_STOP_TRANSMISSION 0 false 0 ;; ret tt) s2 in
      if is_none (fst (fst r1)) then
        if negb (chk_crc16 (crc_on s3)
                   (fst (prev_block (spi s3) (snd (fst r1)) (snd r1)))
                   (snd (prev_block (spi s3) (snd (fst r1)) (snd r1))))
        then (SD_BLOCK_DEVICE_ERROR_CRC, snd (fst r1), s3)
        else (fst (fst r1), snd (fst r1), s3)
      else (fst (fst r1), snd (fst r1), s3).
Proof.
  intros Hst Hb. unfold in_sd_read_blocks. unfold bind at 1. unfold get_card at 1.
  rewrite Hst, Hb. unfold bind at 1.
  assert (E : (if count =? 1
               then sd_cmd CMD17_READ_SINGLE_BLOCK
                           (block_addr (card_type (card s)) sector) false 0
               else sd_cmd CMD18_READ_MULTIPLE_BLOCK
                           (block_addr (card_type (card s)) sector) false 0) s
              = sd_cmd (if count =? 1 then CMD17_READ_SINGLE_BLOCK
                        else CMD18_READ_MULTIPLE_BLOCK)
                       (block_addr (card_type (card s)) sector) false 0 s)
    by (destruct (count =? 1); reflexivity).
  rewrite E.
  destruct (sd_cmd _ _ false 0 s) as [[st0 z0] s1].
  cbn [fst]. destruct (negb (is_none st0)); [reflexivity|].
  unfold bind at 1.
  destruct (read_blocks_loop (Z.to_nat count) buffer 0 None s1)
    as [[[st1 buf1] prev1] s2].
  cbn [fst snd]. unfold bind at 1.
  destruct (when (count >? 1) _ s2) as [[] s3].
  destruct (is_none st1); [|reflexivity].
  unfold bind, get_crc_on. destruct (prev_block (spi s3) buf1 prev1) as [blk crc].
  cbn [fst snd]. destruct (negb _); reflexivity.
Qed.

Lemma guards_of_status_read buffer sector count s :
  fst (fst (in_sd_read_blocks buffer sector count s)) = SD_BLOCK_DEVICE_ERROR_NONE ->
  anybit (m_Status (card s)) (Z.lor STA_NOINIT STA_NODISK) = false /\
  (u64 (sector + count) >? sectors (card s)) = false.
Proof.
  unfold in_sd_read_blocks. unfold bind at 1. unfold get_card at 1.
  destruct (anybit _ _); [cbn; discriminate|].
  destruct (_ >? _); [cbn; discriminate|]. auto.
Qed.

(** X9.  A read of [count] >= 1 blocks that returns no error.  Its events are
    those of the read command (CMD17 for one block, CMD18 for more), then
    those of the receive loop, then, for more than one block, one
    stop-transmission command.  The loop received exactly [count] blocks;
    block [j] is in the destination at offset 512 * j, and it passes the
    check against the CRC that followed it on the wire.  The destination
    keeps its length. *)
Theorem X9_in_sd_read_blocks_success :
  forall (buffer : list Z) (sector count : Z) (s : state),
    1 <= count ->
    (512 * Z.to_nat count <= length buffer)%nat ->
    fst (fst (in_sd_read_blocks buffer sector count s)) = SD_BLOCK_DEVICE_ERROR_NONE ->
    exists E_cmd E_loop E_stop,
      events_since s (snd (in_sd_read_blocks buffer sector count s))
        = E_cmd ++ E_loop ++ E_stop /\
      Forall (cmd_ev (if count =? 1 then CMD17_READ_SINGLE_BLOCK
                      else CMD18_READ_MULTIPLE_BLOCK)) E_cmd /\
      Forall (ev_ok []) E_loop /\
      (count = 1 -> E_stop = []) /\
      (1 < count -> exists tail,
          E_stop = EvCmd CMD12_STOP_TRANSMISSION 0 false :: tail /\
          Forall xfer_ev tail) /\
      length (received E_loop) = Z.to_nat count /\
      (forall j, (j < Z.to_nat count)%nat ->
         block_at (snd (fst (in_sd_read_blocks buffer sector count s))) (512 * j)
           = fst (nth j (received E_loop) no_block) /\
         chk_crc16 (crc_on s) (fst (nth j (received E_loop) no_block))
                   (snd (nth j (received E_loop) no_block)) = true) /\
      length (snd (fst (in_sd_read_blocks buffer sector count s))) = length buffer.
Proof.
  intros buffer sector count s Hc Hroom Hok.
  destruct (guards_of_status_read _ _ _ _ Hok) as [Hst Hb].
  revert Hok. rewrite (in_sd_read_blocks_eq buffer sector count s Hst Hb).
  remember (if count =? 1 then CMD17_READ_SINGLE_BLOCK
            else CMD18_READ_MULTIPLE_BLOCK) as cmd eqn:Ecmd.
  assert (H8 : cmd <> CMD8_SEND_IF_COND)
    by (rewrite Ecmd; destruct (count =? 1); discriminate).
  destruct (sd_cmd_shape cmd (block_addr (card_type (card s)) sector) 0 s H8)
    as (C1 & t1 & T1 & F1).
  destruct (sd_cmd cmd _ false 0 s) as [p0 s1].
  cbn [fst snd] in *.
  destruct (is_none (fst p0)) eqn:E0; cbn [negb].
  2:{ cbn [fst]. intros K. rewrite K in E0. discriminate E0. }
  destruct (read_blocks_loop (Z.to_nat count) buffer 0 None s1)
    as [[[st1 buf1] prev1] s2] eqn:Hloop.
  assert (Hroom' : (0 + 512 * Z.to_nat count <= length buffer)%nat)
    by (rewrite Nat.add_0_l; exact Hroom).
  destruct (read_blocks_loop_spec (Z.to_nat count) buffer 0%nat None s1
              st1 buf1 prev1 s2 Hroom' Hloop)
    as (C2 & T2 & F2 & L2 & _ & Le & HNone & HNo & HSt & HBlk0 & HPrev0 & _ & HBad
        & _).
  assert (HBlk : forall j, (j < length (received (events_since s1 s2)))%nat ->
                 block_at buf1 (512 * j)
                 = fst (nth j (received (events_since s1 s2)) no_block)).
  { intros j Hj. specialize (HBlk0 j Hj). rewrite Nat.add_0_l in HBlk0. exact HBlk0. }
  assert (HPrev : prev1 = match received (events_since s1 s2) with
                          | [] => None
                          | _ => Some ((512 * (length (received (events_since s1 s2)) - 1))%nat,
                                       snd (last (received (events_since s1 s2)) no_block))
                          end).
  { rewrite HPrev0. destruct (received (events_since s1 s2)); [reflexivity|].
    rewrite Nat.add_0_l. reflexivity. }
  clear HBlk0 HPrev0.
  destruct (stop_when_shape count s2) as (E_stop & T3 & C3 & S1 & S2).
  destruct (when (count >? 1) _ s2) as [[] s3]. cbn [fst snd] in *.
  destruct (is_none st1) eqn:E1.
  2:{ cbn [fst]. intros K. rewrite K in E1. discriminate E1. }
  apply is_none_iff in E1. subst st1. specialize (HNone eq_refl).
  assert (Con : crc_on s3 = crc_on s) by congruence.
  assert (Con1 : crc_on s1 = crc_on s) by congruence.
  rewrite Con. rewrite Con1 in HBad.
  remember (Z.to_nat count) as n eqn:En.
  assert (Hn : (1 <= n)%nat) by lia.
  assert (HB : received (events_since s1 s2) <> []).
  { intros E0'. rewrite E0' in HNone. cbn in HNone. lia. }
  assert (Hp : prev_block (spi s3) buf1 prev1
               = (fst (nth (n - 1) (received (events_since s1 s2)) no_block),
                  snd (nth (n - 1) (received (events_since s1 s2)) no_block))).
  { rewrite HPrev. rewrite last_is_nth, HNone.
    destruct (received (events_since s1 s2)) as [|b0 B0] eqn:EB; [contradiction|].
    rewrite <- EB in *. unfold prev_block.
    rewrite (HBlk (n - 1)%nat) by lia. reflexivity. }
  rewrite Hp. cbn [fst snd].
  destruct (chk_crc16 (crc_on s)
              (fst (nth (n - 1) (received (events_since s1 s2)) no_block))
              (snd (nth (n - 1) (received (events_since s1 s2)) no_block))) eqn:Klast;
    cbn [negb fst snd]; [|discriminate].
  intros _.
  exists (EvCmd cmd (u32 (block_addr (card_type (card s)) sector)) false :: t1),
         (events_since s1 s2), E_stop.
  split.
  { apply events_since_app. rewrite T3, T2, T1. rewrite <- !app_assoc. reflexivity. }
  split.
  { constructor; [exact Ecmd|].
    eapply Forall_impl; [|exact F1].
    intros e He; destruct e; try contradiction; exact I. }
  split; [exact F2|].
  split; [exact S1|]. split; [exact S2|].
  split; [exact HNone|].
  split; [|exact L2].
  intros j Hj. split; [apply HBlk; lia|].
  destruct (Nat.eq_dec j (n - 1)) as [e|ne]; [rewrite e; exact Klast|].
  destruct (chk_crc16 (crc_on s) (fst (nth j (received (events_since s1 s2)) no_block))
              (snd (nth j (received (events_since s1 s2)) no_block))) eqn:Kj;
    [reflexivity|].
  assert (Hlt : (S j < length (received (events_since s1 s2)))%nat) by lia.
  specialize (HBad j Hlt Kj). discriminate HBad.
Qed.

Lemma X9_witness :
  (1 <= 1 /\
   (512 * Z.to_nat 1 <= length (repeat 0 512))%nat /\
   fst (fst (in_sd_read_blocks (repeat 0 512) 7 1 good_read_state))
     = SD_BLOCK_DEVICE_ERROR_NONE) /\
  exists E_cmd E_loop E_stop,
    events_since good_read_state
      (snd (in_sd_read_blocks (repeat 0 512) 7 1 good_read_state))
      = E_cmd ++ E_loop ++ E_stop /\
    Forall (cmd_ev (if 1 =? 1 then CMD17_READ_SINGLE_BLOCK
                    else CMD18_READ_MULTIPLE_BLOCK)) E_cmd /\
    Forall (ev_ok []) E_loop /\
    (1 = 1 -> E_stop = []) /\
    (1 < 1 -> exists tail,
        E_stop = EvCmd CMD12_STOP_TRANSMISSION 0 false :: tail /\
        Forall xfer_ev tail) /\
    length (received E_loop) = Z.to_nat 1 /\
    (forall j, (j < Z.to_nat 1)%nat ->
       block_at (snd (fst (in_sd_read_blocks (repeat 0 512) 7 1 good_read_state)))
                (512 * j)
         = fst (nth j (received E_loop) no_block) /\
       chk_crc16 (crc_on good_read_state) (fst (nth j (received E_loop) no_block))
                 (snd (nth j (received E_loop) no_block)) = true) /\
    length (snd (fst (in_sd_read_blocks (repeat 0 512) 7 1 good_read_state)))
      = length (repeat 0 512).
Proof.
  assert (H1 : 1 <= 1) by lia.
  assert (H2 : (512 * Z.to_nat 1 <= length (repeat 0 512))%nat)
    by (apply Nat.leb_le; vm_compute; reflexivity).
  assert (H3 : fst (fst (in_sd_read_blocks (repeat 0 512) 7 1 good_read_state))
               = SD_BLOCK_DEVICE_ERROR_NONE) by (vm_compute; reflexivity).
  split; [split; [exact H1 | split; [exact H2 | exact H3]]|].
  exact (X9_in_sd_read_blocks_success (repeat 0 512) 7 1 good_read_state H1 H2 H3).
Defined.

Lemma sd_acquire_logged s : sd_acquire s = (tt, logged [EvLock; EvSpiAcquire] s).
Proof.
  unfold sd_acquire, sd_lock, sd_spi_acquire, bind.
  rewrite !emit_logged, logged_logged. reflexivity.
Qed.

Lemma sd_release_logged s : sd_release s = (tt, logged [EvUnlock; EvSpiRelease] s).
Proof.
  unfold sd_release, sd_unlock, sd_spi_release, bind.
  rewrite !emit_logged, logged_logged. reflexivity.
Qed.

(** X10.  On a line that stays high a read that passes the checks returns
    NoResponse after the three unanswered attempts of the read command:
    no data transfer is started, no stop command is sent, the destination
    and the session are left as they were, and the lock and the bus are
    taken and released around it. *)
Theorem X10_sd_read_blocks_silent_card buffer sector count s :
  rx (spi s) = [] ->
  anybit (m_Status (card s)) (Z.lor STA_NOINIT STA_NODISK) = false ->
  (u64 (sector + count) >? sectors (card s)) = false ->
  sd_read_blocks buffer sector count s
  = (SD_BLOCK_DEVICE_ERROR_NO_RESPONSE, buffer,
     logged (locked_run
               (silent_events (crc_on s)
                  (if count =? 1 then CMD17_READ_SINGLE_BLOCK
                   else CMD18_READ_MULTIPLE_BLOCK)
                  (u32 (block_addr (card_type (card s)) sector)) false)) s).
Proof.
  intros H Hst Hb. unfold sd_read_blocks. unfold bind at 1.
  rewrite sd_acquire_logged. unfold bind at 1.
  rewrite in_sd_read_blocks_eq by assumption.
  rewrite sd_cmd_silent by (rewrite logged_rx; exact H).
  cbn [fst is_none negb]. unfold bind. rewrite sd_release_logged.
  rewrite !logged_logged, !logged_crc_on, !logged_card. cbn [ret].
  unfold locked_run. reflexivity.
Qed.

Lemma X10_witness :
  (rx (spi ready_state) = [] /\
   anybit (m_Status (card ready_state)) (Z.lor STA_NOINIT STA_NODISK) = false /\
   (u64 (7 + 2) >? sectors (card ready_state)) = false) /\
  sd_read_blocks (repeat 0 1024) 7 2 ready_state
  = (SD_BLOCK_DEVICE_ERROR_NO_RESPONSE, repeat 0 1024,
     logged (locked_run
               (silent_events (crc_on ready_state)
                  (if 2 =? 1 then CMD17_READ_SINGLE_BLOCK
                   else CMD18_READ_MULTIPLE_BLOCK)
                  (u32 (block_addr (card_type (card ready_state)) 7)) false))
            ready_state).
Proof.
  split; [split; [reflexivity | split; reflexivity]|].
  exact (X10_sd_read_blocks_silent_card (repeat 0 1024) 7 2 ready_state
           eq_refl eq_refl eq_refl).
Defined.

(** X11.  On a line that stays high a write that passes the checks returns
    NoResponse after the unanswered attempts of the write command (for
    several blocks: after those of the pre-erase hint, whose failure is
    not looked at, the deselect pulse and those of CMD25).  No start
    token and no data are sent. *)
Theorem X11_sd_write_blocks_silent_card buffer sector count s :
  rx (spi s) = [] ->
  anybit (m_Status (card s)) (Z.lor STA_NOINIT STA_NODISK) = false ->
  (u64 (sector + count) >? sectors (card s)) = false ->
  sd_write_blocks buffer sector count s
  = (SD_BLOCK_DEVICE_ERROR_NO_RESPONSE,
     logged (locked_run
               (if count =? 1
                then silent_events (crc_on s) CMD24_WRITE_BLOCK
                       (u32 (block_addr (card_type (card s)) sector)) false
                else silent_events (crc_on s) ACMD23_SET_WR_BLK_ERASE_COUNT
                       (u32 count) true
                     ++ [EvDeselectPulse]
                     ++ silent_events (crc_on s) CMD25_WRITE_MULTIPLE_BLOCK
                          (u32 (block_addr (card_type (card s)) sector)) false)) s).
Proof.
  intros H Hst Hb. unfold sd_write_blocks. unfold bind at 1.
  rewrite sd_acquire_logged. unfold bind at 1.
  unfold in_sd_write_blocks. unfold bind at 1. unfold get_card at 1.
  rewrite !logged_card, Hb, Hst.
  destruct (count =? 1).
  - unfold bind at 1. rewrite sd_cmd_silent by (rewrite logged_rx; exact H).
    cbn [is_none negb ret]. unfold bind. rewrite sd_release_logged.
    rewrite !logged_logged, !logged_crc_on. cbn [ret].
    unfold locked_run. reflexivity.
  - unfold bind at 1. rewrite sd_cmd_silent by (rewrite logged_rx; exact H).
    unfold write_multiple. unfold bind at 1. unfold sd_spi_deselect_pulse.
    rewrite emit_logged. unfold bind at 1.
    rewrite sd_cmd_silent by (rewrite !logged_rx; exact H).
    cbn [is_none negb ret]. unfold bind. rewrite sd_release_logged.
    rewrite !logged_logged, !logged_crc_on. cbn [ret].
    unfold locked_run. rewrite <- ?app_assoc. reflexivity.
Qed.

Lemma X11_witness :
  (rx (spi ready_state) = [] /\
   anybit (m_Status (card ready_state)) (Z.lor STA_NOINIT STA_NODISK) = false /\
   (u64 (7 + 2) >? sectors (card ready_state)) = false) /\
  sd_write_blocks (repeat 0 1024) 7 2 ready_state
  = (SD_BLOCK_DEVICE_ERROR_NO_RESPONSE,
     logged (locked_run
               (if 2 =? 1
                then silent_events (crc_on ready_state) CMD24_WRITE_BLOCK
                       (u32 (block_addr (card_type (card ready_state)) 7)) false
                else silent_events (crc_on ready_state) ACMD23_SET_WR_BLK_ERASE_COUNT
                       (u32 2) true
                     ++ [EvDeselectPulse]
                     ++ silent_events (crc_on ready_state) CMD25_WRITE_MULTIPLE_BLOCK
                          (u32 (block_addr (card_type (card ready_state)) 7)) false))
            ready_state).
Proof.
  split; [split; [reflexivity | split; reflexivity]|].
  exact (X11_sd_write_blocks_silent_card (repeat 0 1024) 7 2 ready_state
           eq_refl eq_refl eq_refl).
Defined.

Lemma sd_go_idle_state_loop_silent n :
  forall r s, rx (spi s) = [] ->
    sd_go_idle_state_loop (S n) r s
    = (R1_NO_RESPONSE,
       logged (concat (repeat (silent_idle_round (crc_on s)) (S n))) s).
Proof.
  assert (Step : forall m r s, rx (spi s) = [] ->
            sd_go_idle_state_loop (S m) r s
            = sd_go_idle_state_loop m R1_NO_RESPONSE
                (logged (silent_idle_round (crc_on s)) s)).
  { intros m r s H.
    change (sd_go_idle_state_loop (S m) r s)
      with (bind (sd_cmd CMD0_GO_IDLE_STATE 0x0 false r)
                 (fun p => let (_, response') := p in
                    if R1_IDLE_STATE =? response' then ret response'
                    else
                      sd_spi_deselect ;;;
                      busy_wait_us (100 * 1000) ;;;
                      sd_spi_select ;;;
                      sd_go_idle_state_loop m response') s).
    unfold bind at 1. rewrite sd_cmd_silent by exact H.
    change (R1_IDLE_STATE =? R1_NO_RESPONSE) with false. cbv iota.
    unfold bind, sd_spi_deselect, busy_wait_us, sd_spi_select.
    rewrite !emit_logged, !logged_logged. unfold silent_idle_round.
    change (u32 0) with 0. rewrite <- ?app_assoc. reflexivity. }
  induction n as [|n IH]; intros r s H.
  - rewrite Step by exact H. cbn [sd_go_idle_state_loop ret repeat concat].
    rewrite app_nil_r. reflexivity.
  - rewrite Step by exact H. rewrite IH by (rewrite logged_rx; exact H).
    rewrite logged_logged, logged_crc_on.
    change (concat (repeat (silent_idle_round (crc_on s)) (S (S n))))
      with (silent_idle_round (crc_on s)
            ++ concat (repeat (silent_idle_round (crc_on s)) (S n))).
    reflexivity.
Qed.

(** X12.  Initialization in front of a line that stays high, from the point
    where [sd_init] holds the bus: the reset command is tried
    SD_CMD0_GO_IDLE_STATE_RETRIES = 10 times, each try with its three
    unanswered packets and followed by deselect, a wait of 100 ms and
    select; then the lock and the bus are released and the status is
    returned as it was: no later command is sent, the session is not
    touched, the clock rate is left low. *)
Theorem X12_sd_init_locked_silent_card s :
  rx (spi s) = [] ->
  sd_init_locked s
  = (m_Status (card s),
     logged ([EvLowFrequency; EvInitSequence]
             ++ concat (repeat (silent_idle_round (crc_on s))
                               SD_CMD0_GO_IDLE_STATE_RETRIES)
             ++ [EvUnlock; EvSpiRelease]) s).
Proof.
  intros H.
  assert (E : sd_init_medium s
              = (SD_BLOCK_DEVICE_ERROR_NO_DEVICE,
                 logged ([EvLowFrequency; EvInitSequence]
                         ++ concat (repeat (silent_idle_round (crc_on s))
                                           SD_CMD0_GO_IDLE_STATE_RETRIES)) s)).
  { unfold sd_init_medium, sd_spi_go_low_frequency, sd_spi_send_initializing_sequence.
    unfold bind at 1. rewrite emit_logged.
    unfold bind at 1. rewrite emit_logged.
    unfold bind at 1. unfold sd_go_idle_state.
    unfold SD_CMD0_GO_IDLE_STATE_RETRIES.
    rewrite sd_go_idle_state_loop_silent by (rewrite !logged_rx; exact H).
    change (negb (R1_NO_RESPONSE =? R1_IDLE_STATE)) with true. cbv iota.
    rewrite !logged_logged, !logged_crc_on. reflexivity. }
  unfold sd_init_locked. unfold bind at 1. rewrite E.
  cbn [is_none negb]. unfold bind. rewrite sd_release_logged.
  rewrite !logged_logged. unfold get_status. rewrite logged_card.
  rewrite <- ?app_assoc. reflexivity.
Qed.

Lemma X12_witness :
  rx (spi idle_state) = [] /\
  sd_init_locked idle_state
  = (m_Status (card idle_state),
     logged ([EvLowFrequency; EvInitSequence]
             ++ concat (repeat (silent_idle_round (crc_on idle_state))
                               SD_CMD0_GO_IDLE_STATE_RETRIES)
             ++ [EvUnlock; EvSpiRelease]) idle_state).
Proof.
  split; [reflexivity|].
  exact (X12_sd_init_locked_silent_card idle_state eq_refl).
Defined.

(** ** The liveness check *)

Lemma test_com_loop_card n cmd : preserves keeps_card (test_com_loop n cmd).
Proof. induction n; cbn [test_com_loop]; card_auto. Qed.

Lemma sd_acquire_card : preserves keeps_card sd_acquire.
Proof. unfold sd_acquire. card_auto. Qed.

Lemma sd_release_card : preserves keeps_card sd_release.
Proof. unfold sd_release. card_auto. Qed.

Lemma test_com_ready_card (m0 : Z) s0 b s3 :
  (ready <- sd_wait_ready 0 ;;
   if ready then
     success <- test_com_loop SD_COMMAND_RETRIES CMD13_SEND_STATUS ;;
     when (negb success) (set_status (Z.lor m0 STA_NOINIT)) ;;;
     ret success
   else ret true) s0 = (b, s3) ->
  card s3 = if b then card s0 else set_m_Status (Z.lor m0 STA_NOINIT) (card s0).
Proof.
  unfold bind at 1.
  pose proof (sd_wait_ready_card 0 s0) as K1. unfold keeps_card in K1.
  destruct (sd_wait_ready 0 s0) as [ready s1]. cbn [snd] in K1.
  destruct ready.
  2:{ intros H. injection H as <- <-. exact K1. }
  unfold bind at 1.
  pose proof (test_com_loop_card SD_COMMAND_RETRIES CMD13_SEND_STATUS s1) as K2.
  unfold keeps_card in K2.
  destruct (test_com_loop SD_COMMAND_RETRIES CMD13_SEND_STATUS s1)
    as [success s2]. cbn [snd] in K2.
  destruct success; cbn [negb when]; unfold bind; cbn [ret set_status fst snd];
    intros H; injection H as <- <-.
  - congruence.
  - cbn [card set_card]. congruence.
Qed.

Lemma test_com_new_card s0 :
  card (snd ((sd_spi_go_low_frequency ;;;
              sd_spi_send_initializing_sequence ;;;
              ready <- sd_wait_ready 0 ;;
              if ready
              then test_com_loop SD_COMMAND_RETRIES CMD0_GO_IDLE_STATE
              else ret false) s0)) = card s0.
Proof.
  assert (P : preserves keeps_card
                (sd_spi_go_low_frequency ;;;
                 sd_spi_send_initializing_sequence ;;;
                 ready <- sd_wait_ready 0 ;;
                 if ready
                 then test_com_loop SD_COMMAND_RETRIES CMD0_GO_IDLE_STATE
                 else ret false)).
  { unfold sd_spi_go_low_frequency, sd_spi_send_initializing_sequence.
    pose proof test_com_loop_card. card_auto. }
  apply P.
Qed.

(** X13.  [sd_spi_test_com] and the session.  On an initialized session a
    check that succeeds leaves the session as it was, and one that fails
    sets NotInitialized and nothing else.  On a session that is not
    initialized the capacity class is reset to none, whatever the result,
    and the status bits are left alone. *)
Theorem X13_sd_spi_test_com_session s :
  (anybit (m_Status (card s)) STA_NOINIT = false ->
   card (snd (sd_spi_test_com s))
   = if fst (sd_spi_test_com s) then card s
     else set_m_Status (Z.lor (m_Status (card s)) STA_NOINIT) (card s)) /\
  (anybit (m_Status (card s)) STA_NOINIT = true ->
   card (snd (sd_spi_test_com s)) = set_card_type SDCARD_NONE (card s)).
Proof.
  assert (E : sd_spi_test_com s
              = let s0 := snd (sd_acquire s) in
                let r :=
                  (if negb (anybit (m_Status (card s0)) STA_NOINIT) then
                     ready <- sd_wait_ready 0 ;;
                     if ready then
                       success <- test_com_loop SD_COMMAND_RETRIES CMD13_SEND_STATUS ;;
                       when (negb success)
                            (set_status (Z.lor (m_Status (card s0)) STA_NOINIT)) ;;;
                       ret success
                     else ret true
                   else
                     set_type SDCARD_NONE ;;;
                     sd_spi_go_low_frequency ;;;
                     sd_spi_send_initializing_sequence ;;;
                     ready <- sd_wait_ready 0 ;;
                     if ready then test_com_loop SD_COMMAND_RETRIES CMD0_GO_IDLE_STATE
                     else ret false) s0 in
                (fst r, snd (sd_release (snd r)))).
  { unfold sd_spi_test_com. rewrite bind_fst_snd. rewrite bind_fst_snd.
    rewrite bind_fst_snd. rewrite bind_fst_snd. reflexivity. }
  rewrite E. clear E.
  pose proof (sd_acquire_card s) as K0. unfold keeps_card in K0.
  remember (snd (sd_acquire s)) as s0 eqn:E0. clear E0. cbv zeta.
  rewrite K0.
  split; intros Hst; rewrite Hst; cbn [negb].
  - destruct ((ready <- sd_wait_ready 0 ;;
               if ready then
                 success <- test_com_loop SD_COMMAND_RETRIES CMD13_SEND_STATUS ;;
                 when (negb success)
                      (set_status (Z.lor (m_Status (card s)) STA_NOINIT)) ;;;
                 ret success
               else ret true) s0) as [b s3] eqn:HB.
    apply test_com_ready_card in HB. cbn [fst snd].
    rewrite sd_release_card, HB, K0. reflexivity.
  - rewrite bind_fst_snd. unfold set_type at 1. cbn [fst snd].
    rewrite sd_release_card, test_com_new_card.
    unfold set_type. cbn [snd card set_card]. rewrite K0. reflexivity.
Qed.

Lemma test_com_loop_silent n :
  forall cmd s, rx (spi s) = [] ->
    test_com_loop n cmd s
    = (false,
       logged (unanswered
                 (concat (repeat (cmdPacket (crc_on s) cmd 0
                                  ++ (if cmd =? CMD12_STOP_TRANSMISSION
                                      then [0xFF] else [])
                                  ++ repeat 0xFF 16) n))) s).
Proof.
  induction n as [|n IH]; intros cmd s H; cbn [test_com_loop repeat concat].
  - cbn. rewrite logged_nil. reflexivity.
  - unfold bind. rewrite sd_cmd_spi_silent by exact H.
    change (negb (R1_NO_RESPONSE =? 255)) with false. cbv iota.
    rewrite IH by (rewrite logged_rx; exact H).
    rewrite logged_logged, logged_crc_on, <- unanswered_app. reflexivity.
Qed.

Lemma test_com_ready_silent m0 s0 :
  rx (spi s0) = [] ->
  (ready <- sd_wait_ready 0 ;;
   if ready then
     success <- test_com_loop SD_COMMAND_RETRIES CMD13_SEND_STATUS ;;
     when (negb success) (set_status (Z.lor m0 STA_NOINIT)) ;;;
     ret success
   else ret true) s0
  = (false,
     set_card (set_m_Status (Z.lor m0 STA_NOINIT) (card s0))
       (logged (unanswered
                  ([0xFF]
                   ++ concat (repeat (cmdPacket (crc_on s0) CMD13_SEND_STATUS 0
                                      ++ repeat 0xFF 16) SD_COMMAND_RETRIES))) s0)).
Proof.
  intros H. unfold bind at 1. rewrite sd_wait_ready_silent by exact H.
  unfold bind at 1. rewrite test_com_loop_silent by (rewrite logged_rx; exact H).
  cbn [negb when]. unfold bind, set_status, ret.
  rewrite logged_logged, logged_crc_on, <- unanswered_app.
  change (CMD13_SEND_STATUS =? CMD12_STOP_TRANSMISSION) with false.
  cbn [app]. reflexivity.
Qed.

Lemma test_com_new_silent s0 :
  rx (spi s0) = [] ->
  (sd_spi_go_low_frequency ;;;
   sd_spi_send_initializing_sequence ;;;
   ready <- sd_wait_ready 0 ;;
   if ready
   then test_com_loop SD_COMMAND_RETRIES CMD0_GO_IDLE_STATE
   else ret false) s0
  = (false,
     logged ([EvLowFrequency; EvInitSequence]
             ++ unanswered
                  ([0xFF]
                   ++ concat (repeat (cmdPacket (crc_on s0) CMD0_GO_IDLE_STATE 0
                                      ++ repeat 0xFF 16) SD_COMMAND_RETRIES))) s0).
Proof.
  intros H. unfold sd_spi_go_low_frequency, sd_spi_send_initializing_sequence.
  unfold bind at 1. rewrite emit_logged.
  unfold bind at 1. rewrite emit_logged.
  unfold bind at 1. rewrite sd_wait_ready_silent by (rewrite !logged_rx; exact H).
  rewrite test_com_loop_silent by (rewrite !logged_rx; exact H).
  rewrite !logged_logged, !logged_crc_on, <- unanswered_app.
  change (CMD0_GO_IDLE_STATE =? CMD12_STOP_TRANSMISSION) with false.
  cbn [app]. reflexivity.
Qed.

Lemma sd_spi_test_com_eq s :
  sd_spi_test_com s
  = let s0 := snd (sd_acquire s) in
    let r :=
      (if negb (anybit (m_Status (card s0)) STA_NOINIT) then
         ready <- sd_wait_ready 0 ;;
         if ready then
           success <- test_com_loop SD_COMMAND_RETRIES CMD13_SEND_STATUS ;;
           when (negb success)
                (set_status (Z.lor (m_Status (card s0)) STA_NOINIT)) ;;;
           ret success
         else ret true
       else
         set_type SDCARD_NONE ;;;
         sd_spi_go_low_frequency ;;;
         sd_spi_send_initializing_sequence ;;;
         ready <- sd_wait_ready 0 ;;
         if ready then test_com_loop SD_COMMAND_RETRIES CMD0_GO_IDLE_STATE
         else ret false) s0 in
    (fst r, snd (sd_release (snd r))).
Proof.
  unfold sd_spi_test_com. rewrite bind_fst_snd. rewrite bind_fst_snd.
  rewrite bind_fst_snd. rewrite bind_fst_snd. reflexivity.
Qed.

(** X14.  The liveness check in front of a line that stays high returns false.
    The line reads ready, so the command (CMD13 on an initialized session,
    CMD0 on one that is not, after the switch to the low clock rate and
    the initializing sequence) is sent SD_COMMAND_RETRIES = 3 times, each
    packet followed by 16 polls; the lock and the bus are taken and
    released around it. *)
Theorem X14_sd_spi_test_com_silent_card s :
  rx (spi s) = [] ->
  fst (sd_spi_test_com s) = false /\
  events_since s (snd (sd_spi_test_com s))
  = locked_run
      (if anybit (m_Status (card s)) STA_NOINIT
       then [EvLowFrequency; EvInitSequence]
            ++ unanswered ([0xFF]
                           ++ concat (repeat (cmdPacket (crc_on s) CMD0_GO_IDLE_STATE 0
                                              ++ repeat 0xFF 16) SD_COMMAND_RETRIES))
       else unanswered ([0xFF]
                        ++ concat (repeat (cmdPacket (crc_on s) CMD13_SEND_STATUS 0
                                           ++ repeat 0xFF 16) SD_COMMAND_RETRIES))).
Proof.
  intros H. rewrite sd_spi_test_com_eq. cbv zeta.
  rewrite sd_acquire_logged. cbn [snd]. rewrite logged_card.
  destruct (anybit (m_Status (card s)) STA_NOINIT); cbn [negb].
  - rewrite bind_fst_snd. unfold set_type. cbn [fst snd].
    rewrite test_com_new_silent by exact H. cbn [fst snd].
    rewrite sd_release_logged. cbn [snd].
    split; [reflexivity|]. apply events_since_app.
    unfold locked_run, logged, set_spi, set_card. cbn [spi trace].
    rewrite <- ?app_assoc. reflexivity.
  - rewrite test_com_ready_silent by (rewrite logged_rx; exact H). cbn [fst snd].
    rewrite sd_release_logged. cbn [snd].
    split; [reflexivity|]. apply events_since_app.
    unfold locked_run, logged, set_spi, set_card. cbn [spi trace].
    rewrite <- ?app_assoc. reflexivity.
Qed.

Lemma X14_witness :
  rx (spi ready_state) = [] /\
  fst (sd_spi_test_com ready_state) = false /\
  events_since ready_state (snd (sd_spi_test_com ready_state))
  = locked_run
      (if anybit (m_Status (card ready_state)) STA_NOINIT
       then [EvLowFrequency; EvInitSequence]
            ++ unanswered ([0xFF]
                           ++ concat (repeat (cmdPacket (crc_on ready_state)
                                                        CMD0_GO_IDLE_STATE 0
                                              ++ repeat 0xFF 16) SD_COMMAND_RETRIES))
       else unanswered ([0xFF]
                        ++ concat (repeat (cmdPacket (crc_on ready_state)
                                                     CMD13_SEND_STATUS 0
                                           ++ repeat 0xFF 16) SD_COMMAND_RETRIES))).
Proof.
  split; [reflexivity|].
  exact (X14_sd_spi_test_com_silent_card ready_state eq_refl).
Defined.

(** ** The capacity register and the sector count *)

(** X15.  The sector count decoded from a capacity register.  Structure
    version 0: (C_SIZE + 1) * 2^(C_SIZE_MULT + 2) * 2^READ_BL_LEN / 512,
    without any wrap.  Structure version 1 with a device size below
    0x3FFFFF: (C_SIZE + 1) * 1024.  Any other structure version: 0.  In
    every case the count is below 2^32. *)
Theorem X15_csd_blocks_closed_form csd :
  (ext_bits csd 127 126 = 0 ->
   csd_blocks csd
   = ((ext_bits csd 73 62 + 1) * 2 ^ (ext_bits csd 49 47 + 2)
      * 2 ^ ext_bits csd 83 80) / 512) /\
  (ext_bits csd 127 126 = 1 -> ext_bits csd 69 48 < 0x3FFFFF ->
   csd_blocks csd = (ext_bits csd 69 48 + 1) * 1024) /\
  (1 < ext_bits csd 127 126 -> csd_blocks csd = 0) /\
  0 <= csd_blocks csd < 2 ^ 32.
Proof.
  split; [exact (csd_blocks_v0 csd)|].
  split; [intros H1 H2; exact (proj1 (proj2 (csd_blocks_v1 csd H1)) H2)|].
  split.
  { intros H. unfold csd_blocks.
    destruct (ext_bits csd 127 126 =? 0) eqn:E0; [apply Z.eqb_eq in E0; lia|].
    destruct (ext_bits csd 127 126 =? 1) eqn:E1; [apply Z.eqb_eq in E1; lia|].
    reflexivity. }
  pose proof (ext_bits_range csd 127 126) as Hs.
  change (2 ^ Z.of_nat (Z.to_nat (1 + 127 - 126))) with 4 in Hs.
  destruct (Z.eq_dec (ext_bits csd 127 126) 0) as [E0|N0].
  { rewrite (csd_blocks_v0 csd E0).
    pose proof (ext_bits_range csd 73 62) as Hc.
    pose proof (ext_bits_range csd 49 47) as Hm.
    pose proof (ext_bits_range csd 83 80) as Hr.
    change (2 ^ Z.of_nat (Z.to_nat (1 + 73 - 62))) with 4096 in Hc.
    change (2 ^ Z.of_nat (Z.to_nat (1 + 49 - 47))) with 8 in Hm.
    change (2 ^ Z.of_nat (Z.to_nat (1 + 83 - 80))) with 16 in Hr.
    assert (M : 0 < 2 ^ (ext_bits csd 49 47 + 2) <= 2 ^ 9).
    { split; [apply Z.pow_pos_nonneg; lia|].
      apply Z.pow_le_mono_r; lia. }
    assert (B : 0 < 2 ^ ext_bits csd 83 80 <= 2 ^ 15).
    { split; [apply Z.pow_pos_nonneg; lia|].
      apply Z.pow_le_mono_r; lia. }
    change (2 ^ 9) with 512 in M. change (2 ^ 15) with 32768 in B.
    remember (ext_bits csd 73 62 + 1) as a eqn:Ea.
    remember (2 ^ (ext_bits csd 49 47 + 2)) as m eqn:Em.
    remember (2 ^ ext_bits csd 83 80) as b eqn:Eb.
    assert (A : 1 <= a <= 4096) by lia.
    clear Ea Em Eb.
    assert (P1 : 0 <= a * m <= 4096 * 512) by nia.
    assert (P : 0 <= a * m * b <= 4096 * 512 * 32768) by nia.
    split; [apply Z.div_pos; lia|].
    apply Z.div_lt_upper_bound; [lia|].
    change (2 ^ 32) with 4294967296. lia. }
  destruct (Z.eq_dec (ext_bits csd 127 126) 1) as [E1|N1].
  { rewrite (proj1 (csd_blocks_v1 csd E1)). apply Z.mod_pos_bound. lia. }
  unfold csd_blocks.
  destruct (ext_bits csd 127 126 =? 0) eqn:E0; [apply Z.eqb_eq in E0; lia|].
  destruct (ext_bits csd 127 126 =? 1) eqn:E1; [apply Z.eqb_eq in E1; lia|].
  change (2 ^ 32) with 4294967296. lia.
Qed.

Lemma sd_read_bytes_card b n : preserves keeps_card (sd_read_bytes b n).
Proof.
  unfold sd_read_bytes.
  assert (H : forall k, preserves keeps_card (read_bytes_loop k)).
  { induction k; cbn [read_bytes_loop]; card_auto. }
  card_auto.
Qed.

(** What [in_sd_spi_sectors] leaves: only the capacity register of the
    session can have changed, and a result other than 0 is the count
    decoded from the register now stored. *)
Lemma in_sd_spi_sectors_run s n s' :
  in_sd_spi_sectors s = (n, s') ->
  card_type (card s') = card_type (card s) /\
  m_Status (card s') = m_Status (card s) /\
  sectors (card s') = sectors (card s) /\
  cid (card s') = cid (card s) /\
  (n <> 0 -> n = csd_blocks (csd (card s'))).
Proof.
  unfold in_sd_spi_sectors. unfold bind at 1.
  pose proof (sd_cmd_card CMD9_SEND_CSD 0 false 0 ltac:(discriminate) s) as K1.
  unfold keeps_card in K1.
  destruct (sd_cmd CMD9_SEND_CSD 0 false 0 s) as [[st z] s1]. cbn [snd] in K1.
  destruct (is_none st); cbn [negb].
  2:{ intros H. injection H as <- <-. rewrite K1. repeat split; auto. congruence. }
  unfold bind at 1. unfold get_card at 1. unfold bind at 1.
  pose proof (sd_read_bytes_card (csd (card s1)) 16 s1) as K2. unfold keeps_card in K2.
  destruct (sd_read_bytes (csd (card s1)) 16 s1) as [[st2 csd'] s2]. cbn [snd] in K2.
  unfold bind, put_card.
  destruct (is_none st2); cbn [negb ret]; intros H; injection H as <- <-;
    cbn [card set_card set_csd card_type m_Status sectors cid csd];
    rewrite K1; repeat split; auto; congruence.
Qed.

(** X16.  [sd_spi_sectors] decodes the sector count but does not store it: the
    capacity class, the status bits, the sector count and the
    identification register of the session are what they were; only the
    stored capacity register can have changed.  A result other than 0 is
    the count decoded from the register now stored. *)
Theorem X16_sd_spi_sectors_session s :
  card_type (card (snd (sd_spi_sectors s))) = card_type (card s) /\
  m_Status (card (snd (sd_spi_sectors s))) = m_Status (card s) /\
  sectors (card (snd (sd_spi_sectors s))) = sectors (card s) /\
  cid (card (snd (sd_spi_sectors s))) = cid (card s) /\
  (fst (sd_spi_sectors s) <> 0 ->
   fst (sd_spi_sectors s) = csd_blocks (csd (card (snd (sd_spi_sectors s))))).
Proof.
  assert (E : sd_spi_sectors s
              = (fst (in_sd_spi_sectors (snd (sd_acquire s))),
                 snd (sd_release (snd (in_sd_spi_sectors (snd (sd_acquire s))))))).
  { unfold sd_spi_sectors. rewrite !bind_fst_snd. reflexivity. }
  rewrite E. cbn [fst snd]. clear E.
  pose proof (sd_acquire_card s) as K0. unfold keeps_card in K0.
  destruct (in_sd_spi_sectors (snd (sd_acquire s))) as [n s1] eqn:R.
  destruct (in_sd_spi_sectors_run _ _ _ R) as (H1 & H2 & H3 & H4 & H5).
  cbn [fst snd]. rewrite sd_release_card. rewrite K0 in *.
  repeat split; assumption.
Qed.

(** ** What initialization leaves in the session *)

Lemma sd_init_locked_run s r s' :
  sd_init_locked s = (r, s') ->
  r = m_Status (card s') /\
  (m_Status (card s') = m_Status (card s) \/
   (m_Status (card s') = Z.land (m_Status (card s)) (Z.lnot STA_NOINIT) /\
    fst (sd_init_medium s) = SD_BLOCK_DEVICE_ERROR_NONE /\
    sectors (card s') <> 0 /\
    sectors (card s') = csd_blocks (csd (card s')))).
Proof.
  unfold sd_init_locked. unfold bind at 1.
  pose proof (sd_init_medium_status s) as K0. unfold keeps_status in K0.
  destruct (sd_init_medium s) as [err s1]. cbn [snd fst] in *.
  assert (REL : forall s2 r s',
             (sd_release ;;; get_status) s2 = (r, s') ->
             r = m_Status (card s') /\ card s' = card s2).
  { intros s2 r0 s0. unfold bind, get_status.
    pose proof (sd_release_card s2) as K. unfold keeps_card in K.
    destruct (sd_release s2) as [[] s3]. cbn [snd] in K.
    intros H. injection H as <- <-. auto. }
  destruct (is_none err) eqn:E0; cbn [negb].
  2:{ intros H. apply REL in H. destruct H as [H1 H2].
      split; [exact H1|]. left. congruence. }
  apply is_none_iff in E0. subst err.
  unfold bind at 1.
  destruct (in_sd_spi_sectors s1) as [n s2] eqn:R.
  destruct (in_sd_spi_sectors_run _ _ _ R) as (_ & H2 & _ & _ & H5).
  unfold bind at 1.
  destruct (0 =? n) eqn:En.
  { intros H. apply REL in H. destruct H as [H1 H3].
    split; [exact H1|]. left. rewrite H3. cbn [card set_card set_sectors m_Status].
    congruence. }
  apply Z.eqb_neq in En.
  unfold bind at 1.
  match goal with |- context [sd_cmd CMD10_SEND_CID 0 false 0 ?s3] =>
    pose proof (sd_cmd_card CMD10_SEND_CID 0 false 0 ltac:(discriminate) s3) as K3;
    unfold keeps_card in K3;
    destruct (sd_cmd CMD10_SEND_CID 0 false 0 s3) as [[st z] s4]
  end.
  cbn [snd card set_card] in K3.
  destruct (is_none st); cbn [negb].
  2:{ intros H. apply REL in H. destruct H as [H1 H3].
      split; [exact H1|]. left. rewrite H3, K3. cbn [set_sectors m_Status].
      congruence. }
  unfold bind at 1. unfold get_card at 1. unfold bind at 1.
  pose proof (sd_read_bytes_card (cid (card s4)) 16 s4) as K4. unfold keeps_card in K4.
  destruct (sd_read_bytes (cid (card s4)) 16 s4) as [[st2 cid'] s5]. cbn [snd] in K4.
  unfold bind at 1.
  destruct (is_none st2); cbn [negb].
  2:{ intros H. apply REL in H. destruct H as [H1 H3].
      split; [exact H1|]. left. rewrite H3. cbn [card set_card set_cid m_Status].
      rewrite K4, K3. cbn [set_sectors m_Status]. congruence. }
  unfold bind at 1.
  match goal with |- context [sd_cmd CMD16_SET_BLOCKLEN _block_size false 0 ?s6] =>
    pose proof (sd_cmd_card CMD16_SET_BLOCKLEN _block_size false 0
                  ltac:(discriminate) s6) as K6;
    unfold keeps_card in K6;
    destruct (sd_cmd CMD16_SET_BLOCKLEN _block_size false 0 s6) as [[st3 z3] s7]
  end.
  cbn [snd card set_card] in K6.
  destruct (is_none st3); cbn [negb].
  2:{ intros H. apply REL in H. destruct H as [H1 H3].
      split; [exact H1|]. left. rewrite H3, K6. cbn [set_cid m_Status].
      rewrite K4, K3. cbn [set_sectors m_Status]. congruence. }
  unfold sd_spi_deselect, sd_spi_go_high_frequency.
  unfold bind at 1. rewrite emit_logged. unfold bind at 1. rewrite emit_logged.
  unfold bind at 1. unfold get_card at 1. unfold bind at 1. unfold set_status at 1.
  intros H. apply REL in H. destruct H as [H1 H3].
  split; [exact H1|]. right. rewrite H3.
  cbn [card set_card set_m_Status m_Status sectors csd]. rewrite !logged_card.
  rewrite K6. cbn [set_cid m_Status sectors csd]. rewrite K4, K3.
  cbn [set_sectors m_Status sectors csd].
  split; [congruence|]. split; [reflexivity|]. split; [lia|].
  apply H5. lia.
Qed.

(** X17.  [sd_init] from the point where it holds the bus.  The value returned
    is the status byte the session is left with.  That byte is the one
    found, or the one found with NotInitialized cleared; it is cleared
    only on a run in which [sd_init_medium] returned no error, and then
    the sector count stored in the session is not 0 and is the count
    decoded from the capacity register stored with it. *)
Theorem X17_sd_init_locked_session s :
  fst (sd_init_locked s) = m_Status (card (snd (sd_init_locked s))) /\
  (m_Status (card (snd (sd_init_locked s))) = m_Status (card s) \/
   (m_Status (card (snd (sd_init_locked s)))
    = Z.land (m_Status (card s)) (Z.lnot STA_NOINIT) /\
    fst (sd_init_medium s) = SD_BLOCK_DEVICE_ERROR_NONE /\
    sectors (card (snd (sd_init_locked s))) <> 0 /\
    sectors (card (snd (sd_init_locked s)))
    = csd_blocks (csd (card (snd (sd_init_locked s)))))).
Proof.
  destruct (sd_init_locked s) as [r s'] eqn:E.
  exact (sd_init_locked_run s r s' E).
Qed.

(** ** A data block the card accepts *)

Lemma sd_spi_transfer_start_tx out len s :
  exists data moved,
    sd_spi_transfer_start (Some out) len s
    = (data, snd (sd_spi_transfer_start (Some out) len s)) /\
    trace (spi (snd (sd_spi_transfer_start (Some out) len s)))
      = trace (spi s) ++ [EvDmaTx (firstn moved out)] /\
    crc_on (snd (sd_spi_transfer_start (Some out) len s)) = crc_on s /\
    clock (spi (snd (sd_spi_transfer_start (Some out) len s))) = clock (spi s) /\
    (dma_pending (spi (snd (sd_spi_transfer_start (Some out) len s))) = true ->
     moved = len).
Proof.
  unfold sd_spi_transfer_start.
  destruct (take_rx (Nat.min (hd len (dma (spi s))) len) (rx (spi s)))
    as [data rest] eqn:E.
  exists data, (Nat.min (hd len (dma (spi s))) len). cbn [fst snd spi set_spi trace crc_on clock dma_pending].
  repeat split; auto.
  intros H. apply Nat.leb_le in H. lia.
Qed.

Lemma sd_write_block_run buffer token len s st s' :
  sd_write_block buffer token len s = (st, s') ->
  st = SD_BLOCK_DEVICE_ERROR_NONE ->
  exists r0 r1 r2 resp n last,
    trace (spi s')
    = trace (spi s)
      ++ [EvXfer (u8 token) r0; EvDmaTx (firstn len buffer); EvDmaWait true;
          EvXfer (u8 (Z.shiftr (if crc_on s then u16 (crc16 (firstn len buffer))
                                else 0xFFFF) 8)) r1;
          EvXfer (u8 (if crc_on s then u16 (crc16 (firstn len buffer))
                      else 0xFFFF)) r2;
          EvXfer 0xFF resp]
      ++ repeat (EvXfer 0xFF 0) n ++ [EvXfer 0xFF last] /\
    Z.land resp SPI_DATA_RESPONSE_MASK = SPI_DATA_ACCEPTED /\
    last <> 0.
Proof.
  unfold sd_write_block. unfold bind at 1. rewrite sd_spi_write_run.
  remember (u8 (hd SPI_FILL_CHAR (rx (spi s)))) as r0 eqn:E0. clear E0.
  match goal with |- context [set_spi ?b s] => remember (set_spi b s) as s1 eqn:E1 end.
  assert (T1 : trace (spi s1) = trace (spi s) ++ [EvXfer (u8 token) r0])
    by (rewrite E1; reflexivity).
  assert (C1 : crc_on s1 = crc_on s) by (rewrite E1; reflexivity).
  clear E1.
  unfold bind at 1.
  destruct (sd_spi_transfer_start_tx buffer len s1) as (data & moved & Q & T2 & C2 & _ & P2).
  rewrite Q. remember (snd (sd_spi_transfer_start (Some buffer) len s1)) as s2 eqn:E2.
  clear E2 Q.
  unfold bind at 1. unfold get_crc_on at 1. rewrite C2, C1.
  remember (if crc_on s then u16 (crc16 (firstn len buffer)) else 0xFFFF) as crc eqn:Ec.
  clear Ec.
  unfold bind at 1. unfold sd_spi_transfer_wait_complete at 1.
  destruct (dma_pending (spi s2)) eqn:Ok; cbn [negb].
  2:{ cbn [ret]. intros H K. injection H as H _. congruence. }
  specialize (P2 eq_refl). subst moved.
  remember (set_spi (log (EvDmaWait true) (spi s2)) s2) as s3 eqn:E3.
  assert (T3 : trace (spi s3) = trace (spi s2) ++ [EvDmaWait true])
    by (rewrite E3; reflexivity).
  assert (K3 : clock (spi s3) = clock (spi s2)) by (rewrite E3; reflexivity).
  clear E3.
  unfold bind at 1. rewrite sd_spi_write_run.
  remember (u8 (hd SPI_FILL_CHAR (rx (spi s3)))) as r1 eqn:E. clear E.
  match goal with |- context [set_spi ?b s3] => remember (set_spi b s3) as s4 eqn:E4 end.
  assert (T4 : trace (spi s4) = trace (spi s3) ++ [EvXfer (u8 (Z.shiftr crc 8)) r1])
    by (rewrite E4; reflexivity).
  clear E4.
  unfold bind at 1. rewrite sd_spi_write_run.
  remember (u8 (hd SPI_FILL_CHAR (rx (spi s4)))) as r2 eqn:E. clear E.
  match goal with |- context [set_spi ?b s4] => remember (set_spi b s4) as s5 eqn:E5 end.
  assert (T5 : trace (spi s5) = trace (spi s4) ++ [EvXfer (u8 crc) r2])
    by (rewrite E5; reflexivity).
  clear E5.
  unfold bind at 1. rewrite sd_spi_write_run.
  remember (u8 (hd SPI_FILL_CHAR (rx (spi s5)))) as resp eqn:E. clear E.
  match goal with |- context [set_spi ?b s5] => remember (set_spi b s5) as s6 eqn:E6 end.
  assert (T6 : trace (spi s6) = trace (spi s5) ++ [EvXfer 0xFF resp])
    by (rewrite E6; reflexivity).
  clear E6.
  destruct (Z.land resp SPI_DATA_RESPONSE_MASK =? SPI_DATA_ACCEPTED) eqn:Acc;
    cbn [negb].
  2:{ cbn [ret]. intros H K. injection H as H _. congruence. }
  apply Z.eqb_eq in Acc.
  unfold bind. unfold sd_wait_ready.
  destruct (sd_wait_ready_loop_polls (length (clock (spi s6))) SD_COMMAND_TIMEOUT s6
              (le_n _)) as (n & last & T7 & F7 & R7 & _).
  destruct (sd_wait_ready_loop (length (clock (spi s6))) SD_COMMAND_TIMEOUT s6)
    as [rr s7]. cbn [fst snd] in T7, F7. subst rr.
  destruct (0 <? last) eqn:L; cbn [negb ret]; intros H K; injection H as H <-;
    [|congruence].
  apply Z.ltb_lt in L.
  exists r0, r1, r2, resp, n, last.
  split; [|split; [exact Acc | lia]].
  rewrite T7, T6, T5, T4, T3, T2, T1. rewrite <- !app_assoc. reflexivity.
Qed.

(** X18.  A data block written without error.  [sd_write_block] sent the
    token, the [len] bytes of the buffer in one DMA transfer that
    completed, the two bytes of the CRC-16 of those bytes (0xFFFF with CRC
    checking off), and read a response token whose low five bits are
    0b00101; then it polled the card until it answered a byte other than
    0x00. *)
Theorem X18_sd_write_block_accepted :
  forall (buffer : list Z) (token : Z) (len : nat) (s : state),
    fst (sd_write_block buffer token len s) = SD_BLOCK_DEVICE_ERROR_NONE ->
    exists r0 r1 r2 resp n last,
      events_since s (snd (sd_write_block buffer token len s))
      = [EvXfer (u8 token) r0; EvDmaTx (firstn len buffer); EvDmaWait true;
         EvXfer (u8 (Z.shiftr (if crc_on s then u16 (crc16 (firstn len buffer))
                               else 0xFFFF) 8)) r1;
         EvXfer (u8 (if crc_on s then u16 (crc16 (firstn len buffer))
                     else 0xFFFF)) r2;
         EvXfer 0xFF resp]
        ++ repeat (EvXfer 0xFF 0) n ++ [EvXfer 0xFF last] /\
      Z.land resp SPI_DATA_RESPONSE_MASK = SPI_DATA_ACCEPTED /\
      last <> 0.
Proof.
  intros buffer token len s H.
  destruct (sd_write_block buffer token len s) as [st s'] eqn:E. cbn [fst snd] in *.
  destruct (sd_write_block_run _ _ _ _ _ _ E H)
    as (r0 & r1 & r2 & resp & n & last & T & A & L).
  exists r0, r1, r2, resp, n, last.
  split; [apply events_since_app; exact T | split; assumption].
Qed.

Lemma X18_witness :
  fst (sd_write_block (repeat 0xAB 512) SPI_START_BLOCK 512 block_accepted_state)
    = SD_BLOCK_DEVICE_ERROR_NONE /\
  exists r0 r1 r2 resp n last,
    events_since block_accepted_state
      (snd (sd_write_block (repeat 0xAB 512) SPI_START_BLOCK 512 block_accepted_state))
    = [EvXfer (u8 SPI_START_BLOCK) r0; EvDmaTx (firstn 512 (repeat 0xAB 512));
       EvDmaWait true;
       EvXfer (u8 (Z.shiftr (if crc_on block_accepted_state
                             then u16 (crc16 (firstn 512 (repeat 0xAB 512)))
                             else 0xFFFF) 8)) r1;
       EvXfer (u8 (if crc_on block_accepted_state
                   then u16 (crc16 (firstn 512 (repeat 0xAB 512)))
                   else 0xFFFF)) r2;
       EvXfer 0xFF resp]
      ++ repeat (EvXfer 0xFF 0) n ++ [EvXfer 0xFF last] /\
    Z.land resp SPI_DATA_RESPONSE_MASK = SPI_DATA_ACCEPTED /\
    last <> 0.
Proof.
  assert (H : fst (sd_write_block (repeat 0xAB 512) SPI_START_BLOCK 512
                     block_accepted_state) = SD_BLOCK_DEVICE_ERROR_NONE)
    by (vm_compute; reflexivity).
  split; [exact H|].
  exact (X18_sd_write_block_accepted (repeat 0xAB 512) SPI_START_BLOCK 512
           block_accepted_state H).
Defined.

(** ** Requests for zero blocks *)

(** X19.  A read of zero blocks that passes the checks, with CRC checking off,
    sends the multiple-block read command CMD18.  When the card accepts
    it, nothing else happens on the bus: no block is received and no
    stop-transmission command is sent (only byte exchanges follow the
    command hook).  The destination is left as it was and the status is
    no error.  (With CRC checking on, the code goes on to check a block
    through the null [prev_buffer_addr].) *)
Theorem X19_in_sd_read_blocks_zero_count :
  forall (buffer : list Z) (sector : Z) (s : state),
    crc_on s = false ->
    anybit (m_Status (card s)) (Z.lor STA_NOINIT STA_NODISK) = false ->
    (u64 (sector + 0) >? sectors (card s)) = false ->
    fst (fst (sd_cmd CMD18_READ_MULTIPLE_BLOCK
                (block_addr (card_type (card s)) sector) false 0 s))
      = SD_BLOCK_DEVICE_ERROR_NONE ->
    fst (in_sd_read_blocks buffer sector 0 s) = (SD_BLOCK_DEVICE_ERROR_NONE, buffer) /\
    exists tail,
      events_since s (snd (in_sd_read_blocks buffer sector 0 s))
      = EvCmd CMD18_READ_MULTIPLE_BLOCK
              (u32 (block_addr (card_type (card s)) sector)) false :: tail /\
      Forall xfer_ev tail.
Proof.
  intros buffer sector s Hoff Hst Hb Hcmd.
  rewrite (in_sd_read_blocks_eq buffer sector 0 s Hst Hb).
  change (0 =? 1) with false. cbv iota.
  destruct (sd_cmd_shape CMD18_READ_MULTIPLE_BLOCK
              (block_addr (card_type (card s)) sector) 0 s ltac:(discriminate))
    as (C1 & t1 & T1 & F1).
  destruct (sd_cmd CMD18_READ_MULTIPLE_BLOCK _ false 0 s) as [p0 s1].
  cbn [fst snd] in *. rewrite Hcmd. cbn [is_none negb].
  change (Z.to_nat 0) with 0%nat. cbn [read_blocks_loop ret].
  change (0 >? 1) with false. cbn [when ret fst snd is_none].
  rewrite C1, Hoff. cbn [chk_crc16 negb fst snd].
  split; [reflexivity|].
  exists t1. split; [apply events_since_app; exact T1 | exact F1].
Qed.

Lemma X19_witness :
  (crc_on cmd_accepted_crc_off_state = false /\
   anybit (m_Status (card cmd_accepted_crc_off_state)) (Z.lor STA_NOINIT STA_NODISK)
     = false /\
   (u64 (7 + 0) >? sectors (card cmd_accepted_crc_off_state)) = false /\
   fst (fst (sd_cmd CMD18_READ_MULTIPLE_BLOCK
               (block_addr (card_type (card cmd_accepted_crc_off_state)) 7) false 0
               cmd_accepted_crc_off_state))
     = SD_BLOCK_DEVICE_ERROR_NONE) /\
  fst (in_sd_read_blocks (repeat 0 512) 7 0 cmd_accepted_crc_off_state)
    = (SD_BLOCK_DEVICE_ERROR_NONE, repeat 0 512) /\
  exists tail,
    events_since cmd_accepted_crc_off_state
      (snd (in_sd_read_blocks (repeat 0 512) 7 0 cmd_accepted_crc_off_state))
    = EvCmd CMD18_READ_MULTIPLE_BLOCK
            (u32 (block_addr (card_type (card cmd_accepted_crc_off_state)) 7)) false
      :: tail /\
    Forall xfer_ev tail.
Proof.
  assert (H0 : crc_on cmd_accepted_crc_off_state = false) by reflexivity.
  assert (H1 : anybit (m_Status (card cmd_accepted_crc_off_state))
                      (Z.lor STA_NOINIT STA_NODISK) = false) by reflexivity.
  assert (H2 : (u64 (7 + 0) >? sectors (card cmd_accepted_crc_off_state)) = false)
    by reflexivity.
  assert (H3 : fst (fst (sd_cmd CMD18_READ_MULTIPLE_BLOCK
                           (block_addr (card_type (card cmd_accepted_crc_off_state)) 7)
                           false 0 cmd_accepted_crc_off_state))
               = SD_BLOCK_DEVICE_ERROR_NONE) by (vm_compute; reflexivity).
  split; [split; [exact H0 | split; [exact H1 | split; [exact H2 | exact H3]]]|].
  exact (X19_in_sd_read_blocks_zero_count (repeat 0 512) 7 cmd_accepted_crc_off_state
           H0 H1 H2 H3).
Defined.

Lemma sd_write_block_starts buffer token len s :
  exists r moved rest,
    trace (spi (snd (sd_write_block buffer token len s)))
    = trace (spi s) ++ EvXfer (u8 token) r :: EvDmaTx (firstn moved buffer) :: rest.
Proof.
  unfold sd_write_block. rewrite bind_fst_snd. rewrite sd_spi_write_run.
  cbn [fst snd].
  remember (u8 (hd SPI_FILL_CHAR (rx (spi s)))) as r0 eqn:E0. clear E0.
  match goal with |- context [set_spi ?b s] => remember (set_spi b s) as s1 eqn:E1 end.
  assert (T1 : trace (spi s1) = trace (spi s) ++ [EvXfer (u8 token) r0])
    by (rewrite E1; reflexivity).
  clear E1.
  rewrite bind_fst_snd.
  destruct (sd_spi_transfer_start_tx buffer len s1) as (data & moved & _ & T2 & _).
  remember (snd (sd_spi_transfer_start (Some buffer) len s1)) as s2 eqn:E2.
  remember (fst (sd_spi_transfer_start (Some buffer) len s1)) as d2 eqn:D2.
  clear E2 D2.
  match goal with |- context [snd (?m s2)] =>
    assert (Hio : preserves (io (ev_ok [])) m) by io_auto;
    destruct (Hio s2) as (_ & _ & _ & _ & e3 & T3 & _)
  end.
  exists r0, moved, e3. rewrite T3, T2, T1. rewrite <- !app_assoc. reflexivity.
Qed.

Lemma bind_trace_after {A B} P (m : M A) (k : A -> M B) s :
  (forall a, preserves (io P) (k a)) ->
  exists rest,
    trace (spi (snd (bind m k s))) = trace (spi (snd (m s))) ++ rest.
Proof.
  intros Hk. unfold bind. destruct (m s) as [a s1]. cbn [snd].
  destruct (Hk a s1) as (_ & _ & _ & _ & e & T & _). exists e. exact T.
Qed.

Lemma in_sd_write_blocks_zero_trace :
  forall (buffer : list Z) (sector : Z) (s s1 : state) (hint : sd_error * Z),
    (u64 (sector + 0) >? sectors (card s)) = false ->
    anybit (m_Status (card s)) (Z.lor STA_NOINIT STA_NODISK) = false ->
    sd_cmd ACMD23_SET_WR_BLK_ERASE_COUNT 0 true 0 s = (hint, s1) ->
    fst (fst (sd_cmd CMD25_WRITE_MULTIPLE_BLOCK
                (block_addr (card_type (card s)) sector) false 0
                (snd (sd_spi_deselect_pulse s1))))
      = SD_BLOCK_DEVICE_ERROR_NONE ->
    exists pre r moved rest,
      trace (spi (snd (in_sd_write_blocks buffer sector 0 s)))
      = trace (spi s) ++ pre ++ EvXfer SPI_START_BLK_MUL_WRITE r
            :: EvDmaTx (firstn moved buffer) :: rest.
Proof.
  intros buffer sector s s1 hint Hb Hst Hh Hcmd.
  rewrite (in_sd_write_blocks_multi buffer sector 0 s s1 hint Hb Hst
             ltac:(discriminate) Hh).
  pose proof (preserves_run _ _ _ _ _
                (sd_cmd_io [ACMD23_SET_WR_BLK_ERASE_COUNT] _ 0 true 0
                           (or_introl eq_refl)) Hh) as Hio.
  destruct (io_events _ _ _ Hio) as [T0 _].
  unfold write_multiple. rewrite bind_fst_snd.
  remember (snd (sd_spi_deselect_pulse s1)) as s2 eqn:E2.
  assert (T2 : trace (spi s2) = trace (spi s1) ++ [EvDeselectPulse])
    by (rewrite E2; reflexivity).
  clear E2.
  rewrite bind_fst_snd.
  pose proof (sd_cmd_io write_cmds CMD25_WRITE_MULTIPLE_BLOCK
                (block_addr (card_type (card s)) sector) false 0
                ltac:(unfold write_cmds; cbn [In]; auto) s2) as Hio3.
  destruct (io_events _ _ _ Hio3) as [T3 _].
  destruct (sd_cmd CMD25_WRITE_MULTIPLE_BLOCK _ false 0 s2) as [[st z] s3].
  cbn [fst snd] in *. subst st. cbn [is_none negb].
  change (0 =? 0) with true. cbv iota.
  destruct (Z.to_nat (2 ^ 32)) as [|m] eqn:En; [lia|].
  destruct (bind_trace_after (ev_ok write_cmds)
              (write_blocks_loop (S m) buffer 0)
              (fun _ => _ <- sd_spi_write SPI_STOP_TRAN ;; write_check_status) s3)
    as (rest6 & T6).
  { intros a. unfold write_check_status, write_cmds. io_auto. }
  rewrite T6. clear T6.
  cbn [write_blocks_loop].
  destruct (bind_trace_after (ev_ok write_cmds)
              (sd_write_block (skipn 0 buffer) SPI_START_BLK_MUL_WRITE
                              (Z.to_nat _block_size))
              (fun status =>
                 match m with
                 | O => ret status
                 | S _ =>
                     if is_none status
                     then write_blocks_loop m buffer (0 + Z.to_nat _block_size)
                     else ret status
                 end) s3)
    as (rest5 & T5).
  { intros a. destruct m; [io_auto|]. destruct (is_none a); io_auto. }
  rewrite T5. clear T5.
  destruct (sd_write_block_starts (skipn 0 buffer) SPI_START_BLK_MUL_WRITE
              (Z.to_nat _block_size) s3) as (r & moved & rest & T4).
  cbn [skipn] in T4 |- *. rewrite T4, T3, T2, T0.
  exists (events_since s s1 ++ [EvDeselectPulse] ++ events_since s2 s3), r, moved,
         (rest ++ rest5 ++ rest6).
  rewrite <- !app_assoc. cbn [app]. reflexivity.
Qed.

(** X20.  A write of zero blocks that passes the checks takes the
    multiple-block branch: the do-while loop sends one block before it
    tests the count.  When the card accepts CMD25, the start token 0xFC
    and a DMA transfer out of the caller's buffer follow. *)
Theorem X20_in_sd_write_blocks_zero_count :
  forall (buffer : list Z) (sector : Z) (s s1 : state) (hint : sd_error * Z),
    (u64 (sector + 0) >? sectors (card s)) = false ->
    anybit (m_Status (card s)) (Z.lor STA_NOINIT STA_NODISK) = false ->
    sd_cmd ACMD23_SET_WR_BLK_ERASE_COUNT 0 true 0 s = (hint, s1) ->
    fst (fst (sd_cmd CMD25_WRITE_MULTIPLE_BLOCK
                (block_addr (card_type (card s)) sector) false 0
                (snd (sd_spi_deselect_pulse s1))))
      = SD_BLOCK_DEVICE_ERROR_NONE ->
    exists pre r moved rest,
      events_since s (snd (in_sd_write_blocks buffer sector 0 s))
      = pre ++ EvXfer SPI_START_BLK_MUL_WRITE r
            :: EvDmaTx (firstn moved buffer) :: rest.
Proof.
  intros buffer sector s s1 hint Hb Hst Hh Hcmd.
  destruct (in_sd_write_blocks_zero_trace buffer sector s s1 hint Hb Hst Hh Hcmd)
    as (pre & r & moved & rest & T).
  exists pre, r, moved, rest. apply events_since_app. exact T.
Qed.

Lemma X20_witness :
  ((u64 (7 + 0) >? sectors (card write_multi_rejected_state)) = false /\
   anybit (m_Status (card write_multi_rejected_state))
          (Z.lor STA_NOINIT STA_NODISK) = false /\
   fst (fst (sd_cmd CMD25_WRITE_MULTIPLE_BLOCK
               (block_addr (card_type (card write_multi_rejected_state)) 7) false 0
               (snd (sd_spi_deselect_pulse
                       (snd (sd_cmd ACMD23_SET_WR_BLK_ERASE_COUNT 0 true 0
                               write_multi_rejected_state))))))
     = SD_BLOCK_DEVICE_ERROR_NONE) /\
  exists pre r moved rest,
    events_since write_multi_rejected_state
      (snd (in_sd_write_blocks (repeat 0xAB 512) 7 0 write_multi_rejected_state))
    = pre ++ EvXfer SPI_START_BLK_MUL_WRITE r
          :: EvDmaTx (firstn moved (repeat 0xAB 512)) :: rest.
Proof.
  assert (H1 : (u64 (7 + 0) >? sectors (card write_multi_rejected_state)) = false)
    by reflexivity.
  assert (H2 : anybit (m_Status (card write_multi_rejected_state))
                      (Z.lor STA_NOINIT STA_NODISK) = false) by reflexivity.
  assert (H3 : fst (fst (sd_cmd CMD25_WRITE_MULTIPLE_BLOCK
                           (block_addr (card_type (card write_multi_rejected_state)) 7)
                           false 0
                           (snd (sd_spi_deselect_pulse
                                   (snd (sd_cmd ACMD23_SET_WR_BLK_ERASE_COUNT 0 true 0
                                           write_multi_rejected_state))))))
               = SD_BLOCK_DEVICE_ERROR_NONE) by (vm_compute; reflexivity).
  split; [split; [exact H1 | split; [exact H2 | exact H3]]|].
  exact (X20_in_sd_write_blocks_zero_count (repeat 0xAB 512) 7
           write_multi_rejected_state _ _ H1 H2
           (surjective_pairing
              (sd_cmd ACMD23_SET_WR_BLK_ERASE_COUNT 0 true 0 write_multi_rejected_state))
           H3).
Defined.

(** ** The reset command *)

Lemma steps_app a b : steps (a ++ b) = steps a ++ steps b.
Proof. apply filter_app. Qed.

Lemma steps_xfer tail : Forall xfer_ev tail -> steps tail = [].
Proof.
  induction 1 as [|e l He _ IH]; [reflexivity|].
  destruct e; try contradiction. cbn. exact IH.
Qed.

Lemma sd_go_idle_state_loop_eq n r s :
  sd_go_idle_state_loop (S n) r s
  = let (p, s1) := sd_cmd CMD0_GO_IDLE_STATE 0x0 false r s in
    if R1_IDLE_STATE =? snd p then (snd p, s1)
    else sd_go_idle_state_loop n (snd p)
           (logged [EvDeselect; EvBusyWait (100 * 1000); EvSelect] s1).
Proof.
  cbn [sd_go_idle_state_loop]. unfold bind at 1.
  destruct (sd_cmd CMD0_GO_IDLE_STATE 0 false r s) as [[st response'] s1].
  cbn [snd]. destruct (R1_IDLE_STATE =? response'); [reflexivity|].
  unfold sd_spi_deselect, busy_wait_us, sd_spi_select, bind.
  rewrite !emit_logged, !logged_logged. reflexivity.
Qed.

Lemma sd_go_idle_state_loop_steps n :
  forall r s,
    r <> R1_IDLE_STATE ->
    exists k,
      (k <= n)%nat /\
      steps (events_since s (snd (sd_go_idle_state_loop n r s)))
      = concat (repeat idle_round k)
        ++ (if fst (sd_go_idle_state_loop n r s) =? R1_IDLE_STATE
            then [EvCmd CMD0_GO_IDLE_STATE 0 false] else []) /\
      trace (spi (snd (sd_go_idle_state_loop n r s)))
      = trace (spi s) ++ events_since s (snd (sd_go_idle_state_loop n r s)) /\
      (fst (sd_go_idle_state_loop n r s) <> R1_IDLE_STATE -> k = n) /\
      (fst (sd_go_idle_state_loop n r s) = R1_IDLE_STATE -> (k < n)%nat) /\
      card (snd (sd_go_idle_state_loop n r s)) = card s.
Proof.
  induction n as [|n IH]; intros r s Hr.
  - exists 0%nat. cbn [sd_go_idle_state_loop ret fst snd].
    apply Z.eqb_neq in Hr. rewrite Hr. apply Z.eqb_neq in Hr.
    unfold events_since. rewrite skipn_all. rewrite !app_nil_r.
    split; [lia|]. split; [reflexivity|]. split; [reflexivity|].
    split; [reflexivity|]. split; [intros K; contradiction | reflexivity].
  - rewrite sd_go_idle_state_loop_eq.
    destruct (sd_cmd_shape CMD0_GO_IDLE_STATE 0 r s ltac:(discriminate))
      as (_ & t1 & T1 & F1).
    pose proof (sd_cmd_card CMD0_GO_IDLE_STATE 0 false r ltac:(discriminate) s) as K1.
    unfold keeps_card in K1.
    destruct (sd_cmd CMD0_GO_IDLE_STATE 0 false r s) as [[st response'] s1].
    cbn [snd] in T1, K1 |- *. change (u32 0) with 0 in T1.
    destruct (R1_IDLE_STATE =? response') eqn:E.
    + apply Z.eqb_eq in E. subst response'. exists 0%nat.
      cbn [ret fst snd]. change (R1_IDLE_STATE =? R1_IDLE_STATE) with true. cbv iota.
      rewrite (events_since_app s s1 _ T1).
      split; [lia|]. split.
      { cbn [repeat concat app]. change (steps (EvCmd CMD0_GO_IDLE_STATE 0 false :: t1))
          with (EvCmd CMD0_GO_IDLE_STATE 0 false :: steps t1).
        rewrite (steps_xfer _ F1). reflexivity. }
      split; [exact T1|]. split; [intros K; contradiction|]. split; [lia | exact K1].
    + apply Z.eqb_neq in E.
      remember (logged [EvDeselect; EvBusyWait (100 * 1000); EvSelect] s1) as s2 eqn:E2.
      assert (T2 : trace (spi s2)
                   = trace (spi s1) ++ [EvDeselect; EvBusyWait (100 * 1000); EvSelect])
        by (rewrite E2; reflexivity).
      assert (K2 : card s2 = card s1) by (rewrite E2; reflexivity).
      clear E2.
      destruct (IH response' s2 ltac:(congruence)) as (k & Hk & Hs & Ht & H1 & H2 & H3).
      exists (S k).
      remember (sd_go_idle_state_loop n response' s2) as R eqn:ER. clear ER.
      assert (Tall : trace (spi (snd R))
                     = trace (spi s)
                       ++ (EvCmd CMD0_GO_IDLE_STATE 0 false :: t1)
                       ++ [EvDeselect; EvBusyWait (100 * 1000); EvSelect]
                       ++ events_since s2 (snd R)).
      { rewrite Ht, T2, T1. rewrite <- !app_assoc. reflexivity. }
      rewrite (events_since_app s (snd R) _ Tall).
      split; [lia|]. split.
      { rewrite !steps_app, Hs.
        change (steps (EvCmd CMD0_GO_IDLE_STATE 0 false :: t1))
          with (EvCmd CMD0_GO_IDLE_STATE 0 false :: steps t1).
        rewrite (steps_xfer _ F1). cbn [repeat concat].
        unfold idle_round at 1. cbn [steps filter is_xfer negb app].
        reflexivity. }
      split; [exact Tall|].
      split; [intros K; rewrite (H1 K); reflexivity|].
      split; [intros K; specialize (H2 K); lia|]. congruence.
Qed.

(** X21.  [sd_go_idle_state] sends the reset command at most
    SD_CMD0_GO_IDLE_STATE_RETRIES = 10 times.  Every failed attempt is
    followed by deselect, a wait of 100 ms and select.  When the result is
    0x01 fewer than ten attempts failed and the run ends with one more
    attempt, which nothing but byte exchanges follows; when it is not, all
    ten attempts were made and failed.  The session is not touched. *)
Theorem X21_sd_go_idle_state_attempts s :
  exists k,
    (k <= SD_CMD0_GO_IDLE_STATE_RETRIES)%nat /\
    steps (events_since s (snd (sd_go_idle_state s)))
    = concat (repeat idle_round k)
      ++ (if fst (sd_go_idle_state s) =? R1_IDLE_STATE
          then [EvCmd CMD0_GO_IDLE_STATE 0 false] else []) /\
    (fst (sd_go_idle_state s) <> R1_IDLE_STATE -> k = SD_CMD0_GO_IDLE_STATE_RETRIES) /\
    (fst (sd_go_idle_state s) = R1_IDLE_STATE ->
     (k < SD_CMD0_GO_IDLE_STATE_RETRIES)%nat) /\
    card (snd (sd_go_idle_state s)) = card s.
Proof.
  unfold sd_go_idle_state.
  destruct (sd_go_idle_state_loop_steps SD_CMD0_GO_IDLE_STATE_RETRIES
              R1_NO_RESPONSE s ltac:(discriminate))
    as (k & H1 & H2 & _ & H3 & H4 & H5).
  exists k. repeat split; assumption.
Qed.

(** ** The capacity class after [sd_init_medium] *)

Lemma crc_enable_loop_card n : preserves keeps_card (crc_enable_loop n).
Proof.
  assert (H : forall r, preserves keeps_card (sd_cmd CMD59_CRC_ON_OFF 1 false r))
    by (intros; apply sd_cmd_card; discriminate).
  induction n; cbn [crc_enable_loop]; card_auto.
Qed.

Lemma acmd41_loop_card fuel :
  forall arg r, preserves keeps_card (acmd41_loop fuel arg r).
Proof.
  assert (H : forall arg r,
             preserves keeps_card (sd_cmd ACMD41_SD_SEND_OP_COND arg true r))
    by (intros; apply sd_cmd_card; discriminate).
  induction fuel; intros; cbn [acmd41_loop]; card_auto.
Qed.

Lemma sd_init_medium_resolve_type status response s r s' :
  sd_init_medium_resolve status response s = (r, s') ->
  r = SD_BLOCK_DEVICE_ERROR_NONE ->
  if is_v2 (card_type (card s))
  then card_type (card s') = SDCARD_V2 \/ card_type (card s') = SDCARD_V2HC \/
       card_type (card s') = CARD_UNKNOWN
  else card_type (card s') = SDCARD_V1 \/ card_type (card s') = CARD_UNKNOWN.
Proof.
  unfold sd_init_medium_resolve.
  destruct (negb (is_none status) || negb (0 =? response)).
  { unfold bind, set_type, ret. intros H _. injection H as _ <-.
    cbn [card set_card set_card_type card_type].
    destruct (is_v2 _); auto. }
  unfold bind at 1. unfold get_card at 1.
  assert (Last : forall st (s2 : state) r s',
             (on <- get_crc_on ;;
              if negb on then
                '(status, _) <- sd_cmd CMD59_CRC_ON_OFF 0 false 0 ;; ret status
              else ret st) s2 = (r, s') -> card s' = card s2).
  { intros st s2 r0 s0. unfold bind at 1. unfold get_crc_on at 1.
    destruct (negb (crc_on s2)).
    - unfold bind.
      pose proof (sd_cmd_card CMD59_CRC_ON_OFF 0 false 0 ltac:(discriminate) s2) as K.
      unfold keeps_card in K.
      destruct (sd_cmd CMD59_CRC_ON_OFF 0 false 0 s2) as [[st' z] s3].
      intros H. injection H as _ <-. exact K.
    - intros H. injection H as _ <-. reflexivity. }
  unfold bind at 1.
  destruct (is_v2 (card_type (card s))) eqn:V.
  - unfold bind at 1.
    pose proof (sd_cmd_card CMD58_READ_OCR 0 false response ltac:(discriminate) s) as K.
    unfold keeps_card in K.
    destruct (sd_cmd CMD58_READ_OCR 0 false response s) as [[st z] s1].
    cbn [snd] in K. unfold bind at 1.
    destruct (is_none st && anybit z OCR_HCS_CCS); cbn [when].
    + unfold set_type at 1. intros H _. apply Last in H. rewrite H.
      cbn [card set_card set_card_type card_type]. auto.
    + cbn [ret]. intros H _. apply Last in H. rewrite H, K.
      destruct (card_type (card s)); try discriminate V. auto.
  - unfold bind at 1. unfold set_type at 1.
    intros H _. apply Last in H. rewrite H.
    cbn [card set_card set_card_type card_type]. auto.
Qed.

Lemma sd_init_medium_run s :
  fst (sd_init_medium s) = SD_BLOCK_DEVICE_ERROR_NONE ->
  (fst (sd_cmd8 (snd (sd_go_idle_state
                        (snd (sd_spi_send_initializing_sequence
                                (snd (sd_spi_go_low_frequency s)))))))
   = SD_BLOCK_DEVICE_ERROR_NONE /\
   (card_type (card (snd (sd_init_medium s))) = SDCARD_V2 \/
    card_type (card (snd (sd_init_medium s))) = SDCARD_V2HC \/
    card_type (card (snd (sd_init_medium s))) = CARD_UNKNOWN)) \/
  (fst (sd_cmd8 (snd (sd_go_idle_state
                        (snd (sd_spi_send_initializing_sequence
                                (snd (sd_spi_go_low_frequency s)))))))
   = SD_BLOCK_DEVICE_ERROR_UNSUPPORTED /\
   (card_type (card (snd (sd_init_medium s))) = SDCARD_V1 \/
    card_type (card (snd (sd_init_medium s))) = CARD_UNKNOWN)).
Proof.
  assert (E : sd_init_medium s
              = let s2 := snd (sd_go_idle_state
                                 (snd (sd_spi_send_initializing_sequence
                                         (snd (sd_spi_go_low_frequency s))))) in
                let idle := fst (sd_go_idle_state
                                   (snd (sd_spi_send_initializing_sequence
                                           (snd (sd_spi_go_low_frequency s))))) in
                if negb (idle =? R1_IDLE_STATE)
                then (SD_BLOCK_DEVICE_ERROR_NO_DEVICE, s2)
                else
                  let (status, s3) := sd_cmd8 s2 in
                  if negb (is_none status) && negb (is_unsupported status)
                  then (status, s3)
                  else
                    let (_, s4) := (if crc_on s3
                                    then _ <- crc_enable_loop 3 ;; ret tt
                                    else ret tt) s3 in
                    let (p, s5) := sd_cmd CMD58_READ_OCR 0x0 false 0 s4 in
                    if negb (is_none (fst p)) then (fst p, s5)
                    else if negb (anybit (snd p) OCR_3_3V)
                    then (SD_BLOCK_DEVICE_ERROR_UNUSABLE,
                          set_card (set_card_type CARD_UNKNOWN (card s5)) s5)
                    else
                      let (q, s6) :=
                        sd_init_medium_poll
                          (if is_v2 (card_type (card s5))
                           then Z.lor 0x0 OCR_HCS_CCS else 0x0) (snd p) s5 in
                      sd_init_medium_resolve (fst q) (snd q) s6).
  { unfold sd_init_medium. rewrite bind_fst_snd. rewrite bind_fst_snd.
    rewrite bind_fst_snd. cbv zeta.
    destruct (negb (_ =? R1_IDLE_STATE)); [reflexivity|].
    unfold bind at 1. destruct (sd_cmd8 _) as [status s3].
    destruct (negb (is_none status) && negb (is_unsupported status)); [reflexivity|].
    unfold bind at 1. unfold get_crc_on at 1. unfold bind at 1.
    destruct ((if crc_on s3 then _ <- crc_enable_loop 3 ;; ret tt else ret tt) s3)
      as [[] s4].
    unfold bind at 1.
    destruct (sd_cmd CMD58_READ_OCR 0 false 0 s4) as [[st z] s5]. cbn [fst snd].
    destruct (negb (is_none st)); [reflexivity|].
    destruct (negb (anybit z OCR_3_3V)); [reflexivity|].
    unfold bind at 1. unfold get_card at 1. unfold bind at 1.
    destruct (sd_init_medium_poll _ z s5) as [[st6 r6] s6]. reflexivity. }
  rewrite E. clear E. cbv zeta.
  remember (snd (sd_go_idle_state
                   (snd (sd_spi_send_initializing_sequence
                           (snd (sd_spi_go_low_frequency s)))))) as s2 eqn:E2.
  clear E2.
  destruct (negb (_ =? R1_IDLE_STATE)); [cbn [fst]; discriminate|].
  destruct (sd_cmd8_run s2) as (P1 & P2 & P3 & _).
  destruct (sd_cmd8 s2) as [status s3]. cbn [fst snd] in *.
  destruct (negb (is_none status) && negb (is_unsupported status)) eqn:G.
  { cbn [fst]. intros K. subst status. discriminate G. }
  assert (K4 : forall s3', card (snd ((if crc_on s3'
                                       then _ <- crc_enable_loop 3 ;; ret tt
                                       else ret tt) s3')) = card s3').
  { intros s3'. destruct (crc_on s3'); [|reflexivity].
    assert (P : preserves keeps_card (_ <- crc_enable_loop 3 ;; ret tt)).
    { pose proof crc_enable_loop_card. card_auto. }
    apply P. }
  specialize (K4 s3).
  destruct ((if crc_on s3 then _ <- crc_enable_loop 3 ;; ret tt else ret tt) s3)
    as [[] s4]. cbn [snd] in K4.
  pose proof (sd_cmd_card CMD58_READ_OCR 0 false 0 ltac:(discriminate) s4) as K5.
  unfold keeps_card in K5.
  destruct (sd_cmd CMD58_READ_OCR 0 false 0 s4) as [p s5]. cbn [snd] in K5.
  destruct (negb (is_none (fst p))) eqn:G5.
  { cbn [fst]. intros K. rewrite K in G5. discriminate G5. }
  destruct (negb (anybit (snd p) OCR_3_3V)); [cbn [fst]; discriminate|].
  pose proof (acmd41_loop_card (length (clock (spi s5)))
                (if is_v2 (card_type (card s5)) then Z.lor 0x0 OCR_HCS_CCS else 0x0)
                (snd p) s5) as K6.
  unfold keeps_card in K6. unfold sd_init_medium_poll.
  destruct (acmd41_loop _ _ (snd p) s5) as [q s6]. cbn [snd] in K6.
  destruct (sd_init_medium_resolve (fst q) (snd q) s6) as [r s7] eqn:R.
  cbn [fst snd]. intros K.
  pose proof (sd_init_medium_resolve_type _ _ _ _ _ R K) as T.
  assert (Ty : card_type (card s6) = card_type (card s3)) by congruence.
  rewrite Ty in T.
  destruct status; try discriminate G.
  - left. split; [reflexivity|]. rewrite (proj1 (P1 eq_refl)) in T. exact T.
  - right. split; [reflexivity|]. rewrite (P2 eq_refl) in T. exact T.
Qed.

(** X22.  A run of [sd_init_medium] that returns no error.  Either CMD8 was
    accepted with a matching echo and the card is left tagged V2, V2HC or
    unknown; or CMD8 was rejected as unsupported and the card is left
    tagged V1 or unknown.  The tag is never left at none. *)
Theorem X22_sd_init_medium_card_type :
  forall s : state,
    fst (sd_init_medium s) = SD_BLOCK_DEVICE_ERROR_NONE ->
    (fst (sd_cmd8 (snd (sd_go_idle_state
                          (snd (sd_spi_send_initializing_sequence
                                  (snd (sd_spi_go_low_frequency s)))))))
     = SD_BLOCK_DEVICE_ERROR_NONE /\
     (card_type (card (snd (sd_init_medium s))) = SDCARD_V2 \/
      card_type (card (snd (sd_init_medium s))) = SDCARD_V2HC \/
      card_type (card (snd (sd_init_medium s))) = CARD_UNKNOWN)) \/
    (fst (sd_cmd8 (snd (sd_go_idle_state
                          (snd (sd_spi_send_initializing_sequence
                                  (snd (sd_spi_go_low_frequency s)))))))
     = SD_BLOCK_DEVICE_ERROR_UNSUPPORTED /\
     (card_type (card (snd (sd_init_medium s))) = SDCARD_V1 \/
      card_type (card (snd (sd_init_medium s))) = CARD_UNKNOWN)).
Proof. exact sd_init_medium_run. Qed.

Lemma X22_witness :
  fst (sd_init_medium poll_timeout_state) = SD_BLOCK_DEVICE_ERROR_NONE /\
  ((fst (sd_cmd8 (snd (sd_go_idle_state
                         (snd (sd_spi_send_initializing_sequence
                                 (snd (sd_spi_go_low_frequency poll_timeout_state)))))))
    = SD_BLOCK_DEVICE_ERROR_NONE /\
    (card_type (card (snd (sd_init_medium poll_timeout_state))) = SDCARD_V2 \/
     card_type (card (snd (sd_init_medium poll_timeout_state))) = SDCARD_V2HC \/
     card_type (card (snd (sd_init_medium poll_timeout_state))) = CARD_UNKNOWN)) \/
   (fst (sd_cmd8 (snd (sd_go_idle_state
                         (snd (sd_spi_send_initializing_sequence
                                 (snd (sd_spi_go_low_frequency poll_timeout_state)))))))
    = SD_BLOCK_DEVICE_ERROR_UNSUPPORTED /\
    (card_type (card (snd (sd_init_medium poll_timeout_state))) = SDCARD_V1 \/
     card_type (card (snd (sd_init_medium poll_timeout_state))) = CARD_UNKNOWN))).
Proof.
  assert (H : fst (sd_init_medium poll_timeout_state) = SD_BLOCK_DEVICE_ERROR_NONE)
    by (vm_compute; reflexivity).
  split; [exact H|].
  exact (X22_sd_init_medium_card_type poll_timeout_state H).
Defined.

(** ** The CRC of data blocks *)

(** A 16-bit CRC sent high byte first and rebuilt the way the read path
    rebuilds it passes the check against the same data. *)
Lemma crc16_bytes_rebuilt (data : list Z) :
  chk_crc16 true data
    (Z.lor (u16 (Z.shiftl (u8 (Z.shiftr (u16 (crc16 data)) 8)) 8))
           (u8 (u16 (crc16 data)))) = true.
Proof.
  unfold chk_crc16.
  assert (Hr : 0 <= u16 (crc16 data) < 65536).
  { unfold u16. apply Z.mod_pos_bound. lia. }
  remember (u16 (crc16 data)) as crc eqn:E. clear E.
  assert (Hhi : 0 <= crc / 256 < Z.of_nat 256).
  { split; [apply Z.div_pos; lia | apply Z.div_lt_upper_bound; lia]. }
  assert (Hlo : 0 <= crc mod 256 < Z.of_nat 256) by (apply Z.mod_pos_bound; lia).
  pose proof (forall_below
    (fun hi => forallb
                 (fun lo => hi * 256 + lo
                            =? Z.lor (u16 (Z.shiftl (u8 (Z.shiftr (hi * 256 + lo) 8)) 8))
                                     (u8 (hi * 256 + lo)))
                 (map Z.of_nat (seq 0 256)))
    256 ltac:(vm_compute; reflexivity) (crc / 256) Hhi) as H.
  cbv beta in H.
  pose proof (forall_below _ 256 H (crc mod 256) Hlo) as H2. cbv beta in H2.
  rewrite Z.mul_comm, <- Z.div_mod in H2 by lia. exact H2.
Qed.


Lemma map_u8_bytes l : bytes l = true -> map u8 l = l.
Proof.
  unfold bytes. induction l as [|x l IH]; [reflexivity|].
  cbn [forallb map]. intros H. apply andb_prop in H. destruct H as [Hx Hl].
  apply andb_prop in Hx. destruct Hx as [H0 H1].
  apply Z.leb_le in H0. apply Z.ltb_lt in H1.
  rewrite (IH Hl). unfold u8. rewrite Z.mod_small by lia. reflexivity.
Qed.

Lemma bytes_firstn n l : bytes l = true -> bytes (firstn n l) = true.
Proof.
  unfold bytes. revert l. induction n as [|n IH]; intros l H; [reflexivity|].
  destruct l as [|x l]; [reflexivity|].
  cbn [firstn forallb] in *. apply andb_prop in H. destruct H as [Hx Hl].
  rewrite Hx, (IH l Hl). reflexivity.
Qed.

(** The byte loop of [sd_read_bytes] on a line that carries [data]. *)
Lemma read_bytes_loop_rx data :
  forall rest s,
    rx (spi s) = data ++ rest ->
    fst (read_bytes_loop (length data) s) = map u8 data /\
    rx (spi (snd (read_bytes_loop (length data) s))) = rest /\
    crc_on (snd (read_bytes_loop (length data) s)) = crc_on s.
Proof.
  induction data as [|b data IH]; intros rest s H; cbn [length read_bytes_loop].
  - cbn. auto.
  - unfold bind. rewrite sd_spi_write_run. rewrite H. cbn [app hd tl].
    match goal with |- context [read_bytes_loop (length data) ?s1] =>
      destruct (IH rest s1) as (H1 & H2 & H3); [reflexivity|];
      destruct (read_bytes_loop (length data) s1) as [got s2]
    end.
    cbn [fst snd ret map] in *. rewrite H1, H2, H3. auto.
Qed.

(** [sd_read_bytes] in front of a card that sends the start token, [data]
    and two CRC bytes. *)
Lemma sd_read_bytes_of_rx dest data hi lo s :
  rx (spi s) = SPI_START_BLOCK :: data ++ [hi; lo] ->
  fst (sd_read_bytes dest (length data) s)
  = (if chk_crc16 (crc_on s) (map u8 data) (Z.lor (u16 (Z.shiftl (u8 hi) 8)) (u8 lo))
     then SD_BLOCK_DEVICE_ERROR_NONE else SD_BLOCK_DEVICE_ERROR_CRC,
     map u8 data ++ skipn (length data) dest).
Proof.
  intros H. unfold sd_read_bytes. unfold bind at 1.
  assert (Htok : exists s1,
             sd_wait_token SPI_START_BLOCK s = (true, s1) /\
             rx (spi s1) = data ++ [hi; lo] /\ crc_on s1 = crc_on s).
  { unfold sd_wait_token.
    destruct (length (clock (spi s))); cbn [sd_wait_token_loop]; unfold bind;
      rewrite sd_spi_write_run, H; cbn [hd tl];
      change (SPI_START_BLOCK =? u8 SPI_START_BLOCK) with true; cbv iota;
      eexists; (split; [reflexivity|]); split; reflexivity. }
  destruct Htok as (s1 & -> & R1 & C1). cbn [negb].
  unfold bind at 1.
  destruct (read_bytes_loop_rx data [hi; lo] s1 R1) as (D & R2 & C2).
  destruct (read_bytes_loop (length data) s1) as [got s2]. cbn [fst snd] in D, R2, C2.
  subst got.
  unfold read_crc16, bind. rewrite sd_spi_write_run, R2. cbn [hd tl].
  rewrite sd_spi_write_run. unfold ret, get_crc_on.
  cbn [fst snd spi set_spi rx hd tl crc_on].
  rewrite C2, C1.
  destruct (chk_crc16 _ _ _); reflexivity.
Qed.

(** X23.  A block that [sd_write_block] wrote without error, sent back by a
    card behind the start token 0xFE as it went out on the line (the
    [len] data bytes, then the two CRC bytes in the order they were
    sent), is read by [sd_read_bytes] without error, and the destination
    receives the data that were written.  The data CRC is sent and
    rebuilt in the same byte order, with CRC checking on or off alike on
    both sides. *)
Theorem X23_written_block_reads_back :
  forall (buffer dest : list Z) (token : Z) (len : nat) (s s' : state),
    fst (sd_write_block buffer token len s) = SD_BLOCK_DEVICE_ERROR_NONE ->
    (len <= length buffer)%nat ->
    bytes buffer = true ->
    crc_on s' = crc_on s ->
    rx (spi s')
    = SPI_START_BLOCK
      :: block_sent len (events_since s (snd (sd_write_block buffer token len s))) ->
    fst (sd_read_bytes dest len s')
    = (SD_BLOCK_DEVICE_ERROR_NONE, firstn len buffer ++ skipn len dest).
Proof.
  intros buffer dest token len s s' Hw Hlen Hb Hc Hrx.
  destruct (sd_write_block buffer token len s) as [st s1] eqn:E. cbn [fst snd] in *.
  destruct (sd_write_block_run _ _ _ _ _ _ E Hw)
    as (r0 & r1 & r2 & resp & n & last & T & _ & _).
  rewrite (events_since_app _ _ _ T) in Hrx.
  assert (HL : length (firstn len buffer) = len)
    by (rewrite length_firstn; lia).
  remember (if crc_on s then u16 (crc16 (firstn len buffer)) else 0xFFFF) as crc eqn:Ecrc.
  unfold block_sent in Hrx. cbn [app wire_out tl] in Hrx.
  rewrite firstn_app, HL in Hrx.
  rewrite firstn_all2 in Hrx by lia.
  replace (len + 2 - len)%nat with 2%nat in Hrx by lia.
  cbn [firstn] in Hrx.
  pose proof (sd_read_bytes_of_rx dest (firstn len buffer) _ _ s' Hrx) as R.
  rewrite HL in R. rewrite R.
  rewrite (map_u8_bytes _ (bytes_firstn len buffer Hb)).
  rewrite !u8_u8, Hc.
  assert (Hchk : chk_crc16 (crc_on s) (firstn len buffer)
                   (Z.lor (u16 (Z.shiftl (u8 (Z.shiftr crc 8)) 8)) (u8 crc)) = true).
  { subst crc. destruct (crc_on s); [apply crc16_bytes_rebuilt | reflexivity]. }
  rewrite Hchk. reflexivity.
Qed.

Lemma X23_witness :
  (fst (sd_write_block (repeat 0xAB 512) SPI_START_BLOCK 512 block_accepted_state)
     = SD_BLOCK_DEVICE_ERROR_NONE /\
   (512 <= length (repeat 0xAB 512))%nat /\
   bytes (repeat 0xAB 512) = true /\
   crc_on loopback_state = crc_on block_accepted_state /\
   rx (spi loopback_state)
   = SPI_START_BLOCK
     :: block_sent 512
          (events_since block_accepted_state
             (snd (sd_write_block (repeat 0xAB 512) SPI_START_BLOCK 512
                     block_accepted_state)))) /\
  fst (sd_read_bytes (repeat 0 512) 512 loopback_state)
  = (SD_BLOCK_DEVICE_ERROR_NONE, firstn 512 (repeat 0xAB 512) ++ skipn 512 (repeat 0 512)).
Proof.
  assert (H1 : fst (sd_write_block (repeat 0xAB 512) SPI_START_BLOCK 512
                      block_accepted_state) = SD_BLOCK_DEVICE_ERROR_NONE)
    by (vm_compute; reflexivity).
  assert (H2 : (512 <= length (repeat 0xAB 512))%nat)
    by (apply Nat.leb_le; vm_compute; reflexivity).
  assert (H3 : bytes (repeat 0xAB 512) = true) by (vm_compute; reflexivity).
  assert (H4 : crc_on loopback_state = crc_on block_accepted_state) by reflexivity.
  assert (H5 : rx (spi loopback_state)
               = SPI_START_BLOCK
                 :: block_sent 512
                      (events_since block_accepted_state
                         (snd (sd_write_block (repeat 0xAB 512) SPI_START_BLOCK 512
                                 block_accepted_state)))) by reflexivity.
  split; [split; [exact H1 | split; [exact H2 | split; [exact H3 | split;
          [exact H4 | exact H5]]]]|].
  exact (X23_written_block_reads_back (repeat 0xAB 512) (repeat 0 512) SPI_START_BLOCK 512
           block_accepted_state loopback_state H1 H2 H3 H4 H5).
Defined.

Lemma read_blocks_loop_crc_off n :
  forall buffer off prev s,
    crc_on s = false ->
    fst (fst (fst (read_blocks_loop n buffer off prev s)))
      <> SD_BLOCK_DEVICE_ERROR_CRC.
Proof.
  induction n as [|n IH]; intros buffer off prev s Hoff; cbn [read_blocks_loop].
  - cbn. discriminate.
  - unfold bind at 1.
    pose proof (sd_wait_token_io [] SPI_START_BLOCK s) as (C1 & _).
    destruct (sd_wait_token SPI_START_BLOCK s) as [tok s1]. cbn [snd] in C1.
    destruct tok; cbn [negb]; [|cbn; discriminate].
    unfold bind at 1.
    pose proof (sd_spi_transfer_start_io [] None (Z.to_nat _block_size) s1) as (C2 & _).
    destruct (sd_spi_transfer_start None (Z.to_nat _block_size) s1) as [data s2].
    cbn [snd] in C2.
    unfold bind at 1. unfold get_crc_on at 1.
    assert (Hoff2 : crc_on s2 = false) by congruence. rewrite Hoff2.
    unfold chk_crc16. 
    unfold bind at 1. unfold sd_spi_transfer_wait_complete at 1.
    destruct (dma_pending (spi s2)); cbn [negb]; [|cbn; discriminate].
    unfold bind at 1.
    pose proof (read_crc16_io [] (set_spi (log (EvDmaWait true) (spi s2)) s2)) as (C3 & _).
    destruct (read_crc16 _) as [crc s3]. cbn [snd] in C3.
    assert (Hoff3 : crc_on s3 = false) by (rewrite C3; exact Hoff2).
    destruct prev as [[poff pcrc]|]; cbn [negb is_none]; apply IH; exact Hoff3.
Qed.

(** X24.  With CRC checking off the CRC bytes of received data are not looked
    at: [sd_read_bytes] never returns Crc, and [in_sd_read_blocks] returns
    Crc only as the status of its read command (the CRC bit of R1). *)
Theorem X24_crc_off_no_data_crc_error :
  forall (buffer : list Z) (sector count : Z) (len : nat) (s : state),
    crc_on s = false ->
    fst (fst (sd_read_bytes buffer len s)) <> SD_BLOCK_DEVICE_ERROR_CRC /\
    (fst (fst (in_sd_read_blocks buffer sector count s)) = SD_BLOCK_DEVICE_ERROR_CRC ->
     fst (fst (sd_cmd (if count =? 1 then CMD17_READ_SINGLE_BLOCK
                       else CMD18_READ_MULTIPLE_BLOCK)
                      (block_addr (card_type (card s)) sector) false 0 s))
     = SD_BLOCK_DEVICE_ERROR_CRC).
Proof.
  intros buffer sector count len s Hoff. split.
  - destruct (sd_read_bytes_run buffer len s) as (st & buf & s' & E & [[H1 H2] | H]);
      rewrite E; cbn [fst].
    + rewrite H1. discriminate.
    + destruct H as (pre & data & hi & lo & _ & _ & _ & _ & H). rewrite H, Hoff.
      cbn. discriminate.
  - destruct (anybit (m_Status (card s)) (Z.lor STA_NOINIT STA_NODISK)) eqn:Hst.
    { unfold in_sd_read_blocks. unfold bind at 1. unfold get_card at 1.
      rewrite Hst. cbn. discriminate. }
    destruct (u64 (sector + count) >? sectors (card s)) eqn:Hb.
    { unfold in_sd_read_blocks. unfold bind at 1. unfold get_card at 1.
      rewrite Hst, Hb. cbn. discriminate. }
    rewrite (in_sd_read_blocks_eq buffer sector count s Hst Hb).
    remember (if count =? 1 then CMD17_READ_SINGLE_BLOCK
              else CMD18_READ_MULTIPLE_BLOCK) as cmd eqn:Ecmd.
    assert (H8 : cmd <> CMD8_SEND_IF_COND)
      by (rewrite Ecmd; destruct (count =? 1); discriminate).
    destruct (sd_cmd_shape cmd (block_addr (card_type (card s)) sector) 0 s H8)
      as (C1 & _).
    destruct (sd_cmd cmd _ false 0 s) as [p0 s1]. cbn [fst snd] in *.
    destruct (is_none (fst p0)) eqn:E0; cbn [negb]; [|cbn [fst]; auto].
    pose proof (read_blocks_loop_crc_off (Z.to_nat count) buffer 0 None s1
                  ltac:(congruence)) as NC.
    pose proof (read_blocks_loop_io [] (Z.to_nat count) buffer 0%nat None s1) as (C2 & _).
    destruct (read_blocks_loop (Z.to_nat count) buffer 0 None s1) as [r1 s2].
    cbn [fst snd] in *.
    destruct (stop_when_shape count s2) as (E_stop & _ & C3 & _).
    destruct (when (count >? 1) _ s2) as [[] s3]. cbn [fst snd] in *.
    assert (Hoff3 : crc_on s3 = false) by congruence.
    rewrite Hoff3. unfold chk_crc16. cbn [negb].
    destruct (is_none (fst (fst r1))); cbn [fst]; intros K; contradiction.
Qed.

Lemma X24_witness :
  crc_on crc_off_state = false /\
  fst (fst (sd_read_bytes (repeat 0 16) 16 crc_off_state)) <> SD_BLOCK_DEVICE_ERROR_CRC /\
  (fst (fst (in_sd_read_blocks (repeat 0 512) 7 1 crc_off_state))
   = SD_BLOCK_DEVICE_ERROR_CRC ->
   fst (fst (sd_cmd (if 1 =? 1 then CMD17_READ_SINGLE_BLOCK
                     else CMD18_READ_MULTIPLE_BLOCK)
                    (block_addr (card_type (card crc_off_state)) 7) false 0
                    crc_off_state))
   = SD_BLOCK_DEVICE_ERROR_CRC).
Proof.
  split; [reflexivity|].
  exact (X24_crc_off_no_data_crc_error (repeat 0 512) 7 1 16 crc_off_state eq_refl).
Defined.

(** ** The blocks a multi-block write sends *)

Lemma sent_app a b : sent (a ++ b) = sent a ++ sent b.
Proof.
  induction a as [|e a IH]; [reflexivity|].
  destruct e; cbn [app sent]; rewrite ?IH; reflexivity.
Qed.

Lemma sent_polls n last rest :
  sent (repeat (EvXfer 0xFF 0) n ++ EvXfer 0xFF last :: rest) = sent rest.
Proof. induction n; cbn [repeat app sent]; auto. Qed.

Lemma tokens_polls n last rest :
  tokens (repeat (EvXfer 0xFF 0) n ++ EvXfer 0xFF last :: rest) = tokens rest.
Proof. induction n; cbn [repeat app tokens]; auto. Qed.

Lemma write_blocks_loop_sends n :
  forall buffer off s,
    (1 <= n)%nat ->
    fst (write_blocks_loop n buffer off s) = SD_BLOCK_DEVICE_ERROR_NONE ->
    trace (spi (snd (write_blocks_loop n buffer off s)))
    = trace (spi s) ++ events_since s (snd (write_blocks_loop n buffer off s)) /\
    sent (events_since s (snd (write_blocks_loop n buffer off s)))
    = blocks_from buffer off n /\
    length (tokens (events_since s (snd (write_blocks_loop n buffer off s)))) = n /\
    Forall (fun resp => Z.land resp SPI_DATA_RESPONSE_MASK = SPI_DATA_ACCEPTED)
           (tokens (events_since s (snd (write_blocks_loop n buffer off s)))).
Proof.
  induction n as [|n IH]; intros buffer off s Hn; [lia|].
  cbn [write_blocks_loop blocks_from]. unfold bind.
  destruct (sd_write_block (skipn off buffer) SPI_START_BLK_MUL_WRITE
              (Z.to_nat _block_size) s) as [st s1] eqn:E.
  destruct n as [|n'].
  - cbn [ret fst snd]. intros K.
    destruct (sd_write_block_run _ _ _ _ _ _ E K)
      as (r0 & r1 & r2 & resp & k & last & T & A & L).
    rewrite (events_since_app s s1 _ T).
    split; [exact T|]. cbn [app sent tokens blocks_from].
    rewrite sent_polls, tokens_polls. cbn [tokens length].
    split; [reflexivity|]. split; [reflexivity|]. constructor; [exact A | constructor].
  - destruct (is_none st) eqn:N.
    2:{ cbn [ret fst]. intros K. rewrite K in N. discriminate N. }
    apply is_none_iff in N. intros K.
    destruct (sd_write_block_run _ _ _ _ _ _ E N)
      as (r0 & r1 & r2 & resp & k & last & T & A & L).
    destruct (IH buffer (off + Z.to_nat _block_size)%nat s1 ltac:(lia) K)
      as (T2 & S2 & L2 & F2).
    remember (snd (write_blocks_loop (S n') buffer (off + Z.to_nat _block_size) s1))
      as s2 eqn:E2. clear E2.
    assert (Tall : trace (spi s2)
                   = trace (spi s)
                     ++ ([EvXfer (u8 SPI_START_BLK_MUL_WRITE) r0;
                          EvDmaTx (firstn (Z.to_nat _block_size) (skipn off buffer));
                          EvDmaWait true;
                          EvXfer (u8 (Z.shiftr (if crc_on s
                                                then u16 (crc16 (firstn (Z.to_nat _block_size)
                                                                        (skipn off buffer)))
                                                else 65535) 8)) r1;
                          EvXfer (u8 (if crc_on s
                                      then u16 (crc16 (firstn (Z.to_nat _block_size)
                                                              (skipn off buffer)))
                                      else 65535)) r2;
                          EvXfer 255 resp]
                         ++ repeat (EvXfer 255 0) k ++ [EvXfer 255 last])
                     ++ events_since s1 s2).
    { rewrite T2, T. rewrite <- !app_assoc. reflexivity. }
    rewrite (events_since_app s s2 _ Tall).
    split; [exact Tall|].
    rewrite <- !app_assoc. cbn [app sent tokens].
    rewrite sent_polls, tokens_polls. cbn [length].
    split; [rewrite S2; reflexivity|]. split; [rewrite L2; reflexivity|].
    constructor; assumption.
Qed.

(** X25.  The do-while loop of the multi-block write returns no error only
    after it has sent all [n] blocks: the DMA transfers towards the card
    carry, in order, the consecutive 512-byte blocks of the buffer, each
    one complete, and each block was answered with a response token whose
    low five bits are 0b00101. *)
Theorem X25_write_blocks_loop_all_sent :
  forall (n : nat) (buffer : list Z) (off : nat) (s : state),
    (1 <= n)%nat ->
    fst (write_blocks_loop n buffer off s) = SD_BLOCK_DEVICE_ERROR_NONE ->
    sent (events_since s (snd (write_blocks_loop n buffer off s)))
    = blocks_from buffer off n /\
    length (tokens (events_since s (snd (write_blocks_loop n buffer off s)))) = n /\
    Forall (fun resp => Z.land resp SPI_DATA_RESPONSE_MASK = SPI_DATA_ACCEPTED)
           (tokens (events_since s (snd (write_blocks_loop n buffer off s)))).
Proof.
  intros n buffer off s Hn K.
  exact (proj2 (write_blocks_loop_sends n buffer off s Hn K)).
Qed.

Lemma X25_witness :
  ((1 <= 2)%nat /\
   fst (write_blocks_loop 2 (repeat 0xAB 1024) 0 two_blocks_accepted_state)
     = SD_BLOCK_DEVICE_ERROR_NONE) /\
  sent (events_since two_blocks_accepted_state
          (snd (write_blocks_loop 2 (repeat 0xAB 1024) 0 two_blocks_accepted_state)))
  = blocks_from (repeat 0xAB 1024) 0 2 /\
  length (tokens (events_since two_blocks_accepted_state
                    (snd (write_blocks_loop 2 (repeat 0xAB 1024) 0
                            two_blocks_accepted_state)))) = 2%nat /\
  Forall (fun resp => Z.land resp SPI_DATA_RESPONSE_MASK = SPI_DATA_ACCEPTED)
         (tokens (events_since two_blocks_accepted_state
                    (snd (write_blocks_loop 2 (repeat 0xAB 1024) 0
                            two_blocks_accepted_state)))).
Proof.
  assert (H1 : (1 <= 2)%nat) by lia.
  assert (H2 : fst (write_blocks_loop 2 (repeat 0xAB 1024) 0 two_blocks_accepted_state)
               = SD_BLOCK_DEVICE_ERROR_NONE) by (vm_compute; reflexivity).
  split; [split; [exact H1 | exact H2]|].
  exact (X25_write_blocks_loop_all_sent 2 (repeat 0xAB 1024) 0 two_blocks_accepted_state
           H1 H2).
Defined.

(** * The analyzer front end *)

Section DashboardProperties.
Variable num : Type.
Variable zero : num.
Variable positive : num -> bool.

Lemma update_pwm_coherent a d :
  coherent num zero d -> coherent num zero (update_pwm num zero a d).
Proof.
  unfold coherent, update_pwm. intros (H1 & H2).
  destruct (is_capturing num a); [cbn; intuition congruence|].
  destruct (pwm_active d) eqn:E; [cbn; intuition congruence|].
  rewrite E. intuition congruence.
Qed.

Lemma update_adc_coherent a d :
  coherent num zero d ->
  coherent num zero (fst (update_adc num zero a d)) /\
  Forall (shows_coherent num zero) (snd (update_adc num zero a d)).
Proof.
  unfold coherent, update_adc. intros (H1 & H2).
  destruct (is_adc_capturing num a); [destruct (is_transfer_complete num a)|];
    cbn; (split; [intuition congruence | repeat constructor]).
Qed.

Lemma update_protocol_coherent a d :
  coherent num zero d ->
  coherent num zero (update_protocol num positive a d).
Proof.
  unfold coherent, update_protocol. intros (H1 & H2).
  destruct (is_protocol_capturing num a); [|intuition congruence].
  cbv zeta. destruct (positive (get_uart_baud_rate num a)) eqn:P;
    [cbn; intuition congruence | intuition congruence].
Qed.

Lemma main_loop_pass_coherent a d :
  coherent num zero d ->
  coherent num zero (fst (main_loop_pass num zero positive a d)) /\
  Forall (shows_coherent num zero) (snd (main_loop_pass num zero positive a d)).
Proof.
  intros H. unfold main_loop_pass.
  destruct (is_wifi_connected num a).
  2:{ cbn [fst snd app]. split; [exact H|]. repeat constructor. }
  pose proof (update_pwm_coherent a d H) as C1.
  destruct (update_adc_coherent a _ C1) as [C2 F2].
  destruct (update_adc num zero a (update_pwm num zero a d)) as [d2 c2].
  cbn [fst snd] in *.
  pose proof (update_protocol_coherent a d2 C2) as C3.
  split; [exact C3|].
  apply Forall_app. split.
  - apply Forall_app. split; [exact F2|]. constructor; [exact C3 | constructor].
  - repeat constructor.
Qed.

Lemma main_loop_coherent passes :
  forall d,
    coherent num zero d ->
    coherent num zero (fst (main_loop num zero positive passes d)) /\
    Forall (shows_coherent num zero)
           (snd (main_loop num zero positive passes d)).
Proof.
  induction passes as [|a rest IH]; intros d H; cbn [main_loop].
  - split; [exact H | constructor].
  - destruct (main_loop_pass_coherent a d H) as [H1 F1].
    destruct (main_loop_pass num zero positive a d) as [d1 c1]. cbn [fst snd] in *.
    destruct (IH d1 H1) as [H2 F2].
    destruct (main_loop num zero positive rest d1) as [d2 c2]. cbn [fst snd] in *.
    split; [exact H2|]. apply Forall_app. split; assumption.
Qed.

(** X26.  Whatever the modules answer and however many passes the loop makes,
    the record [main] keeps, and every copy of it handed to
    [update_dashboard_data], is coherent: the PWM frequency and duty
    cycle are 0 whenever the PWM capture is shown inactive, and the
    analog frequency is 0 whenever the ADC capture is shown inactive. *)
Theorem X26_main_dashboard_coherent (wifi : list bool) (passes : list (answers num)) :
  coherent num zero (fst (main num zero positive wifi passes)) /\
  Forall (shows_coherent num zero)
         (snd (main num zero positive wifi passes)).
Proof.
  unfold main.
  destruct (wifi_wait num 30 wifi 0) as [[c rest] waited] eqn:W.
  assert (FW : forall fuel w c0 c1 r1 calls,
             wifi_wait num fuel w c0 = (c1, r1, calls) ->
             Forall (shows_coherent num zero) calls).
  { induction fuel as [|f IH]; intros w c0 c1 r1 calls; cbn [wifi_wait].
    - destruct (_ && _); intros H; injection H as _ _ <-; constructor.
    - destruct (_ && _).
      + destruct (wifi_wait num f (tl w) (c0 + 1)) as [[c2 r2] calls2] eqn:E.
        intros H. injection H as _ _ <-.
        repeat constructor. exact (IH _ _ _ _ _ E).
      + intros H; injection H as _ _ <-; constructor. }
  pose proof (FW _ _ _ _ _ _ W) as F1.
  assert (C0 : coherent num zero (dashboard_data0 num zero)).
  { repeat split; cbn; auto; discriminate. }
  destruct (main_loop_coherent passes _ C0) as [H2 F2].
  destruct (main_loop num zero positive passes (dashboard_data0 num zero)) as [d calls].
  cbn [fst snd] in *. split; [exact H2|].
  repeat (apply Forall_cons; [exact I|]).
  apply Forall_app. split; assumption.
Qed.

Lemma main_loop_pass_protocol a d :
  protocol_active d = true ->
  protocol_active (fst (main_loop_pass num zero positive a d)) = true.
Proof.
  intros H. unfold main_loop_pass.
  destruct (is_wifi_connected num a); [|exact H].
  assert (H1 : protocol_active (update_pwm num zero a d) = true).
  { unfold update_pwm. destruct (is_capturing num a); [exact H|].
    destruct (pwm_active d); exact H. }
  assert (H2 : protocol_active (fst (update_adc num zero a (update_pwm num zero a d)))
               = true).
  { unfold update_adc. destruct (is_adc_capturing num a);
      [destruct (is_transfer_complete num a)|]; exact H1. }
  destruct (update_adc num zero a (update_pwm num zero a d)) as [d2 c2].
  cbn [fst] in *. unfold update_protocol.
  destruct (is_protocol_capturing num a); [|exact H2].
  cbv zeta. destruct (positive _); [reflexivity | exact H2].
Qed.

(** X27.  The loop never clears [protocol_active]: once the record shows the
    protocol capture active it shows it active after every later pass,
    whatever the modules answer (also when the capture has stopped). *)
Theorem X27_main_loop_protocol_active_stays :
  forall (passes : list (answers num)) (d : DashboardData num),
    protocol_active d = true ->
    protocol_active (fst (main_loop num zero positive passes d)) = true.
Proof.
  induction passes as [|a rest IH]; intros d H; cbn [main_loop]; [exact H|].
  pose proof (main_loop_pass_protocol a d H) as H1.
  destruct (main_loop_pass num zero positive a d) as [d1 c1]. cbn [fst] in H1.
  specialize (IH d1 H1).
  destruct (main_loop num zero positive rest d1) as [d2 c2]. exact IH.
Qed.

Lemma wifi_wait_spec fuel :
  forall wifi c,
    0 <= c <= 30 -> (Z.to_nat (30 - c) <= fuel)%nat ->
    let r := wifi_wait num fuel wifi c in
    fst (fst r) = c + Z.of_nat (Nat.min (not_connected_prefix wifi) (Z.to_nat (30 - c))) /\
    snd r = concat (repeat [SleepMs 1000; HandleDashboardEvents]
                           (Nat.min (not_connected_prefix wifi) (Z.to_nat (30 - c)))).
Proof.
  induction fuel as [|f IH]; intros wifi c Hc Hf; cbn [wifi_wait].
  - assert (c = 30) by lia. subst c. change (30 <? 30) with false.
    rewrite andb_false_r. cbn [fst snd]. change (Z.to_nat (30 - 30)) with 0%nat.
    rewrite Nat.min_0_r. cbn. split; [lia | reflexivity].
  - destruct (c <? 30) eqn:L.
    + apply Z.ltb_lt in L.
      destruct wifi as [|[|] rest]; cbn [hd tl negb andb not_connected_prefix].
      * cbn. split; [lia | reflexivity].
      * cbn. split; [lia | reflexivity].
      * specialize (IH rest (c + 1) ltac:(lia) ltac:(lia)). cbv zeta in IH.
        destruct (wifi_wait num f rest (c + 1)) as [[c2 r2] calls2].
        cbn [fst snd] in *. destruct IH as [I1 I2].
        replace (Z.to_nat (30 - c)) with (S (Z.to_nat (30 - (c + 1)))) by lia.
        rewrite <- Nat.succ_min_distr. cbn [repeat concat]. rewrite I1, I2.
        split; [lia | reflexivity].
    + rewrite andb_false_r. apply Z.ltb_ge in L. assert (c = 30) by lia. subst c.
      change (Z.to_nat (30 - 30)) with 0%nat. rewrite Nat.min_0_r.
      cbn. split; [lia | reflexivity].
Qed.

(** X28.  The wait for the connection at start-up.  The loop makes as many
    rounds (a sleep of 1000 ms, then [handle_dashboard_events]) as
    [is_wifi_connected ()] answers "not connected" in a row, and 30 at
    most; the count it ends with is that number. *)
Theorem X28_wifi_wait_at_most_30 (wifi : list bool) :
  fst (fst (wifi_wait num 30 wifi 0))
  = Z.of_nat (Nat.min (not_connected_prefix wifi) 30) /\
  snd (wifi_wait num 30 wifi 0)
  = concat (repeat [SleepMs 1000; HandleDashboardEvents]
                   (Nat.min (not_connected_prefix wifi) 30)) /\
  0 <= fst (fst (wifi_wait num 30 wifi 0)) <= 30.
Proof.
  destruct (wifi_wait_spec 30 wifi 0 ltac:(lia) ltac:(reflexivity)) as [H1 H2].
  change (Z.to_nat (30 - 0)) with 30%nat in H1, H2.
  split; [rewrite H1; lia|]. split; [exact H2|]. rewrite H1. lia.
Qed.

End DashboardProperties.

Lemma X27_witness :
  protocol_active capture_seen = true /\
  protocol_active (fst (main_loop Z 0 (Z.ltb 0) [quiet_pass; quiet_pass] capture_seen))
    = true.
Proof.
  split; [reflexivity|].
  exact (X27_main_loop_protocol_active_stays Z 0 (Z.ltb 0) [quiet_pass; quiet_pass]
           capture_seen eq_refl).
Defined.
